(** * Universal solver client: swap pipeline, NFT transfer workflow and
      notification hub

    A shallow embedding of the Go package [solver] (the client of the
    cross-chain solver): the transaction-visibility polling loop, the pool
    lookup, the prepare / sign / submit pipeline, the NFT sale and transfer
    workflow, and the WebSocket notification hub.

    Conventions.
    - Go's [float64] is [spec_float] at precision 53 and maximal exponent
      1024; [math/big.Float] values are kept exactly, with the rounding of
      [Mul] at 53 bits written out.
    - A Go function returning [(T, error)] becomes a computation of an
      [outcome T]: a value, an error carrying its message, or a run-time
      panic.
    - Everything the package reaches outside the process (HTTP, JSON-RPC,
      the Ethereum node, WebSocket connections, [time.Sleep]) goes through
      an oracle that sees the history of events so far, and leaves an event
      in the trace.  Library code (go-ethereum, solana-go, strconv, base58)
      is a record of pure functions.
    - Calls to [Logger] are left out: they do not influence control flow. *)

From Stdlib Require Import ZArith String Ascii List Bool Lia.
From Stdlib Require Import SpecFloat.
From stdpp Require Import base option list gmap strings fin_maps pretty.

Local Open Scope string_scope.
Local Open Scope Z_scope.
Local Open Scope list_scope.
#[local] Set Warnings "-register-all".

(** ** Outcomes of Go calls *)

Inductive outcome (A : Type) : Type :=
| Ok (a : A)
| Err (msg : string)
| Panic (msg : string).
Arguments Ok {A} a.
Arguments Err {A} msg.
Arguments Panic {A} msg.

Definition is_ok {A} (o : outcome A) : bool :=
  match o with Ok _ => true | _ => false end.

Definition is_err {A} (o : outcome A) : bool :=
  match o with Err _ => true | _ => false end.

(** [fmt.Errorf("prefix: %w", err)] keeps the inner message after the prefix. *)
Definition wrap (prefix msg : string) : string := prefix +:+ ": " +:+ msg.

Definition obind {A B} (o : outcome A) (k : A -> outcome B) : outcome B :=
  match o with
  | Ok a => k a
  | Err e => Err e
  | Panic e => Panic e
  end.

(** [rewrap prefix o]: the idiom
    [if err != nil { return fmt.Errorf("prefix: %w", err) }]. *)
Definition rewrap {A} (prefix : string) (o : outcome A) : outcome A :=
  match o with
  | Err e => Err (wrap prefix e)
  | _ => o
  end.

(** ** Floating point *)

Definition float64 : Type := spec_float.
Definition prec64 : Z := 53.
Definition emax64 : Z := 1024.

(** The float64 nearest to an integer (an untyped constant such as [1e18]
    converted to float64). *)
Definition float64_of_Z (z : Z) : float64 := binary_normalize prec64 emax64 z 0 false.

Definition f64_zero : float64 := S754_zero false.

(** Go's [a > b] on float64: false as soon as one side is a NaN. *)
Definition f64_gt (a b : float64) : bool := SFltb b a.

(** [uint64(f)] for a float64 [f]: the fractional part is discarded; when the
    truncated value does not fit the result is implementation-specific and is
    left to [oob]. *)
Definition trunc_float (s : bool) (m : positive) (e : Z) : Z :=
  cond_Zopp s (if 0 <=? e then Zpos m * 2 ^ e else Zpos m / 2 ^ (- e)).

Definition uint64_of_float64 (oob : float64 -> Z) (f : float64) : Z :=
  match f with
  | S754_zero _ => 0
  | S754_finite s m e =>
      let z := trunc_float s m e in
      if (0 <=? z) && (z <? 2 ^ 64) then z else oob f
  | _ => oob f
  end.

(** *** [math/big.Float] at precision 53

    [new(big.Float).SetFloat64(x)] has precision 53 and rounding mode
    ToNearestEven; [Mul] into a receiver of precision 53 (or of precision 0
    with operands of precision 53) rounds the exact product to 53 bits.  The
    exponent of a [big.Float] is a 32-bit integer, so no product of two
    float64 values leaves the range.  A panic of the package carries an
    [ErrNaN], whose text is kept as the panic message. *)
Module BigFloat.

(** [Finite neg m e] is [(-1)^neg * m * 2^e]. *)
Inductive t : Type :=
| Zero (neg : bool)
| Inf (neg : bool)
| Finite (neg : bool) (m : positive) (e : Z).

Definition SetFloat64 (x : float64) : outcome t :=
  match x with
  | S754_nan => Panic "Float.SetFloat64(NaN)"
  | S754_zero s => Ok (Zero s)
  | S754_infinity s => Ok (Inf s)
  | S754_finite s m e => Ok (Finite s m e)
  end.

(** Number of bits dropped when [m] is cut to 53 significant bits. *)
Definition excess (m : Z) : Z := Z.log2 m + 1 - 53.

(** Round the positive integer [m] (scaled by [2^e]) to 53 significant
    bits, ties to even. *)
Definition round53 (m e : Z) : Z * Z :=
  let d := excess m in
  if d <=? 0 then (m, e)
  else
    let q := m / 2 ^ d in
    let r := m mod 2 ^ d in
    let half := 2 ^ (d - 1) in
    let q' :=
      if r <? half then q
      else if r =? half then (if Z.even q then q else q + 1)
      else q + 1 in
    (q', e + d).

Definition Mul (x y : t) : outcome t :=
  match x, y with
  | Zero _, Inf _ | Inf _, Zero _ =>
      Panic "multiplication of zero with infinity"
  | Inf sx, Inf sy | Inf sx, Finite sy _ _ | Finite sx _ _, Inf sy =>
      Ok (Inf (xorb sx sy))
  | Zero sx, Zero sy | Zero sx, Finite sy _ _ | Finite sx _ _, Zero sy =>
      Ok (Zero (xorb sx sy))
  | Finite sx mx ex, Finite sy my ey =>
      let '(m, e) := round53 (Zpos (mx * my)) (ex + ey) in
      Ok (Finite (xorb sx sy) (Z.to_pos m) e)
  end.

(** [x.Int(z)]: [z] is set to [x] truncated toward zero; for an infinity
    the method returns nil and leaves [z] as it was. *)
Definition Int (x : t) (z : Z) : Z :=
  match x with
  | Zero _ => 0
  | Inf _ => z
  | Finite s m e => trunc_float s m e
  end.

End BigFloat.

(** The float64 constant [1e18]. *)
Definition f64_1e18 : float64 := float64_of_Z (10 ^ 18).

(** The conversion written three times in the package (in
    [signEthereumTransaction], [ExecuteNFTContractTransaction] and
    [ListToken]): a float64 amount times [1e18] as [big.Float], truncated
    into a fresh [big.Int]. *)
Definition toWei (amount : float64) : outcome Z :=
  obind (BigFloat.SetFloat64 amount) (fun amountFloat =>
  obind (BigFloat.SetFloat64 f64_1e18) (fun multiplier =>
  obind (BigFloat.Mul amountFloat multiplier) (fun result =>
  Ok (BigFloat.Int result 0)))).

(** ** [strconv]

    [ParseFloat s] is [strconv.ParseFloat(s, 64)]: the value and the error
    (if any).  [FormatF x] is [fmt.Sprintf("%f", x)]. *)
Record Strconv : Type := {
  ParseFloat : string -> float64 * option string;
  FormatF : float64 -> string;
}.

(** ** Data model (the package's type declarations) *)

Record SwapResult : Type := {
  FromToken : string;
  ToToken : string;
  FromAmount : float64;
  ToAmount : float64;
  ExchangeRate : float64;
}.

Record ChainParams : Type := {
  (* common *)
  FromAddress : string;
  ToAddress : string;
  Amount : string;
  (* Ethereum *)
  GasPrice : string;
  GasLimit : Z;
  Nonce : Z;
  (* Solana *)
  RecentBlockhash : string;
  Lamports : float64;
}.

(** The field [ChainParams] of the Go struct is [Chain_Params] here, and the
    field [SwapResult] of [SwapResponse] is [Swap_Result]: a field cannot
    share the name of its type. *)
Record TransactionPrep : Type := {
  Chain : string;
  RawTx : string;
  Chain_Params : ChainParams;
}.

(** [TxToSign] is a pointer: [None] is nil. *)
Record SwapResponse : Type := {
  TxHash : string;
  Swap_Result : SwapResult;
  Status : string;
  TxToSign : option TransactionPrep;
  DestinationAddress : string;
}.

Record Pool : Type := {
  ChainName : string;
  PoolAddress : string;
}.

Definition set_RawTx (raw : string) (p : TransactionPrep) : TransactionPrep :=
  {| Chain := Chain p; RawTx := raw; Chain_Params := Chain_Params p |}.

Definition set_TxToSign (p : option TransactionPrep) (s : SwapResponse) : SwapResponse :=
  {| TxHash := TxHash s; Swap_Result := Swap_Result s; Status := Status s;
     TxToSign := p; DestinationAddress := DestinationAddress s |}.

Definition set_submitted (hash : string) (s : SwapResponse) : SwapResponse :=
  {| TxHash := hash; Swap_Result := Swap_Result s; Status := "submitted";
     TxToSign := TxToSign s; DestinationAddress := DestinationAddress s |}.

Module TransferParams.
Record t : Type := {
  SourceOwner : string;
  TokenId : string;
  TargetChainId : string;
  TargetOwner : string;
  ChainOwner : string;
  BuyFromToken : string;
  ToToken : string;
  Amount : string;
  BlobHash : string;
  NftId : string;
}.
End TransferParams.

(** A GraphQL answer [{data, errors}]; [errors] keeps the messages. *)
Record GraphQL (A : Type) : Type := {
  gql_data : A;
  gql_errors : list string;
}.
Arguments gql_data {A} _.
Arguments gql_errors {A} _.

(** [NFTQueryResponse.Data.NftUsingBlobHash], with the fields the workflow
    reads. *)
Record NftUsingBlobHash : Type := {
  nft_TokenId : string;
  nft_Price : string;
  nft_ID : Z;
}.

(** JSON values as [encoding/json] decodes them into [interface{}]. *)
Inductive Json : Type :=
| JNull
| JBool (b : bool)
| JNum (z : Z)
| JStr (s : string)
| JArr (items : list Json)
| JObj (fields : list (string * Json)).

(** [WSMessage]: [Type], [Data] and [Error] (a keyword cannot be a field
    name). *)
Record WSMessage : Type := {
  MsgType : string;
  MsgData : Json;
  MsgError : string;
}.

(** A [*websocket.Conn]: connections are compared by identity. *)
Definition Conn : Type := nat.

(** ** Library values *)

Definition bytes : Type := list Byte.byte.

(** A legacy Ethereum transaction as [types.NewTransaction] builds it. *)
Record EthTx : Type := {
  tx_nonce : Z;
  tx_to : Z;
  tx_value : Z;
  tx_gas : Z;
  tx_gasPrice : Z;
  tx_data : bytes;
}.

(** [types.NewTransaction]: a nil gas price is copied as zero. *)
Definition NewTransaction (nonce to amount gasLimit : Z) (gasPrice : option Z)
    (data : bytes) : EthTx :=
  {| tx_nonce := nonce; tx_to := to; tx_value := amount; tx_gas := gasLimit;
     tx_gasPrice := default 0 gasPrice; tx_data := data |}.

Definition EthKey : Type := Z.
Definition SolKey : Type := bytes.
Definition PublicKey : Type := bytes.

(** [keys.ChainKeys]: both keys are pointers. *)
Record ChainKeys : Type := {
  EthereumKey : option EthKey;
  SolanaKey : option SolKey;
}.

Record EthLib : Type := {
  SignedTx : Type;
  HexToAddress : string -> Z;
  (* new(big.Int).SetString(s, 10) *)
  BigInt_SetString : string -> option Z;
  (* types.SignTx(tx, types.NewEIP155Signer(chainID), key) *)
  SignTx : EthTx -> Z -> EthKey -> outcome SignedTx;
  MarshalBinary : SignedTx -> outcome bytes;
  UnmarshalBinary : bytes -> outcome SignedTx;
  hexutil_Encode : bytes -> string;
  hexutil_Decode : string -> outcome bytes;
  TxHashHex : SignedTx -> string;
  (* bind.NewKeyedTransactorWithChainID(key, chainID): the sender *)
  NewKeyedTransactorWithChainID : option EthKey -> Z -> outcome Z;
}.

(** The one instruction the package builds:
    [system.NewTransferInstruction(lamports, from, to).Build()]. *)
Record TransferInstruction : Type := {
  ti_lamports : Z;
  ti_from : PublicKey;
  ti_to : PublicKey;
}.

Record SolLib : Type := {
  SolTx : Type;
  PublicKeyFromBase58 : string -> outcome PublicKey;
  (* solana.MustHashFromBase58 panics on a malformed hash *)
  MustHashFromBase58 : string -> outcome bytes;
  (* solana.NewTransaction: the transaction pointer (nil on error) and the error *)
  Sol_NewTransaction : list TransferInstruction -> bytes -> option SolTx * option string;
  (* tx.Sign(getter): the transaction afterwards and the error *)
  Sol_Sign : SolTx -> (PublicKey -> option SolKey) -> SolTx * option string;
  Sol_MarshalBinary : SolTx -> outcome bytes;
  base58_Encode : bytes -> string;
  Sol_PublicKey : SolKey -> PublicKey;
  PublicKey_Equals : PublicKey -> PublicKey -> bool;
  (* uint64(f) where the truncated value does not fit *)
  uint64_oob : float64 -> Z;
}.

(** ** Events and oracles *)

Inductive Event : Type :=
| EvRPC (endpoint method : string) (params : list Json)
| EvSleep (seconds : Z)
| EvHTTP (url body : string)
| EvEthDial (url : string)
| EvEthQuery (what : string)
| EvEthSign (tx : EthTx)
| EvEthSend (raw : string)
| EvTransact (contract : Z) (method : string) (arg value : Z)
| EvWaitMined (hash : string)
| EvSolQuery (what : string)
| EvSolSign (ins : TransferInstruction) (blockhash : bytes)
| EvChanSend (msg : WSMessage)
| EvWriteJSON (conn : Conn) (msg : WSMessage)
| EvClose (conn : Conn).

(** What an HTTP exchange followed by JSON decoding can give. *)
Inductive HttpReply (A : Type) : Type :=
| RequestError (msg : string)
| TransportError (msg : string)
| DecodeError (msg : string)
| Decoded (a : A).
Arguments RequestError {A} msg.
Arguments TransportError {A} msg.
Arguments DecodeError {A} msg.
Arguments Decoded {A} a.

(** Every oracle takes the trace so far: two calls with the same arguments
    may be answered differently. *)
Record Network (E : EthLib) : Type := {
  rpc_post : list Event -> string -> string -> list Json -> HttpReply (gmap string Json);
  graphql_pools : list Event -> string -> string -> HttpReply (GraphQL (list Pool));
  graphql_nft : list Event -> string -> string -> HttpReply NftUsingBlobHash;
  graphql_transfer : list Event -> string -> string -> HttpReply (GraphQL string);
  eth_dial : list Event -> string -> option string;
  eth_suggest_gas_price : list Event -> outcome Z;
  eth_pending_nonce : list Event -> Z -> outcome Z;
  eth_send : list Event -> SignedTx E -> option string;
  contract_transact : list Event -> Z -> Z -> Z -> string -> Z -> outcome string;
  wait_mined : list Event -> string -> option string;
  sol_latest_blockhash : list Event -> string -> outcome string;
  ws_write : list Event -> Conn -> WSMessage -> option string;
}.
Arguments rpc_post {E} _.
Arguments graphql_pools {E} _.
Arguments graphql_nft {E} _.
Arguments graphql_transfer {E} _.
Arguments eth_dial {E} _.
Arguments eth_suggest_gas_price {E} _.
Arguments eth_pending_nonce {E} _.
Arguments eth_send {E} _.
Arguments contract_transact {E} _.
Arguments wait_mined {E} _.
Arguments sol_latest_blockhash {E} _.
Arguments ws_write {E} _.

(** The package-level variables set by [InitConfig] and [InitKeys], and the
    URLs held by the [Client]. *)
Record Config : Type := {
  EthereumRPC : string;
  SolanaRPC : string;
  NFTAddress : string;
  chainKeys : option ChainKeys;
  solverURL : string;
  nonFungibleURL : string;
}.

(** ** The state threaded through the package

    [swap] is the [*SwapResponse] a pipeline run works on, [clients] the
    hub's registry [map[*websocket.Conn]bool], [trace] the events so far. *)
Record World : Type := {
  swap : SwapResponse;
  clients : gmap Conn bool;
  trace : list Event;
}.

Definition M (A : Type) : Type := World -> outcome A * World.

Definition ret {A} (a : A) : M A := fun w => (Ok a, w).

Definition bind {A B} (c : M A) (k : A -> M B) : M B :=
  fun w =>
    match c w with
    | (Ok a, w') => k a w'
    | (Err e, w') => (Err e, w')
    | (Panic e, w') => (Panic e, w')
    end.

Notation "'do' x <- c ; k" := (bind c (fun x => k))
  (at level 10, x name, c at level 100, k at level 200).
Notation "c ;; k" := (bind c (fun _ => k))
  (at level 100, k at level 200, right associativity).

Definition lift {A} (o : outcome A) : M A := fun w => (o, w).
Definition fail {A} (msg : string) : M A := lift (Err msg).
Definition panic {A} (msg : string) : M A := lift (Panic msg).

(** [if err != nil { return fmt.Errorf("prefix: %w", err) }] around a call. *)
Definition ctx {A} (prefix : string) (c : M A) : M A :=
  fun w => let (o, w') := c w in (rewrap prefix o, w').

Definition emit (ev : Event) : M unit :=
  fun w => (Ok tt, {| swap := swap w; clients := clients w; trace := trace w ++ [ev] |}).

Definition history : M (list Event) := fun w => (Ok (trace w), w).
Definition get_swap : M SwapResponse := fun w => (Ok (swap w), w).
Definition put_swap (s : SwapResponse) : M unit :=
  fun w => (Ok tt, {| swap := s; clients := clients w; trace := trace w |}).
Definition get_clients : M (gmap Conn bool) := fun w => (Ok (clients w), w).
Definition put_clients (m : gmap Conn bool) : M unit :=
  fun w => (Ok tt, {| swap := swap w; clients := m; trace := trace w |}).

(** An error value as a computation: nil continues, non-nil returns. *)
Definition check (prefix : string) (err : option string) : M unit :=
  match err with
  | None => ret tt
  | Some e => fail (wrap prefix e)
  end.

(** Characters that a string literal cannot hold directly. *)
Definition dq : string := String "034"%char EmptyString.
Definition nl : string := String "010"%char EmptyString.
Definition tab : string := String "009"%char EmptyString.

(** [m["result"] == nil]: the key is absent or holds JSON null. *)
Definition json_is_nil (v : option Json) : bool :=
  match v with
  | None | Some JNull => true
  | Some _ => false
  end.

Section Solver.

Context (sc : Strconv) (E : EthLib) (SL : SolLib) (N : Network E) (cfg : Config).

(** Formatting that the package delegates to [fmt] and [math/big]. *)
Context (BigInt_String : Z -> string) (Itoa : Z -> string) (FormatV : Json -> string).

(** ** Transaction visibility polling *)

(** [makeRPCRequest]: the decoded answer (nil on error) and the error.
    Every failure inside (building the request, the exchange, decoding) is
    returned as it is. *)
Definition makeRPCRequest (endpoint method : string) (params : list Json)
    : M (option (gmap string Json) * option string) :=
  do h <- history;
  emit (EvRPC endpoint method params) ;;
  ret match rpc_post N h endpoint method params with
      | RequestError e | TransportError e | DecodeError e => (None, Some e)
      | Decoded result => (Some result, None)
      end.

Definition getTransaction_params (txHash : string) : list Json :=
  [JStr txHash;
   JObj [("encoding", JStr "json"); ("maxSupportedTransactionVersion", JNum 0)]].

(** The [for i := 0; i < 10; i++] loop with [n] iterations left;
    [response] and [err] are the variables declared before the loop. *)
Fixpoint pollLoop (n : nat) (txHash : string)
    (response : option (gmap string Json)) (err : option string)
    : M (option (gmap string Json) * option string) :=
  match n with
  | O => ret (response, err)
  | S n' =>
      do r <- makeRPCRequest (SolanaRPC cfg) "getTransaction" (getTransaction_params txHash);
      let '(response, err) := r in
      let resultNil :=
        match response with
        | Some responseMap => json_is_nil (responseMap !! "result")
        | None => false
        end in
      if resultNil then
        emit (EvSleep 5) ;; pollLoop n' txHash response err   (* continue *)
      else
        match err with
        | None => ret (response, err)                         (* break *)
        | Some _ => pollLoop n' txHash response err
        end
  end.

Definition GetSolanaTransaction (txHash : string) : M (option (gmap string Json)) :=
  do r <- pollLoop 10 txHash None None;
  let '(response, err) := r in
  match err with
  | Some e => fail (wrap "failed to get Solana transaction after 10 retries" e)
  | None => ret response
  end.

(** ** Pool registry *)

Definition pools_query : string :=
  "{" +:+ dq +:+ "query" +:+ dq +:+ ":" +:+ dq
      +:+ "query pools{getAllPools{chainName poolAddress}}" +:+ dq +:+ "}".

(** What [GetAllPools] makes of the exchange: the three failures of the
    exchange, the GraphQL error list, and the pools accumulated from the
    answer. *)
Definition decodePools (reply : HttpReply (GraphQL (list Pool))) : outcome (list Pool) :=
  match reply with
  | RequestError e => Err (wrap "error creating request" e)
  | TransportError e => Err (wrap "error sending request" e)
  | DecodeError e => Err (wrap "error parsing response" e)
  | Decoded result =>
      match gql_errors result with
      | e :: _ => Err ("GraphQL error: " +:+ e)
      | [] =>
          Ok (map (fun pool => {| ChainName := ChainName pool;
                                  PoolAddress := PoolAddress pool |})
                  (gql_data result))
      end
  end.

Definition GetAllPools : M (list Pool) :=
  do h <- history;
  emit (EvHTTP (solverURL cfg) pools_query) ;;
  lift (decodePools (graphql_pools N h (solverURL cfg) pools_query)).

(** The [for _, pool := range pools] scan of [getPoolAddress]. *)
Fixpoint findPool (pools : list Pool) (token : string) : option string :=
  match pools with
  | [] => None
  | pool :: rest =>
      if String.eqb (ChainName pool) token then Some (PoolAddress pool)
      else findPool rest token
  end.

Definition getPoolAddress (token : string) : M string :=
  do pools <- ctx "failed to get pools" GetAllPools;
  match findPool pools token with
  | Some address => ret address
  | None => fail ("pool not found for token: " +:+ token)
  end.

Definition GetPool (chain : string) : M string := getPoolAddress chain.

(** ** Prepare *)

Definition determineChain (token : string) : string :=
  if String.eqb token "ETH" then "ethereum"
  else if String.eqb token "SOL" then "solana"
  else "unknown".

Definition dialEthereum : M unit :=
  do h <- history;
  emit (EvEthDial (EthereumRPC cfg)) ;;
  check "failed to connect to Ethereum node" (eth_dial N h (EthereumRPC cfg)).

Definition prepareEthereumTransaction : M unit :=
  do s <- get_swap;
  do fromAddress <- ctx "failed to get source pool address"
                        (getPoolAddress (ToToken (Swap_Result s)));
  dialEthereum ;;
  do h <- history;
  emit (EvEthQuery "SuggestGasPrice") ;;
  do gasPrice <- ctx "failed to get gas price" (lift (eth_suggest_gas_price N h));
  do h <- history;
  emit (EvEthQuery "PendingNonceAt") ;;
  do nonce <- ctx "failed to get nonce"
                  (lift (eth_pending_nonce N h (HexToAddress E fromAddress)));
  do s <- get_swap;
  put_swap (set_TxToSign (Some
    {| Chain := "ethereum";
       RawTx := EmptyString;
       Chain_Params :=
         {| FromAddress := fromAddress;
            ToAddress := DestinationAddress s;
            Amount := FormatF sc (ToAmount (Swap_Result s));
            GasPrice := BigInt_String gasPrice;
            GasLimit := 21000;
            Nonce := nonce;
            RecentBlockhash := EmptyString;
            Lamports := f64_zero |} |}) s).

Definition prepareSolanaTransaction : M unit :=
  do s <- get_swap;
  do fromAddress <- ctx "failed to get source pool address"
                        (getPoolAddress (ToToken (Swap_Result s)));
  do h <- history;
  emit (EvSolQuery "GetLatestBlockhash") ;;
  do blockhash <- ctx "failed to get recent blockhash"
                      (lift (sol_latest_blockhash N h (SolanaRPC cfg)));
  do s <- get_swap;
  put_swap (set_TxToSign (Some
    {| Chain := "solana";
       RawTx := EmptyString;
       Chain_Params :=
         {| FromAddress := fromAddress;
            ToAddress := DestinationAddress s;
            Amount := FormatF sc (ToAmount (Swap_Result s));
            GasPrice := EmptyString;
            GasLimit := 0;
            Nonce := 0;
            RecentBlockhash := blockhash;
            Lamports := ToAmount (Swap_Result s) |} |}) s).

Definition PrepareTransaction (chain : string) : M unit :=
  if String.eqb chain "ethereum" then prepareEthereumTransaction
  else if String.eqb chain "solana" then prepareSolanaTransaction
  else fail ("unsupported chain: " +:+ chain).

(** ** Sign *)

(** The anonymous function computing the value of the Ethereum
    transaction: the parse error is dropped. *)
Definition ethValueOfAmount (amount : string) : outcome Z :=
  let amountFloat := fst (ParseFloat sc amount) in
  toWei amountFloat.

(** The transaction object built by [signEthereumTransaction]. *)
Definition ethTxOf (cp : ChainParams) : outcome EthTx :=
  obind (ethValueOfAmount (Amount cp)) (fun value =>
  Ok (NewTransaction (Nonce cp) (HexToAddress E (ToAddress cp)) value
                     (GasLimit cp) (BigInt_SetString E (GasPrice cp)) [])).

Definition signEthereumTransaction : M unit :=
  match chainKeys cfg with
  | None => fail "ethereum private key not initialized"
  | Some ks =>
      match EthereumKey ks with
      | None => fail "ethereum private key not initialized"
      | Some key =>
          do s <- get_swap;
          match TxToSign s with
          | None => panic "nil pointer dereference"
          | Some p =>
              do tx <- lift (ethTxOf (Chain_Params p));
              emit (EvEthSign tx) ;;
              do signedTx <- ctx "failed to sign transaction"
                                 (lift (SignTx E tx 1337 key));
              do rawTxBytes <- ctx "failed to encode signed transaction"
                                   (lift (MarshalBinary E signedTx));
              put_swap (set_TxToSign
                          (Some (set_RawTx (hexutil_Encode E rawTxBytes) p)) s)
          end
      end
  end.

(** The key getter handed to [tx.Sign]: the configured key when its public
    key is the one asked for. *)
Definition solanaKeyGetter (solKey : SolKey) (key : PublicKey) : option SolKey :=
  if PublicKey_Equals SL (Sol_PublicKey SL solKey) key then Some solKey else None.

Definition solanaInstruction (cp : ChainParams) (from_address to_address : PublicKey)
    : TransferInstruction :=
  {| ti_lamports := uint64_of_float64 (uint64_oob SL) (Lamports cp);
     ti_from := from_address;
     ti_to := to_address |}.

Definition signSolanaTransaction : M unit :=
  match chainKeys cfg with
  | None => fail "solana private key not initialized"
  | Some ks =>
      match SolanaKey ks with
      | None => fail "solana private key not initialized"
      | Some solKey =>
          do s <- get_swap;
          match TxToSign s with
          | None => panic "nil pointer dereference"
          | Some p =>
              let cp := Chain_Params p in
              do from_address <- ctx "failed to get from address"
                                     (lift (PublicKeyFromBase58 SL (FromAddress cp)));
              do to_address <- ctx "failed to get to address"
                                   (lift (PublicKeyFromBase58 SL (ToAddress cp)));
              let ins := solanaInstruction cp from_address to_address in
              do blockhash <- lift (MustHashFromBase58 SL (RecentBlockhash cp));
              (* tx, err := solana.NewTransaction(...): err is not looked at *)
              match fst (Sol_NewTransaction SL [ins] blockhash) with
              | None => panic "nil pointer dereference"
              | Some tx =>
                  emit (EvSolSign ins blockhash) ;;
                  (* _, _ = tx.Sign(...) *)
                  let tx' := fst (Sol_Sign SL tx (solanaKeyGetter solKey)) in
                  do rawTx <- ctx "failed to serialize signed transaction"
                                  (lift (Sol_MarshalBinary SL tx'));
                  put_swap (set_TxToSign
                              (Some (set_RawTx (base58_Encode SL rawTx) p)) s)
              end
          end
      end
  end.

Definition SignTransaction : M unit :=
  do s <- get_swap;
  match TxToSign s with
  | None => fail "no transaction prepared for signing"
  | Some p =>
      if String.eqb (Chain p) "ethereum" then signEthereumTransaction
      else if String.eqb (Chain p) "solana" then signSolanaTransaction
      else fail ("unsupported chain for signing: " +:+ Chain p)
  end.

(** ** Submit *)

Definition submitEthereumTransaction : M unit :=
  dialEthereum ;;
  do s <- get_swap;
  match TxToSign s with
  | None => panic "nil pointer dereference"
  | Some p =>
      do rawTxBytes <- ctx "failed to decode raw transaction"
                           (lift (hexutil_Decode E (RawTx p)));
      do tx <- ctx "failed to unmarshal transaction"
                   (lift (UnmarshalBinary E rawTxBytes));
      do h <- history;
      emit (EvEthSend (RawTx p)) ;;
      check "failed to submit transaction" (eth_send N h tx) ;;
      put_swap (set_submitted (TxHashHex E tx) s)
  end.

Definition submitSolanaTransaction : M unit :=
  do s <- get_swap;
  match TxToSign s with
  | None => panic "nil pointer dereference"
  | Some p =>
      do r <- makeRPCRequest (SolanaRPC cfg) "sendTransaction"
                [JStr (RawTx p); JObj [("encoding", JStr "base58")]];
      let '(response, err) := r in
      check "failed to submit transaction" err ;;
      match response with
      | None => fail "invalid response format"
      | Some result =>
          match result !! "error" with
          | Some errMsg => fail ("RPC error: " +:+ FormatV errMsg)
          | None =>
              match result !! "result" with
              | Some (JStr signature) => put_swap (set_submitted signature s)
              | _ => fail "invalid signature format in response"
              end
          end
      end
  end.

Definition SubmitTransaction : M unit :=
  do s <- get_swap;
  match TxToSign s with
  | None => fail "no signed transaction available"
  | Some p =>
      if String.eqb (RawTx p) EmptyString then fail "no signed transaction available"
      else if String.eqb (Chain p) "ethereum" then submitEthereumTransaction
      else if String.eqb (Chain p) "solana" then submitSolanaTransaction
      else fail ("unsupported chain for submission: " +:+ Chain p)
  end.

(** ** NFT sale and transfer *)

(** Helper function to parse float64: the error of [ParseFloat] is
    dropped. *)
Definition parseFloat64 (s : string) : float64 := fst (ParseFloat sc s).

Definition nft_query (id : string) : string :=
  "{" +:+ nl +:+ tab +:+ tab +:+ dq +:+ "query" +:+ dq +:+ ": " +:+ dq
      +:+ "query nft{nftUsingBlobHash(id:" +:+ id
      +:+ "){token tokenId price chainOwner chainMinter name owner id minter payload}}"
      +:+ dq +:+ nl +:+ tab +:+ "}".

Definition GetNFTDetails (id : string) : M NftUsingBlobHash :=
  do h <- history;
  emit (EvHTTP (nonFungibleURL cfg) (nft_query id)) ;;
  match graphql_nft N h (nonFungibleURL cfg) (nft_query id) with
  | RequestError e => fail (wrap "error creating NFT query request" e)
  | TransportError e => fail (wrap "error executing NFT query" e)
  | DecodeError e => fail (wrap "error parsing NFT query response" e)
  | Decoded nftResp => ret nftResp
  end.

(** [var amount float64] followed by the only assignment to it. *)
Definition saleAmount (calSwapAmount listedPrice : float64) : float64 :=
  if f64_gt calSwapAmount listedPrice then listedPrice else f64_zero.

(** [auth.Value]: the amount converted to wei. *)
Definition saleValueWei (calSwapAmount listedPrice : float64) : outcome Z :=
  toWei (saleAmount calSwapAmount listedPrice).

Definition ExecuteNFTContractTransaction (tokenId : Z)
    (calSwapAmount listedPrice : float64) : M string :=
  dialEthereum ;;
  let contractAddress := HexToAddress E (NFTAddress cfg) in
  do amountWei <- lift (saleValueWei calSwapAmount listedPrice);
  match chainKeys cfg with
  | None => panic "nil pointer dereference"
  | Some ks =>
      do auth <- ctx "failed to create auth"
                     (lift (NewKeyedTransactorWithChainID E (EthereumKey ks) 1337));
      match BigInt_SetString E (Itoa tokenId) with
      | None => fail ("failed to parse token ID: " +:+ Itoa tokenId)
      | Some tokenIdInt =>
          do h <- history;
          emit (EvTransact contractAddress "executeSale" tokenIdInt amountWei) ;;
          do tx <- ctx "failed to execute sale"
                       (lift (contract_transact N h contractAddress auth amountWei
                                                "executeSale" tokenIdInt));
          do h <- history;
          emit (EvWaitMined tx) ;;
          check "failed to wait for transaction" (wait_mined N h tx) ;;
          ret tx
      end
  end.

Definition status_message (type status message : string) : WSMessage :=
  {| MsgType := type;
     MsgData := JObj [("status", JStr status); ("message", JStr message)];
     MsgError := EmptyString |}.

(** An escaped quote inside the query text. *)
Definition esc : string := "\" +:+ dq.

Definition transfer_mutation (params : TransferParams.t) : string :=
  "{" +:+ nl +:+ "    " +:+ dq +:+ "query" +:+ dq +:+ ": " +:+ dq
      +:+ "mutation transfer{transfer(sourceOwner:" +:+ esc
      +:+ TransferParams.SourceOwner params +:+ esc +:+ ", tokenId:" +:+ esc
      +:+ TransferParams.TokenId params +:+ esc +:+ ", targetAccount: { chainId:" +:+ esc
      +:+ TransferParams.TargetChainId params +:+ esc +:+ ", owner:" +:+ esc
      +:+ TransferParams.TargetOwner params +:+ esc +:+ "}, chainOwner:" +:+ esc
      +:+ TransferParams.ChainOwner params +:+ esc +:+ ", buyFromToken:" +:+ esc
      +:+ TransferParams.BuyFromToken params +:+ esc +:+ ",toToken:" +:+ esc
      +:+ TransferParams.ToToken params +:+ esc +:+ ", amount:" +:+ esc
      +:+ TransferParams.Amount params +:+ esc +:+ ")}" +:+ dq +:+ nl +:+ "}".

Definition ExecuteTransferMutation (params : TransferParams.t)
    : M (GraphQL string * string) :=
  emit (EvChanSend (status_message "nft_transfer_initiated" "initiated"
                      "fetching nft detail from nft solver")) ;;
  do nftDetails <- ctx "failed to get NFT details"
                       (GetNFTDetails (TransferParams.NftId params));
  do hash <-
    (if String.eqb (TransferParams.ToToken params) "ETH" then
       ctx "failed to execute NFT contract transaction after transfer"
           (ExecuteNFTContractTransaction (nft_ID nftDetails)
              (parseFloat64 (TransferParams.Amount params))
              (parseFloat64 (nft_Price nftDetails)))
     else ret EmptyString);
  emit (EvChanSend (status_message "nft_transfer_pending" "pending"
                      "Dex solver and Nft solver will be coordinated for transfer")) ;;
  do h <- history;
  emit (EvHTTP (nonFungibleURL cfg) (transfer_mutation params)) ;;
  match graphql_transfer N h (nonFungibleURL cfg) (transfer_mutation params) with
  | RequestError e => fail (wrap "error creating transfer request" e)
  | TransportError e => fail (wrap "error executing transfer" e)
  | DecodeError e => fail (wrap "error parsing transfer response" e)
  | Decoded transferResp =>
      match gql_errors transferResp with
      | e :: _ => fail ("transfer error: " +:+ e)
      | [] =>
          emit (EvChanSend (status_message "nft_transfer_completed" "completed"
                  "Successfully coordination complete between solvers and executed transfer")) ;;
          ret (transferResp, hash)
      end
  end.

(** ** Notification hub *)

(** [conn.WriteJSON(msg)] with its result. *)
Definition WriteJSON (conn : Conn) (msg : WSMessage) : M (option string) :=
  do h <- history;
  emit (EvWriteJSON conn msg) ;;
  ret (ws_write N h conn msg).

(** The order in which [range] walks the registry is chosen by the
    run-time system. *)
Context (range_order : gmap Conn bool -> list Conn).

(** The body of [for client := range c.clients] over the keys still to be
    visited: a key removed before it is reached is not produced. *)
Fixpoint rangeClients (order : list Conn) (msg : WSMessage) : M unit :=
  match order with
  | [] => ret tt
  | client :: rest =>
      do cs <- get_clients;
      match cs !! client with
      | None => rangeClients rest msg
      | Some _ =>
          do err <- WriteJSON client msg;
          match err with
          | Some _ =>
              emit (EvClose client) ;;
              do cs <- get_clients;
              put_clients (delete client cs) ;;
              rangeClients rest msg
          | None => rangeClients rest msg
          end
      end
  end.

(** One turn of [for msg := range c.broadcast]. *)
Definition broadcastOne (msg : WSMessage) : M unit :=
  do cs <- get_clients;
  rangeClients (range_order cs) msg.

(** [handleBroadcasts] on the messages received from the channel. *)
Fixpoint handleBroadcasts (msgs : list WSMessage) : M unit :=
  match msgs with
  | [] => ret tt
  | msg :: rest => broadcastOne msg ;; handleBroadcasts rest
  end.

Definition connected_message : WSMessage :=
  {| MsgType := "connected";
     MsgData := JStr "Successfully connected to WebSocket";
     MsgError := EmptyString |}.

Definition pong_message : WSMessage :=
  {| MsgType := "pong"; MsgData := JStr "pong"; MsgError := EmptyString |}.

Definition unknown_type_message : WSMessage :=
  {| MsgType := "error"; MsgData := JNull; MsgError := "Unknown message type" |}.

(** The [switch msg.Type] of the read loop. *)
Definition handleInbound (conn : Conn) (msg : WSMessage) : M unit :=
  if String.eqb (MsgType msg) "ping" then WriteJSON conn pong_message ;; ret tt
  else WriteJSON conn unknown_type_message ;; ret tt.

(** The read loop on the messages [ReadJSON] delivers before it fails. *)
Fixpoint readLoop (conn : Conn) (inbound : list WSMessage) : M unit :=
  match inbound with
  | [] => ret tt
  | msg :: rest => handleInbound conn msg ;; readLoop conn rest
  end.

(** [HandleWebSocket]: [upgraded] is the connection the upgrade gives
    (nil when it fails). *)
Definition HandleWebSocket (upgraded : option Conn) (inbound : list WSMessage) : M unit :=
  match upgraded with
  | None => ret tt
  | Some conn =>
      do cs <- get_clients;
      put_clients (<[conn := true]> cs) ;;
      WriteJSON conn connected_message ;;
      readLoop conn inbound ;;
      (* deferred clean-up *)
      do cs <- get_clients;
      put_clients (delete conn cs) ;;
      emit (EvClose conn)
  end.

End Solver.

(** ** A reference environment

    Stand-ins for the libraries and the network, used to run the model on
    concrete inputs.  The decimal reader and the [%f] printer are exact on
    plain decimal literals; the signing and serialisation functions only
    render their arguments as text. *)
Module Reference.

Definition digit_of (c : ascii) : option Z :=
  let n := Z.of_nat (nat_of_ascii c) in
  if (48 <=? n) && (n <=? 57) then Some (n - 48) else None.

(** Leading decimal digits of [s]: their value on top of [acc], how many
    there are on top of [count], and what follows them. *)
Fixpoint read_digits (s : string) (acc count : Z) : Z * Z * string :=
  match s with
  | String c rest =>
      match digit_of c with
      | Some d => read_digits rest (10 * acc + d) (count + 1)
      | None => (acc, count, s)
      end
  | EmptyString => (acc, count, s)
  end.

Definition read_sign (s : string) : bool * string :=
  match s with
  | String "-"%char rest => (true, rest)
  | String "+"%char rest => (false, rest)
  | _ => (false, s)
  end.

(** The float64 nearest to [(-1)^neg * n * 10^d]. *)
Definition decimal_to_float (neg : bool) (n d : Z) : float64 :=
  match n with
  | Zpos p =>
      if 0 <=? d then binary_round prec64 emax64 neg (Z.to_pos (n * 10 ^ d)) 0
      else
        let '(q, e, loc) := SFdiv_core_binary prec64 emax64 n 0 (10 ^ (- d)) 0 in
        binary_round_aux prec64 emax64 neg q e loc
  | _ => S754_zero neg
  end.

Definition syntax_error : float64 * option string :=
  (f64_zero, Some "invalid syntax").

Definition finish (neg : bool) (n d : Z) : float64 * option string :=
  match decimal_to_float neg n d with
  | S754_infinity sg => (S754_infinity sg, Some "value out of range")
  | x => (x, None)
  end.

(** [sign digits [. digits] [e sign digits]], nothing else. *)
Definition parseDecimal (s : string) : float64 * option string :=
  let '(neg, s1) := read_sign s in
  let '(ip, ic, s2) := read_digits s1 0 0 in
  let '(n, fc, s3) :=
    match s2 with
    | String "."%char rest => read_digits rest ip 0
    | _ => (ip, 0, s2)
    end in
  if ic + fc =? 0 then syntax_error
  else
    match s3 with
    | EmptyString => finish neg n (- fc)
    | String c rest =>
        if (Ascii.eqb c "e" || Ascii.eqb c "E")%bool then
          let '(eneg, s4) := read_sign rest in
          let '(ev, ec, s5) := read_digits s4 0 0 in
          match s5 with
          | EmptyString =>
              if ec =? 0 then syntax_error
              else finish neg n (cond_Zopp eneg ev - fc)
          | _ => syntax_error
          end
        else syntax_error
    end.

(** Nearest integer to [a / 2^k], ties to even ([a >= 0], [k > 0]). *)
Definition div_round_even (a k : Z) : Z :=
  let q := a / 2 ^ k in
  let r := a mod 2 ^ k in
  let half := 2 ^ (k - 1) in
  if r <? half then q
  else if r =? half then (if Z.even q then q else q + 1)
  else q + 1.

Definition pad6 (s : string) : string :=
  String.concat EmptyString (repeat "0" (6 - String.length s)) +:+ s.

(** [%f]: six digits after the point. *)
Definition formatF (x : float64) : string :=
  match x with
  | S754_nan => "NaN"
  | S754_infinity sg => if sg then "-Inf" else "+Inf"
  | S754_zero sg => (if sg then "-" else EmptyString) +:+ "0.000000"
  | S754_finite sg m e =>
      let r := if 0 <=? e then Zpos m * 10 ^ 6 * 2 ^ e
               else div_round_even (Zpos m * 10 ^ 6) (- e) in
      (if sg then "-" else EmptyString)
        +:+ pretty (r / 10 ^ 6) +:+ "." +:+ pad6 (pretty (r mod 10 ^ 6))
  end.

Definition strconv : Strconv :=
  {| ParseFloat := parseDecimal; FormatF := formatF |}.

(** A decimal integer with an optional sign. *)
Definition setString (s : string) : option Z :=
  let '(neg, s1) := read_sign s in
  let '(v, c, rest) := read_digits s1 0 0 in
  match rest with
  | EmptyString => if c =? 0 then None else Some (cond_Zopp neg v)
  | _ => None
  end.

Definition render_tx (tx : EthTx) : string :=
  pretty (tx_nonce tx) +:+ "," +:+ pretty (tx_to tx) +:+ "," +:+ pretty (tx_value tx)
    +:+ "," +:+ pretty (tx_gas tx) +:+ "," +:+ pretty (tx_gasPrice tx).

Definition ethlib : EthLib :=
  {| SignedTx := EthTx * (Z * EthKey);
     HexToAddress := fun s => Z.of_nat (String.length s);
     BigInt_SetString := setString;
     SignTx := fun tx chainID key => Ok (tx, (chainID, key));
     MarshalBinary := fun stx =>
       Ok (list_byte_of_string
             (render_tx (fst stx) +:+ ";" +:+ pretty (fst (snd stx))
                +:+ ";" +:+ pretty (snd (snd stx))));
     UnmarshalBinary := fun _ => Err "unsupported";
     hexutil_Encode := fun bs => "0x" +:+ string_of_list_byte bs;
     hexutil_Decode := fun s => Ok (list_byte_of_string s);
     TxHashHex := fun stx => "0x" +:+ render_tx (fst stx);
     NewKeyedTransactorWithChainID := fun key _ =>
       match key with Some k => Ok k | None => Panic "nil pointer dereference" end |}.

Fixpoint bytes_eqb (a b : bytes) : bool :=
  match a, b with
  | [], [] => true
  | x :: a', y :: b' => Byte.eqb x y && bytes_eqb a' b'
  | _, _ => false
  end.

(** A Solana transaction as its instruction, blockhash and signatures. *)
Definition sollib : SolLib :=
  {| SolTx := TransferInstruction * bytes * list SolKey;
     PublicKeyFromBase58 := fun s =>
       match s with
       | EmptyString => Err "invalid base58"
       | _ => Ok (list_byte_of_string s)
       end;
     MustHashFromBase58 := fun s =>
       match s with
       | EmptyString => Panic "invalid base58"
       | _ => Ok (list_byte_of_string s)
       end;
     Sol_NewTransaction := fun ins blockhash =>
       match ins with
       | i :: _ => (Some (i, blockhash, []), None)
       | [] => (None, Some "requires at-least one instruction to create a transaction")
       end;
     Sol_Sign := fun tx getter =>
       match getter (ti_from (fst (fst tx))) with
       | Some k => ((fst tx, [k]), None)
       | None => (tx, Some "signer key not found")
       end;
     Sol_MarshalBinary := fun tx =>
       Ok (concat (snd tx) ++ ti_from (fst (fst tx)) ++ ti_to (fst (fst tx))
             ++ list_byte_of_string (pretty (ti_lamports (fst (fst tx))))
             ++ snd (fst tx))%list;
     base58_Encode := string_of_list_byte;
     Sol_PublicKey := fun k => k;
     PublicKey_Equals := bytes_eqb;
     uint64_oob := fun _ => 2 ^ 63 |}.

Definition ethereum_pool : Pool :=
  {| ChainName := "ethereum"; PoolAddress := "0xPoolEthereum" |}.
Definition solana_pool : Pool :=
  {| ChainName := "solana"; PoolAddress := "PoolSolana" |}.

(** A network on which every call succeeds; connection 2 is closed. *)
Definition network : Network ethlib :=
  {| rpc_post := fun _ _ _ _ => Decoded {["result" := JStr "signature"]};
     graphql_pools := fun _ _ _ =>
       Decoded {| gql_data := [ethereum_pool; solana_pool]; gql_errors := [] |};
     graphql_nft := fun _ _ _ =>
       Decoded {| nft_TokenId := "token"; nft_Price := "2"; nft_ID := 7 |};
     graphql_transfer := fun _ _ _ =>
       Decoded {| gql_data := "transferred"; gql_errors := [] |};
     eth_dial := fun _ _ => None;
     eth_suggest_gas_price := fun _ => Ok 1000000000;
     eth_pending_nonce := fun _ _ => Ok 0;
     eth_send := fun _ _ => None;
     contract_transact := fun _ _ _ _ _ _ => Ok "0xsale";
     wait_mined := fun _ _ => None;
     sol_latest_blockhash := fun _ _ => Ok "blockhash";
     ws_write := fun _ conn _ =>
       if Nat.eqb conn 2 then Some "use of closed network connection" else None |}.

(** The same network, on which the looked-up transaction never becomes
    visible. *)
Definition network_not_visible : Network ethlib :=
  {| rpc_post := fun _ _ _ _ => Decoded {["result" := JNull]};
     graphql_pools := graphql_pools network;
     graphql_nft := graphql_nft network;
     graphql_transfer := graphql_transfer network;
     eth_dial := eth_dial network;
     eth_suggest_gas_price := eth_suggest_gas_price network;
     eth_pending_nonce := eth_pending_nonce network;
     eth_send := eth_send network;
     contract_transact := contract_transact network;
     wait_mined := wait_mined network;
     sol_latest_blockhash := sol_latest_blockhash network;
     ws_write := ws_write network |}.

Definition keys : ChainKeys :=
  {| EthereumKey := Some 42; SolanaKey := Some (list_byte_of_string "OtherKey") |}.

Definition config : Config :=
  {| EthereumRPC := "http://localhost:8545";
     SolanaRPC := "http://localhost:8899";
     NFTAddress := "0xMarketplace";
     chainKeys := Some keys;
     solverURL := "http://localhost:8080/solver";
     nonFungibleURL := "http://localhost:8080/nft" |}.

Definition range_order (m : gmap Conn bool) : list Conn := (map_to_list m).*1.

Definition quote : SwapResult :=
  {| FromToken := "SOL"; ToToken := "ethereum";
     FromAmount := float64_of_Z 3; ToAmount := S754_finite false 6755399441055744 (-52);
     ExchangeRate := S754_finite false 4503599627370496 (-53) |}.

Definition empty_swap : SwapResponse :=
  {| TxHash := EmptyString; Swap_Result := quote; Status := "pending";
     TxToSign := None; DestinationAddress := "0xDestination" |}.

Definition world0 : World :=
  {| swap := empty_swap; clients := ∅; trace := [] |}.

(** A quote paid out on Solana: 1.5 as the output amount. *)
Definition quote_sol : SwapResult :=
  {| FromToken := "ETH"; ToToken := "solana";
     FromAmount := float64_of_Z 3; ToAmount := S754_finite false 6755399441055744 (-52);
     ExchangeRate := S754_finite false 4503599627370496 (-53) |}.

Definition world_sol : World :=
  {| swap := {| TxHash := EmptyString; Swap_Result := quote_sol; Status := "pending";
                TxToSign := None; DestinationAddress := "Destination" |};
     clients := ∅; trace := [] |}.

End Reference.

(** * Specification vocabulary *)


(** The integer [m] needs no rounding at 53 bits: the bits beyond the 53rd
    are zero. *)
Definition exact53 (m : Z) : Prop :=
  BigFloat.excess m <= 0 \/ m mod 2 ^ BigFloat.excess m = 0.

(** The float64 value 1.5. *)
Definition float_1_5 : float64 := S754_finite false 6755399441055744 (-52).



(** The world after some more events. *)
Definition add_events (evs : list Event) (w : World) : World :=
  {| swap := swap w; clients := clients w; trace := trace w ++ evs |}.

(** One attempt of the polling loop on a transaction that is not visible:
    the request and the pause. *)
Definition poll_round (cfg : Config) (txHash : string) : list Event :=
  [EvRPC (SolanaRPC cfg) "getTransaction" (getTransaction_params txHash); EvSleep 5].

(** Every lookup is answered, and the answer holds no result. *)
Definition never_visible {E : EthLib} (N : Network E) : Prop :=
  forall h endpoint method params,
  exists result, rpc_post N h endpoint method params = Decoded result /\
                 json_is_nil (result !! "result") = true.

Definition is_rpc (ev : Event) : bool :=
  match ev with EvRPC _ _ _ => true | _ => false end.


(** The raw signed transaction held by the world's swap, if any. *)
Definition signed_output (w : World) : option string :=
  option_map RawTx (TxToSign (swap w)).

(** The signing libraries are not part of the repository, and what a signer
    returns may depend on more than its arguments (a nonce drawn at the call).
    A later invocation is therefore run against the libraries with the signers
    as they behave at that call. *)
Definition with_SignTx (E : EthLib)
    (sign : EthTx -> Z -> EthKey -> outcome (SignedTx E)) : EthLib :=
  {| SignedTx := SignedTx E;
     HexToAddress := HexToAddress E;
     BigInt_SetString := BigInt_SetString E;
     SignTx := sign;
     MarshalBinary := MarshalBinary E;
     UnmarshalBinary := UnmarshalBinary E;
     hexutil_Encode := hexutil_Encode E;
     hexutil_Decode := hexutil_Decode E;
     TxHashHex := TxHashHex E;
     NewKeyedTransactorWithChainID := NewKeyedTransactorWithChainID E |}.


(** A signer of the reference library that mixes a drawn nonce into the
    signature. *)
Definition sign_with_nonce (nonce : Z) (tx : EthTx) (chainID : Z) (key : EthKey)
    : outcome (SignedTx Reference.ethlib) :=
  Ok (tx, (chainID, key + nonce)).

(** The events of one broadcast when the connections in [closed] refuse
    the write: each subscriber is written to once, in the order of the walk,
    and a refusing one is closed. *)
Definition broadcast_events (closed : Conn -> bool) (msg : WSMessage)
    (order : list Conn) : list Event :=
  flat_map (fun c => if closed c then [EvWriteJSON c msg; EvClose c]
                     else [EvWriteJSON c msg]) order.

(** The registry without the connections that refused the write. *)
Definition prune (closed : Conn -> bool) (order : list Conn) (m : gmap Conn bool)
    : gmap Conn bool :=
  foldl (fun m c => if closed c then delete c m else m) m order.

(** A write is refused exactly on the connections in [closed]. *)
Definition write_fails_exactly_on {E : EthLib} (N : Network E) (closed : Conn -> bool)
    : Prop :=
  forall h c msg, ws_write N h c msg = None <-> closed c = false.

(** [order] lists the keys of the registry, each once. *)
Definition enumerates (order : list Conn) (m : gmap Conn bool) : Prop :=
  NoDup order /\ forall c, c ∈ order <-> is_Some (m !! c).

Definition is_write (ev : Event) : bool :=
  match ev with EvWriteJSON _ _ => true | _ => false end.

(** The events of a transfer towards ETH on which every step succeeds. *)
Definition transfer_events (E : EthLib) (cfg : Config) (params : TransferParams.t)
    (tokenIdInt value : Z) (saleHash : string) : list Event :=
  [EvChanSend (status_message "nft_transfer_initiated" "initiated"
                 "fetching nft detail from nft solver");
   EvHTTP (nonFungibleURL cfg) (nft_query (TransferParams.NftId params));
   EvEthDial (EthereumRPC cfg);
   EvTransact (HexToAddress E (NFTAddress cfg)) "executeSale" tokenIdInt value;
   EvWaitMined saleHash;
   EvChanSend (status_message "nft_transfer_pending" "pending"
                 "Dex solver and Nft solver will be coordinated for transfer");
   EvHTTP (nonFungibleURL cfg) (transfer_mutation params);
   EvChanSend (status_message "nft_transfer_completed" "completed"
                 "Successfully coordination complete between solvers and executed transfer")].

(** A transfer request towards ETH whose amount is not a number. *)
Definition transfer_with_bad_amount : TransferParams.t :=
  {| TransferParams.SourceOwner := "owner";
     TransferParams.TokenId := "token";
     TransferParams.TargetChainId := "chain";
     TransferParams.TargetOwner := "buyer";
     TransferParams.ChainOwner := "chainOwner";
     TransferParams.BuyFromToken := "SOL";
     TransferParams.ToToken := "ETH";
     TransferParams.Amount := "abc";
     TransferParams.BlobHash := "blob";
     TransferParams.NftId := "nft" |}.

(** * The rest of the package and the HTTP front

    The swap orchestration ([CalculateSwap], [ExecuteSwap]), the Ethereum
    transaction lookup, the data blob and listing calls, and the handlers of
    [main.go] that drive them.  The CORS wrapper and the JSON encoding of the
    answers are left out: an answer is kept as the value that is encoded. *)

(** [obj[key]] on a decoded JSON object: with a key given twice, the last
    one is what the decoder keeps. *)
Fixpoint obj_get (key : string) (fields : list (string * Json)) : option Json :=
  match fields with
  | [] => None
  | (k, v) :: rest =>
      match obj_get key rest with
      | Some later => Some later
      | None => if String.eqb k key then Some v else None
      end
  end.

(** [byte(b)] for an int [b]: the low eight bits. *)
Definition byte_of_int (b : Z) : Byte.byte :=
  default Byte.x00 (Byte.of_N (Z.to_N (b mod 256))).

(** [int(b)] for a byte [b]. *)
Definition int_of_byte (b : Byte.byte) : Z := Z.of_N (Byte.to_N b).

(** [fmt.Sprintf("%v", ints)] for a slice of ints: the values between
    brackets, separated by one space. *)
Definition format_ints (ints : list Z) : string :=
  "[" +:+ String.concat " " (map pretty ints) +:+ "]".

(** What a handler writes: [http.Error(w, message, code)], or the value it
    encodes as the JSON answer. *)
Inductive Reply (A : Type) : Type :=
| Refused (code : Z) (message : string)
| Answered (a : A).
Arguments Refused {A} code message.
Arguments Answered {A} a.

(** The part of an [*http.Request] the handlers read: the method and the
    first value of each query parameter. *)
Record Request : Type := {
  Method : string;
  Query : gmap string string;
}.

(** [r.URL.Query().Get(key)]: the empty string when the key is absent. *)
Definition query_get (r : Request) (key : string) : string :=
  default EmptyString (Query r !! key).

(** The answer of [handlePostTxHash]: the chain, the transaction, and the
    transfer result, quote and sale hash when a transfer was asked for. *)
Record TxHashAnswer : Type := {
  ans_chain : string;
  ans_data : option (gmap string Json);
  ans_transfer : option (string * SwapResult * string);
}.

(** A call whose error the caller looks at instead of returning it. *)
Definition attempt {A} (c : M A) : M (string + A) :=
  fun w =>
    match c w with
    | (Ok a, w') => (Ok (inr a), w')
    | (Err e, w') => (Ok (inl e), w')
    | (Panic e, w') => (Panic e, w')
    end.

(** [chainToToken] of [main.go]. *)
Definition chainToToken : gmap string string :=
  {[ "ethereum" := "ETH"; "solana" := "SOL" ]}.

Definition getTokenForChain (chain : string) : outcome string :=
  match chainToToken !! chain with
  | Some token => Ok token
  | None => Err ("unsupported chain: " +:+ chain)
  end.

Section Front.

Context (sc : Strconv) (E : EthLib) (SL : SolLib) (N : Network E) (cfg : Config).
Context (BigInt_String : Z -> string) (Itoa : Z -> string) (FormatV : Json -> string).

(** [fmt.Sprintf("%v", x)] for a float64 [x]. *)
Context (FormatG : float64 -> string).

(** The URL of the Linera service held by the [Client]. *)
Context (lineraURL : string).

(** The exchanges the functions below add: the quote, the swap mutation
    (whose answer is decoded twice, [inl] being the failure of the second
    decoding), the transaction lookup, the blob publication, the listing
    price, the listing transaction and the listing mutation. *)
Context (graphql_quote : list Event -> string -> string -> HttpReply (GraphQL SwapResult)).
Context (graphql_swap : list Event -> string -> string -> HttpReply (string + GraphQL string)).
Context (eth_transaction_by_hash : list Event -> string -> outcome (EthTx * string * bool)).
Context (graphql_blob : list Event -> string -> string -> HttpReply (GraphQL string)).
Context (contract_getListPrice : list Event -> Z -> outcome (list Z)).
Context (contract_listToken : list Event -> Z -> Z -> option Z -> Z -> Z -> outcome string).
Context (graphql_list_sale : list Event -> string -> string -> HttpReply (GraphQL Json)).

(** ** Quote and swap *)

Definition calculateSwap_query (fromToken toToken : string) (amount : float64) : string :=
  "{" +:+ nl +:+ tab +:+ tab +:+ dq +:+ "query" +:+ dq +:+ ": " +:+ dq
      +:+ "query { calculateSwap(fromToken:" +:+ esc +:+ fromToken +:+ esc
      +:+ ",toToken:" +:+ esc +:+ toToken +:+ esc
      +:+ ",amount:" +:+ FormatF sc amount
      +:+ ") { fromToken toToken fromAmount toAmount exchangeRate } }"
      +:+ dq +:+ nl +:+ tab +:+ "}".

Definition decodeQuote (reply : HttpReply (GraphQL SwapResult)) : outcome SwapResult :=
  match reply with
  | RequestError e => Err (wrap "error creating request" e)
  | TransportError e => Err (wrap "error executing request" e)
  | DecodeError e => Err (wrap "error decoding response" e)
  | Decoded result =>
      match gql_errors result with
      | e :: _ => Err ("GraphQL error: " +:+ e)
      | [] =>
          Ok {| FromToken := FromToken (gql_data result);
                ToToken := ToToken (gql_data result);
                FromAmount := FromAmount (gql_data result);
                ToAmount := ToAmount (gql_data result);
                ExchangeRate := ExchangeRate (gql_data result) |}
      end
  end.

Definition CalculateSwap (fromToken toToken : string) (amount : float64) : M SwapResult :=
  do h <- history;
  emit (EvHTTP (solverURL cfg) (calculateSwap_query fromToken toToken amount)) ;;
  lift (decodeQuote (graphql_quote h (solverURL cfg)
                       (calculateSwap_query fromToken toToken amount))).

Definition swap_mutation (fromToken toToken : string) (amount : float64)
    (destinationAddress : string) : string :=
  "{" +:+ dq +:+ "query" +:+ dq +:+ ":" +:+ dq
      +:+ "mutation calSwap{swap(fromToken:" +:+ esc +:+ fromToken +:+ esc
      +:+ ",toToken:" +:+ esc +:+ toToken +:+ esc
      +:+ ",amount:" +:+ esc +:+ FormatG amount +:+ esc
      +:+ ",destinationAddress:" +:+ esc +:+ destinationAddress +:+ esc
      +:+ ")}" +:+ dq +:+ "}".

Definition decodeSwap (reply : HttpReply (string + GraphQL string)) : outcome string :=
  match reply with
  | RequestError e => Err (wrap "error creating request" e)
  | TransportError e => Err (wrap "error sending request" e)
  | DecodeError e => Err (wrap "error parsing raw response" e)
  | Decoded (inl e) => Err (wrap "error parsing structured response" e)
  | Decoded (inr result) =>
      match gql_errors result with
      | e :: _ => Err ("GraphQL error: " +:+ e)
      | [] => Ok (gql_data result)
      end
  end.

(** [ExecuteSwap]: the quote, the swap mutation, then the three stages on
    the response it has just built. *)
Definition ExecuteSwap (fromToken toToken : string) (amount : float64)
    (destinationAddress : string) : M SwapResponse :=
  do swapResult <- ctx "failed to calculate swap" (CalculateSwap fromToken toToken amount);
  do h <- history;
  emit (EvHTTP (solverURL cfg) (swap_mutation fromToken toToken amount destinationAddress)) ;;
  do data <- lift (decodeSwap (graphql_swap h (solverURL cfg)
                     (swap_mutation fromToken toToken amount destinationAddress)));
  put_swap {| TxHash := data;
              Swap_Result := swapResult;
              Status := "pending";
              TxToSign := None;
              DestinationAddress := destinationAddress |} ;;
  let chain := determineChain toToken in
  ctx "failed to prepare transaction" (PrepareTransaction sc E N cfg BigInt_String chain) ;;
  ctx "failed to sign transaction" (SignTransaction sc E SL cfg) ;;
  ctx "failed to submit transaction" (SubmitTransaction E N cfg FormatV) ;;
  get_swap.

(** ** Ethereum transaction lookup *)

Definition GetEthereumTransaction (txHash : string) : M (option (gmap string Json)) :=
  dialEthereum E N cfg ;;
  do h <- history;
  emit (EvEthQuery "TransactionByHash") ;;
  do found <- ctx "failed to get Ethereum transaction"
                  (lift (eth_transaction_by_hash h txHash));
  let '(tx, hash, isPending) := found in
  ret (Some ({[ "hash" := JStr hash;
                "value" := JStr (BigInt_String (tx_value tx));
                "gas" := JNum (tx_gas tx);
                "gasPrice" := JStr (BigInt_String (tx_gasPrice tx));
                "nonce" := JNum (tx_nonce tx);
                "isPending" := JBool isPending ]} : gmap string Json)).

(** ** The amount of a looked-up transaction *)

(** [x.(float64)] on a decoded JSON value: a panic when it is no number. *)
Definition as_float64 (v : Json) : outcome float64 :=
  match v with
  | JNum z => Ok (float64_of_Z z)
  | _ => Panic "interface conversion: interface {} is not float64"
  end.

(** The Ethereum case: the value in wei as whole ETH. *)
Definition extractEthereumAmount (value : string) : outcome float64 :=
  match BigInt_SetString E value with
  | None => Err ("failed to parse decimal value: " +:+ value)
  | Some bigValue =>
      let weiPerEth := 10 ^ 18 in
      let ethValue := bigValue / weiPerEth in
      if (0 <=? ethValue) && (ethValue <? 2 ^ 64) then Ok (float64_of_Z ethValue)
      else Err ("converted ETH value exceeds uint64 range: " +:+ BigInt_String ethValue)
  end.

Definition could_not_extract : outcome float64 :=
  Err "could not extract amount from transaction".

(** The Solana case: what the first account lost, in SOL. *)
Definition extractSolanaAmount (result : list (string * Json)) : outcome float64 :=
  match obj_get "meta" result with
  | Some (JObj meta) =>
      match obj_get "preBalances" meta with
      | Some (JArr (pre0 :: _)) =>
          match obj_get "postBalances" meta with
          | Some (JArr (post0 :: _)) =>
              obind (as_float64 pre0) (fun pre =>
              let preBalance := uint64_of_float64 (uint64_oob SL) pre in
              obind (as_float64 post0) (fun post =>
              let postBalance := uint64_of_float64 (uint64_oob SL) post in
              if postBalance <? preBalance then
                let lamports := preBalance - postBalance in
                let solValue := SFdiv prec64 emax64 (float64_of_Z lamports)
                                      (float64_of_Z (10 ^ 9)) in
                if f64_gt solValue (float64_of_Z (2 ^ 64 - 1)) then
                  Err ("converted SOL value exceeds uint64 range: " +:+ FormatF sc solValue)
                else Ok solValue
              else could_not_extract))
          | _ => could_not_extract
          end
      | _ => could_not_extract
      end
  | _ => could_not_extract
  end.

Definition extractAmountFromTx (tx : option (gmap string Json)) : outcome float64 :=
  match tx with
  | Some v =>
      match v !! "value" with
      | Some (JStr value) => extractEthereumAmount value
      | _ =>
          match v !! "result" with
          | Some (JObj result) => extractSolanaAmount result
          | _ => could_not_extract
          end
      end
  | None => could_not_extract
  end.

(** ** [handlePostTxHash] *)

Definition transfer_params (r : Request) (fromToken : string) (swapResult : SwapResult)
    : TransferParams.t :=
  {| TransferParams.SourceOwner := query_get r "sourceOwner";
     TransferParams.TokenId := query_get r "tokenId";
     TransferParams.TargetChainId := query_get r "targetChainId";
     TransferParams.TargetOwner := query_get r "targetOwner";
     TransferParams.ChainOwner := query_get r "destinationAddress";
     TransferParams.BuyFromToken := fromToken;
     TransferParams.ToToken := query_get r "toToken";
     TransferParams.Amount := FormatF sc (ToAmount swapResult);
     TransferParams.BlobHash := query_get r "blobHash";
     TransferParams.NftId := query_get r "nftId" |}.

(** The second half of the handler: quote and transfer for the looked-up
    transaction [tx]. *)
Definition postTxHashTransfer (r : Request) (chain : string)
    (tx : option (gmap string Json)) : M (Reply TxHashAnswer) :=
  match getTokenForChain chain with
  | Err e | Panic e => ret (Refused 500 ("Error getting token for chain: " +:+ e))
  | Ok fromToken =>
      match extractAmountFromTx tx with
      | Panic e => panic e
      | Err e => ret (Refused 500 ("Error extracting amount from transaction: " +:+ e))
      | Ok amount =>
          do quoted <- attempt (CalculateSwap fromToken (query_get r "toToken") amount);
          match quoted with
          | inl e => ret (Refused 500 ("Error calculating swap: " +:+ e))
          | inr swapResult =>
              do transferred <-
                attempt (ExecuteTransferMutation sc E N cfg Itoa
                           (transfer_params r fromToken swapResult));
              match transferred with
              | inl e => ret (Refused 500 e)
              | inr (transferResp, txhash) =>
                  ret (Answered {| ans_chain := chain;
                                   ans_data := tx;
                                   ans_transfer :=
                                     Some (gql_data transferResp, swapResult, txhash) |})
              end
          end
      end
  end.

Definition handlePostTxHash (r : Request) : M (Reply TxHashAnswer) :=
  if negb (String.eqb (Method r) "POST") then ret (Refused 405 "Method not allowed")
  else
    let txHash := query_get r "txHash" in
    let chain := query_get r "chain" in
    let toToken := query_get r "toToken" in
    let destinationAddress := query_get r "destinationAddress" in
    if String.eqb txHash EmptyString then ret (Refused 400 "txHash parameter is required")
    else if String.eqb chain EmptyString then ret (Refused 400 "chain parameter is required")
    else
      let lookup :=
        if String.eqb chain "solana" then Some (GetSolanaTransaction E N cfg txHash)
        else if String.eqb chain "ethereum" then Some (GetEthereumTransaction txHash)
        else None in
      match lookup with
      | None =>
          ret (Refused 400 "Invalid chain parameter. Must be 'solana' or 'ethereum'")
      | Some getTransaction =>
          do found <- attempt getTransaction;
          match found with
          | inl e => ret (Refused 500 ("Error getting transaction: " +:+ e))
          | inr tx =>
              if negb (String.eqb toToken EmptyString)
                 && negb (String.eqb destinationAddress EmptyString)
              then postTxHashTransfer r chain tx
              else ret (Answered {| ans_chain := chain; ans_data := tx;
                                    ans_transfer := None |})
          end
      end.

(** ** Data blobs *)

Definition publish_mutation (chainId : string) (byteInts : list Z) : string :=
  "{" +:+ nl +:+ tab +:+ tab +:+ dq +:+ "query" +:+ dq +:+ ": " +:+ dq
      +:+ "mutation datablob{publishDataBlob(chainId:" +:+ esc +:+ chainId +:+ esc
      +:+ ", bytes:" +:+ format_ints byteInts +:+ ")}" +:+ dq +:+ nl +:+ tab +:+ "}".

Definition PublishDataBlob (chainId : string) (imageBytes : bytes) : M string :=
  let byteInts := map int_of_byte imageBytes in
  do h <- history;
  emit (EvHTTP lineraURL (publish_mutation chainId byteInts)) ;;
  match graphql_blob h lineraURL (publish_mutation chainId byteInts) with
  | RequestError e => fail (wrap "error creating publish blob request" e)
  | TransportError e => fail (wrap "error publishing blob" e)
  | DecodeError e => fail (wrap "error parsing blob response" e)
  | Decoded blobResp =>
      match gql_errors blobResp with
      | e :: _ => fail ("blob error: " +:+ e)
      | [] => ret (gql_data blobResp)
      end
  end.

(** [handleBlobHash]: [body] is the decoded request body, or the decoding
    error. *)
Definition handleBlobHash (method : string) (body : string + (list Z * string))
    : M (Reply string) :=
  if negb (String.eqb method "POST") then ret (Refused 405 "Method not allowed")
  else
    match body with
    | inl e => ret (Refused 400 ("Error parsing request body: " +:+ e))
    | inr (ImageBytes, ChainId) =>
        let imageBytes := map byte_of_int ImageBytes in
        do published <- attempt (PublishDataBlob ChainId imageBytes);
        match published with
        | inl e => ret (Refused 500 ("Error publishing blob: " +:+ e))
        | inr blobHash => ret (Answered blobHash)
        end
    end.

(** ** Listing a token for sale *)

Definition ListToken (tokenId price : string) : M string :=
  match BigInt_SetString E tokenId with
  | None => fail ("failed to parse token ID: " +:+ tokenId)
  | Some tokenIdInt =>
      do amountWei <- lift (toWei (parseFloat64 sc price));
      dialEthereum E N cfg ;;
      let contractAddress := HexToAddress E (NFTAddress cfg) in
      do h <- history;
      emit (EvEthQuery "getListPrice") ;;
      do result <- ctx "failed to get listing price"
                       (lift (contract_getListPrice h contractAddress));
      let listPrice := head result in
      match chainKeys cfg with
      | None => panic "nil pointer dereference"
      | Some ks =>
          do auth <- ctx "failed to create auth"
                         (lift (NewKeyedTransactorWithChainID E (EthereumKey ks) 1337));
          do h <- history;
          emit (EvTransact contractAddress "listToken" tokenIdInt (default 0 listPrice)) ;;
          do tx <- ctx "failed to execute list token transaction"
                       (lift (contract_listToken h contractAddress auth listPrice
                                                 tokenIdInt amountWei));
          do h <- history;
          emit (EvWaitMined tx) ;;
          check "failed to wait for transaction" (wait_mined N h tx) ;;
          ret tx
      end
  end.

Definition list_sale_mutation (tokenId chainOwner : string) : string :=
  "{" +:+ nl +:+ tab +:+ tab +:+ dq +:+ "query" +:+ dq +:+ ": " +:+ dq
      +:+ "mutation listNftForSale{listNftForSale(tokenId:" +:+ esc +:+ tokenId +:+ esc
      +:+ ", chainOwner:" +:+ esc +:+ chainOwner +:+ esc +:+ ")}"
      +:+ dq +:+ nl +:+ tab +:+ "}".

Definition nft_listed_message (tokenId price owner : string) : WSMessage :=
  {| MsgType := "nft_listed";
     MsgData := JObj [("tokenId", JStr tokenId); ("price", JStr price);
                      ("owner", JStr owner)];
     MsgError := EmptyString |}.

(** [ListNftForSale]: the answer of the listing mutation and the hash of
    the Ethereum transaction. *)
Definition ListNftForSale (owner chainId tokenId price nftId chainOwner : string)
    : M (Json * string) :=
  do txHash <- ctx "error listing token on Ethereum" (ListToken nftId price);
  match chainKeys cfg with
  | None => panic "nil pointer dereference"
  | Some ks =>
      match EthereumKey ks with
      | None => panic "nil pointer dereference"
      | Some _ =>
          do h <- history;
          emit (EvHTTP (nonFungibleURL cfg) (list_sale_mutation tokenId chainOwner)) ;;
          match graphql_list_sale h (nonFungibleURL cfg)
                  (list_sale_mutation tokenId chainOwner) with
          | RequestError e => fail (wrap "error creating request" e)
          | TransportError e => fail (wrap "error executing mutation" e)
          | DecodeError e => fail (wrap "error parsing response" e)
          | Decoded result =>
              match gql_errors result with
              | e :: _ => fail ("mutation error: " +:+ e)
              | [] =>
                  emit (EvChanSend (nft_listed_message tokenId price owner)) ;;
                  ret (gql_data result, txHash)
              end
          end
      end
  end.

End Front.

(** ** The marketplace scripts: IPFS gateway URLs *)

(** [s.includes(pat)]. *)
Fixpoint includes (s pat : string) : bool :=
  if String.prefix pat s then true
  else
    match s with
    | EmptyString => false
    | String _ rest => includes rest pat
    end.

Fixpoint drop_chars (n : nat) (s : string) : string :=
  match n, s with
  | O, _ => s
  | S n', String _ rest => drop_chars n' rest
  | S _, EmptyString => EmptyString
  end.

(** [s.replace(pat, rep)] for a string pattern: the first occurrence only. *)
Fixpoint replace_first (pat rep s : string) : string :=
  if String.prefix pat s then rep +:+ drop_chars (String.length pat) s
  else
    match s with
    | EmptyString => EmptyString
    | String c rest => String c (replace_first pat rep rest)
    end.

Definition GetIpfsUrlFromPinata (pinataUrl : string) : string :=
  if String.eqb pinataUrl EmptyString || negb (includes pinataUrl "ipfs://")
  then pinataUrl
  else replace_first "ipfs://" "https://ipfs.io/ipfs/" pinataUrl.

(** ** Vocabulary of the further properties *)

(** Number of lookups requested in a trace. *)
Definition rpc_count (h : list Event) : nat := length (List.filter is_rpc h).

(** Starting from a trace with [base] lookups, the next [k] lookups find
    nothing and the one after them finds [result]. *)
Definition visible_after {E : EthLib} (N : Network E) (base k : nat)
    (result : gmap string Json) : Prop :=
  (forall h endpoint method params,
     (rpc_count h < base + k)%nat ->
     exists r, rpc_post N h endpoint method params = Decoded r /\
               json_is_nil (r !! "result") = true) /\
  (forall h endpoint method params,
     rpc_count h = (base + k)%nat ->
     rpc_post N h endpoint method params = Decoded result) /\
  json_is_nil (result !! "result") = false.

(** Number of writes to the connection [c] in a list of events. *)
Definition writes_to (c : Conn) (evs : list Event) : nat :=
  length (List.filter (fun ev => match ev with
                                 | EvWriteJSON c' _ => Nat.eqb c c'
                                 | _ => false
                                 end) evs).

(** The notifications of type [type] put on the broadcast channel. *)
Definition count_status (type : string) (evs : list Event) : nat :=
  length (List.filter (fun ev => match ev with
                                 | EvChanSend m => String.eqb (MsgType m) type
                                 | _ => false
                                 end) evs).

(** A reference network on which the NFT service refuses the transfer. *)
Definition network_transfer_refused : Network Reference.ethlib :=
  {| rpc_post := rpc_post Reference.network;
     graphql_pools := graphql_pools Reference.network;
     graphql_nft := graphql_nft Reference.network;
     graphql_transfer := fun _ _ _ =>
       Decoded {| gql_data := EmptyString; gql_errors := ["not the owner"] |};
     eth_dial := eth_dial Reference.network;
     eth_suggest_gas_price := eth_suggest_gas_price Reference.network;
     eth_pending_nonce := eth_pending_nonce Reference.network;
     eth_send := eth_send Reference.network;
     contract_transact := contract_transact Reference.network;
     wait_mined := wait_mined Reference.network;
     sol_latest_blockhash := sol_latest_blockhash Reference.network;
     ws_write := ws_write Reference.network |}.

(** A transfer request towards ETH for 3 units. *)
Definition transfer_of_3 : TransferParams.t :=
  {| TransferParams.SourceOwner := "owner";
     TransferParams.TokenId := "token";
     TransferParams.TargetChainId := "chain";
     TransferParams.TargetOwner := "buyer";
     TransferParams.ChainOwner := "chainOwner";
     TransferParams.BuyFromToken := "SOL";
     TransferParams.ToToken := "ETH";
     TransferParams.Amount := "3";
     TransferParams.BlobHash := "blob";
     TransferParams.NftId := "nft" |}.

(** A reference network on which the looked-up transaction is found at
    the third request. *)
Definition network_visible_third : Network Reference.ethlib :=
  {| rpc_post := fun h _ _ _ =>
       if (rpc_count h <? 2)%nat then Decoded {["result" := JNull]}
       else Decoded {["result" := JObj [("slot", JNum 9)]]};
     graphql_pools := graphql_pools Reference.network;
     graphql_nft := graphql_nft Reference.network;
     graphql_transfer := graphql_transfer Reference.network;
     eth_dial := eth_dial Reference.network;
     eth_suggest_gas_price := eth_suggest_gas_price Reference.network;
     eth_pending_nonce := eth_pending_nonce Reference.network;
     eth_send := eth_send Reference.network;
     contract_transact := contract_transact Reference.network;
     wait_mined := wait_mined Reference.network;
     sol_latest_blockhash := sol_latest_blockhash Reference.network;
     ws_write := ws_write Reference.network |}.

(** A reference network whose Solana endpoint cannot be reached. *)
Definition network_unreachable : Network Reference.ethlib :=
  {| rpc_post := fun _ _ _ _ => TransportError "connection refused";
     graphql_pools := graphql_pools Reference.network;
     graphql_nft := graphql_nft Reference.network;
     graphql_transfer := graphql_transfer Reference.network;
     eth_dial := eth_dial Reference.network;
     eth_suggest_gas_price := eth_suggest_gas_price Reference.network;
     eth_pending_nonce := eth_pending_nonce Reference.network;
     eth_send := eth_send Reference.network;
     contract_transact := contract_transact Reference.network;
     wait_mined := wait_mined Reference.network;
     sol_latest_blockhash := sol_latest_blockhash Reference.network;
     ws_write := ws_write Reference.network |}.

(** [strconv.ParseFloat] reads the text NaN without an error; the
    reference parser is extended by this one case. *)
Definition strconv_with_nan : Strconv :=
  {| ParseFloat := fun s =>
       if String.eqb s "NaN" then (S754_nan, None) else ParseFloat Reference.strconv s;
     FormatF := FormatF Reference.strconv |}.

(** An unsigned Ethereum transaction for the amount text [amount], and a
    world holding it. *)
Definition prepared_tx (amount : string) : TransactionPrep :=
  {| Chain := "ethereum"; RawTx := EmptyString;
     Chain_Params :=
       {| FromAddress := "0xPoolEthereum"; ToAddress := "0xDestination";
          Amount := amount;
          GasPrice := "1000000000"; GasLimit := 21000; Nonce := 0;
          RecentBlockhash := EmptyString; Lamports := f64_zero |} |}.

Definition world_prepared (amount : string) : World :=
  {| swap := set_TxToSign (Some (prepared_tx amount)) Reference.empty_swap;
     clients := ∅; trace := [] |}.

(** A solver backend that quotes [Reference.quote_sol] and accepts the
    swap. *)
Definition backend_quote : list Event -> string -> string -> HttpReply (GraphQL SwapResult) :=
  fun _ _ _ => Decoded {| gql_data := Reference.quote_sol; gql_errors := [] |}.

Definition backend_swap : list Event -> string -> string -> HttpReply (string + GraphQL string) :=
  fun _ _ _ => Decoded (inr {| gql_data := "swap-1"; gql_errors := [] |}).

(** [%v] of a float64 that holds a whole number of moderate size: its
    decimal digits. *)
Definition format_whole (x : float64) : string :=
  match x with
  | S754_finite s m e => pretty (trunc_float s m e)
  | _ => "0"
  end.

(** A Linera service that accepts every blob. *)
Definition backend_blob : list Event -> string -> string -> HttpReply (GraphQL string) :=
  fun _ _ _ => Decoded {| gql_data := "blobhash"; gql_errors := [] |}.

(** An Ethereum node that knows every hash as a mined transfer of 1.5
    ETH. *)
Definition node_lookup : list Event -> string -> outcome (EthTx * string * bool) :=
  fun _ txHash =>
    Ok (NewTransaction 0 20 1500000000000000000 21000 (Some 1000000000) [], txHash, false).

(** A request to pay for an NFT with the Ethereum transaction [0xabc]. *)
Definition request_paid_in_eth : Request :=
  {| Method := "POST";
     Query := {[ "txHash" := "0xabc"; "chain" := "ethereum"; "toToken" := "SOL";
                 "destinationAddress" := "Destination"; "nftId" := "nft" ]} |}.

(** The first [n] characters of [s]. *)
Fixpoint take_chars (n : nat) (s : string) : string :=
  match n, s with
  | S n', String c rest => String c (take_chars n' rest)
  | _, _ => EmptyString
  end.

(** [pat] occurs in [s] at position [n] and at no earlier position. *)
Definition first_occurrence_at (pat s : string) (n : nat) : Prop :=
  String.prefix pat (drop_chars n s) = true /\
  forall m, (m < n)%nat -> String.prefix pat (drop_chars m s) = false.

(** * The token counter

    [GetCurrentTokenID] and the handler [handleNextNFTID] of [main.go]. *)

(** [x.Uint64()] for a [*big.Int]: the low 64 bits of the magnitude, which
    is the value itself between 0 and 2^64 - 1. *)
Definition BigInt_Uint64 (x : Z) : Z := Z.abs x mod 2 ^ 64.

(** The two numbers of the handler's answer. *)
Record NextIdAnswer : Type := {
  currentId : Z;
  nextId : Z;
}.

Section Counter.

Context (E : EthLib) (N : Network E) (cfg : Config).

(** [contract.Call(&bind.CallOpts{}, &result, "getCurrentToken")].  In
    [marketplaceABIJson] the method has exactly one output, a [uint256]: a call
    that returns no error has unpacked that one value into [result], and an
    answer that does not unpack is an error of [Call].  The oracle therefore
    gives the value or the error; the test [len(result) > 0] always holds after
    a successful call, and the last [return] of the source ("no result
    returned from getCurrentToken") is never reached. *)
Context (contract_getCurrentToken : list Event -> Z -> outcome Z).

Definition GetCurrentTokenID : M Z :=
  dialEthereum E N cfg ;;
  let contractAddress := HexToAddress E (NFTAddress cfg) in
  do h <- history;
  emit (EvEthQuery "getCurrentToken") ;;
  do tokenID <- ctx "failed to get current token ID"
                    (lift (contract_getCurrentToken h contractAddress));
  ret (BigInt_Uint64 tokenID).

(** [nextID := currentID + 1] on uint64. *)
Definition handleNextNFTID (method : string) : M (Reply NextIdAnswer) :=
  if negb (String.eqb method "GET") then ret (Refused 405 "Method not allowed")
  else
    do got <- attempt GetCurrentTokenID;
    match got with
    | inl e => ret (Refused 500 ("Error getting next NFT ID: " +:+ e))
    | inr currentID =>
        let nextID := (currentID + 1) mod 2 ^ 64 in
        ret (Answered {| currentId := currentID; nextId := nextID |})
    end.

End Counter.

(** A contract whose counter stands at the last uint64. *)
Definition counter_at_last : list Event -> Z -> outcome Z :=
  fun _ _ => Ok (2 ^ 64 - 1).

(** A contract call that fails. *)
Definition counter_failing : list Event -> Z -> outcome Z :=
  fun _ _ => Err "execution reverted".

(** What a raw transaction stored by a successful swap is, chain by chain.
    On Ethereum: the hex text of the serialised result of [types.SignTx], under
    chain id 1337 and the configured key, on a transfer to [destination] with
    gas limit 21000 whose value is the conversion of the [%f] text of the
    quoted amount. *)
Definition ethereum_signed (sc : Strconv) (E : EthLib) (cfg : Config)
    (destination : string) (quoted : float64) (raw : string) : Prop :=
  exists ks key tx signedTx bs,
    chainKeys cfg = Some ks /\ EthereumKey ks = Some key /\
    tx_to tx = HexToAddress E destination /\ tx_gas tx = 21000 /\
    toWei (parseFloat64 sc (FormatF sc quoted)) = Ok (tx_value tx) /\
    SignTx E tx 1337 key = Ok signedTx /\ MarshalBinary E signedTx = Ok bs /\
    raw = hexutil_Encode E bs.

(** On Solana: the base58 text of the serialised transaction that
    [tx.Sign] leaves (its error is not looked at), built from one transfer to
    [destination] of [uint64(quoted)] lamports. *)
Definition solana_signed (SL : SolLib) (cfg : Config)
    (destination : string) (quoted : float64) (raw : string) : Prop :=
  exists ks solKey from_address to_address blockhash tx bs,
    chainKeys cfg = Some ks /\ SolanaKey ks = Some solKey /\
    PublicKeyFromBase58 SL destination = Ok to_address /\
    fst (Sol_NewTransaction SL
           [{| ti_lamports := uint64_of_float64 (uint64_oob SL) quoted;
               ti_from := from_address; ti_to := to_address |}] blockhash) = Some tx /\
    Sol_MarshalBinary SL (fst (Sol_Sign SL tx (solanaKeyGetter SL solKey))) = Ok bs /\
    raw = base58_Encode SL bs.

(** * Properties *)

(** ** Amount conversion *)




Lemma f64_1e18_eq : f64_1e18 = S754_finite false 7812500000000000 7.
Proof. reflexivity. Qed.


Lemma toWei_zero s : toWei (S754_zero s) = Ok 0.
Proof. reflexivity. Qed.


(** An infinite amount leaves the fresh [big.Int] at zero. *)
Lemma toWei_infinity s : toWei (S754_infinity s) = Ok 0.
Proof. reflexivity. Qed.





(** The product of 1.5 and [1e18] needs no rounding. *)
Lemma exact53_1_5 : exact53 (6755399441055744 * 7812500000000000).
Proof. right. vm_compute. reflexivity. Qed.

(** ** The on-chain sale *)

(** The payment is the listed price when the requested amount exceeds it. *)
Lemma sale_payment_when_requested_above_listed (calSwapAmount listedPrice : float64) :
  f64_gt calSwapAmount listedPrice = true ->
  saleValueWei calSwapAmount listedPrice = toWei listedPrice.
Proof. intros H. unfold saleValueWei, saleAmount. rewrite H. reflexivity. Qed.

(** C1, as the code has it: whenever the requested amount does not exceed
    the listed price, [amount] keeps its zero value and the sale is paid 0 wei,
    whatever the requested amount is (the minimum of the two would be the
    requested amount); every [executeSale] call that
    [ExecuteNFTContractTransaction] then issues carries the value 0. *)
Theorem sale_payment_is_zero_unless_requested_exceeds_listed
    (E : EthLib) (N : Network E) (cfg : Config) (Itoa : Z -> string)
    (tokenId : Z) (calSwapAmount listedPrice : float64) (w : World) :
  f64_gt calSwapAmount listedPrice = false ->
  saleAmount calSwapAmount listedPrice = f64_zero /\
  saleValueWei calSwapAmount listedPrice = Ok 0 /\
  forall c m a v,
    In (EvTransact c m a v)
       (trace (snd (ExecuteNFTContractTransaction E N cfg Itoa tokenId
                      calSwapAmount listedPrice w))) ->
    In (EvTransact c m a v) (trace w) \/ v = 0.
Proof.
  intros Hgt. split; [|split].
  - unfold saleAmount. rewrite Hgt. reflexivity.
  - unfold saleValueWei, saleAmount. rewrite Hgt. reflexivity.
  - intros c m a v.
    unfold ExecuteNFTContractTransaction, dialEthereum, check, ctx, fail, panic, lift,
      bind, ret, history, emit, saleValueWei, saleAmount.
    rewrite Hgt. change (toWei f64_zero) with (@Ok Z 0).
    repeat case_match; simplify_eq; cbn;
      rewrite ?in_app_iff; cbn; intuition (try discriminate; try congruence).
Qed.

(** Requested 1.0 against a listing of 2.0 on the reference network: the
    minimum is 1.0, that is [10^18] wei, and the sale is sent with 0 wei. *)
Lemma sale_payment_is_zero_unless_requested_exceeds_listed_witness :
  f64_gt (float64_of_Z 1) (float64_of_Z 2) = false /\
  toWei (float64_of_Z 1) = Ok (10 ^ 18) /\
  ExecuteNFTContractTransaction Reference.ethlib Reference.network Reference.config
    pretty 7 (float64_of_Z 1) (float64_of_Z 2) Reference.world0
  = (Ok "0xsale",
     add_events [EvEthDial "http://localhost:8545";
                 EvTransact 13 "executeSale" 7 0;
                 EvWaitMined "0xsale"] Reference.world0) /\
  (saleAmount (float64_of_Z 1) (float64_of_Z 2) = f64_zero /\
   saleValueWei (float64_of_Z 1) (float64_of_Z 2) = Ok 0 /\
   forall c m a v,
     In (EvTransact c m a v)
        (trace (snd (ExecuteNFTContractTransaction Reference.ethlib Reference.network
                       Reference.config pretty 7 (float64_of_Z 1) (float64_of_Z 2)
                       Reference.world0))) ->
     In (EvTransact c m a v) (trace Reference.world0) \/ v = 0).
Proof.
  split; [reflexivity|]. split; [vm_compute; reflexivity|].
  split; [vm_compute; reflexivity|].
  apply (sale_payment_is_zero_unless_requested_exceeds_listed
           Reference.ethlib Reference.network Reference.config pretty 7
           (float64_of_Z 1) (float64_of_Z 2) Reference.world0).
  reflexivity.
Defined.

(** ** The event trace *)

Lemma add_events_add_events a b w :
  add_events b (add_events a w) = add_events (a ++ b) w.
Proof. unfold add_events. cbn. rewrite app_assoc. reflexivity. Qed.

Lemma add_events_nil w : add_events [] w = w.
Proof. destruct w. unfold add_events. cbn. rewrite app_nil_r. reflexivity. Qed.

Lemma emit_run ev w : emit ev w = (Ok tt, add_events [ev] w).
Proof. reflexivity. Qed.

(** ** Transaction visibility polling *)

Lemma makeRPCRequest_run (E : EthLib) (N : Network E) endpoint method params w :
  makeRPCRequest E N endpoint method params w
  = (Ok match rpc_post N (trace w) endpoint method params with
        | RequestError e | TransportError e | DecodeError e => (None, Some e)
        | Decoded result => (Some result, None)
        end,
     add_events [EvRPC endpoint method params] w).
Proof. reflexivity. Qed.

Lemma pollLoop_not_visible (E : EthLib) (N : Network E) (cfg : Config) (txHash : string) :
  never_visible N ->
  forall n w response,
    json_is_nil (response !! "result") = true ->
    exists response',
      pollLoop E N cfg n txHash (Some response) None w
      = (Ok (Some response', None),
         add_events (concat (repeat (poll_round cfg txHash) n)) w) /\
      json_is_nil (response' !! "result") = true.
Proof.
  intros Hnv n. induction n as [|n IH]; intros w response Hnil.
  - exists response. cbn. rewrite add_events_nil. auto.
  - cbn [pollLoop]. unfold bind at 1. rewrite makeRPCRequest_run.
    destruct (Hnv (trace w) (SolanaRPC cfg) "getTransaction" (getTransaction_params txHash))
      as (result & Hreply & Hres).
    rewrite Hreply, Hres. unfold bind at 1. rewrite emit_run.
    destruct (IH (add_events [EvSleep 5]
                    (add_events [EvRPC (SolanaRPC cfg) "getTransaction"
                                   (getTransaction_params txHash)] w)) result Hres)
      as (response' & Hrun & Hnil').
    exists response'. rewrite Hrun. split; [|exact Hnil'].
    rewrite !add_events_add_events. reflexivity.
Qed.

Lemma pollLoop_first_not_visible (E : EthLib) (N : Network E) (cfg : Config)
    (txHash : string) :
  never_visible N ->
  forall n w response0 err0,
    exists response',
      pollLoop E N cfg (S n) txHash response0 err0 w
      = (Ok (Some response', None),
         add_events (concat (repeat (poll_round cfg txHash) (S n))) w) /\
      json_is_nil (response' !! "result") = true.
Proof.
  intros Hnv n w response0 err0.
  cbn [pollLoop]. unfold bind at 1. rewrite makeRPCRequest_run.
  destruct (Hnv (trace w) (SolanaRPC cfg) "getTransaction" (getTransaction_params txHash))
    as (result & Hreply & Hres).
  rewrite Hreply, Hres. unfold bind at 1. rewrite emit_run.
  destruct (pollLoop_not_visible E N cfg txHash Hnv n
              (add_events [EvSleep 5]
                 (add_events [EvRPC (SolanaRPC cfg) "getTransaction"
                                (getTransaction_params txHash)] w)) result Hres)
    as (response' & Hrun & Hnil').
  exists response'. rewrite Hrun. split; [|exact Hnil'].
  rewrite !add_events_add_events. reflexivity.
Qed.

(** C2, as the code has it: when every lookup is answered without a result,
    the loop makes its ten attempts, pauses 5 seconds after each of them,
    leaves the loop with a nil error and returns the last answer as a
    success: no failure is reported. *)
Theorem polling_never_visible_returns_success
    (E : EthLib) (N : Network E) (cfg : Config) (txHash : string) (w : World) :
  never_visible N ->
  exists response,
    GetSolanaTransaction E N cfg txHash w
    = (Ok (Some response), add_events (concat (repeat (poll_round cfg txHash) 10)) w) /\
    json_is_nil (response !! "result") = true /\
    length (List.filter is_rpc (concat (repeat (poll_round cfg txHash) 10))) = 10%nat.
Proof.
  intros Hnv. unfold GetSolanaTransaction.
  destruct (pollLoop_first_not_visible E N cfg txHash Hnv 9 w None None)
    as (response' & Hrun & Hnil').
  exists response'. unfold bind. rewrite Hrun. cbn [ret].
  split; [reflexivity|]. split; [exact Hnil'|reflexivity].
Qed.

(** Whatever the network answers, the loop issues at most [n] requests. *)
Lemma pollLoop_attempts_bounded (E : EthLib) (N : Network E) (cfg : Config)
    (txHash : string) :
  forall n w response err,
    exists evs,
      snd (pollLoop E N cfg n txHash response err w) = add_events evs w /\
      (length (List.filter is_rpc evs) <= n)%nat.
Proof.
  induction n as [|n IH]; intros w response err.
  - exists []. cbn. rewrite add_events_nil. split; [reflexivity|lia].
  - cbn [pollLoop]. unfold bind at 1. rewrite makeRPCRequest_run.
    set (w1 := add_events [EvRPC (SolanaRPC cfg) "getTransaction"
                             (getTransaction_params txHash)] w).
    destruct (rpc_post N (trace w) (SolanaRPC cfg) "getTransaction"
                (getTransaction_params txHash)) as [e|e|e|result].
    1-3: destruct (IH w1 None (Some e)) as (evs & Hrun & Hlen);
         exists (EvRPC (SolanaRPC cfg) "getTransaction" (getTransaction_params txHash) :: evs);
         cbn; rewrite Hrun; unfold w1; rewrite add_events_add_events;
         split; [reflexivity|cbn; lia].
    destruct (json_is_nil (result !! "result")).
    + unfold bind at 1. rewrite emit_run.
      destruct (IH (add_events [EvSleep 5] w1) (Some result) None) as (evs & Hrun & Hlen).
      exists (EvRPC (SolanaRPC cfg) "getTransaction" (getTransaction_params txHash)
                :: EvSleep 5 :: evs).
      rewrite Hrun. unfold w1. rewrite !add_events_add_events.
      split; [reflexivity|cbn; lia].
    + exists [EvRPC (SolanaRPC cfg) "getTransaction" (getTransaction_params txHash)].
      cbn. split; [reflexivity|lia].
Qed.

(** At most 10 attempts, on every network. *)
Lemma polling_at_most_10_attempts (E : EthLib) (N : Network E) (cfg : Config)
    (txHash : string) (w : World) :
  exists evs,
    snd (GetSolanaTransaction E N cfg txHash w) = add_events evs w /\
    (length (List.filter is_rpc evs) <= 10)%nat.
Proof.
  destruct (pollLoop_attempts_bounded E N cfg txHash 10 w None None) as (evs & Hrun & Hlen).
  exists evs. split; [|exact Hlen].
  unfold GetSolanaTransaction, bind.
  destruct (pollLoop E N cfg 10 txHash None None w) as [[[r e]|msg|msg] w'];
    cbn in Hrun |- *; try exact Hrun.
  destruct e; exact Hrun.
Qed.

(** The failure is reached only when the request itself fails ten times;
    there is then no pause between the attempts. *)
Lemma pollLoop_transport_errors (E : EthLib) (N : Network E) (cfg : Config)
    (txHash msg : string) :
  (forall h endpoint method params, rpc_post N h endpoint method params = TransportError msg) ->
  forall n w response err,
    pollLoop E N cfg (S n) txHash response err w
    = (Ok (None, Some msg),
       add_events (repeat (EvRPC (SolanaRPC cfg) "getTransaction"
                             (getTransaction_params txHash)) (S n)) w).
Proof.
  intros Hfail. induction n as [|n IH]; intros w response err.
  - cbn [pollLoop]. unfold bind at 1. rewrite makeRPCRequest_run, Hfail. reflexivity.
  - change (pollLoop E N cfg (S (S n)) txHash response err w)
      with ((do r <- makeRPCRequest E N (SolanaRPC cfg) "getTransaction"
                       (getTransaction_params txHash);
             let '(response, err) := r in
             let resultNil :=
               match response with
               | Some responseMap => json_is_nil (responseMap !! "result")
               | None => false
               end in
             if resultNil then
               emit (EvSleep 5) ;; pollLoop E N cfg (S n) txHash response err
             else
               match err with
               | None => ret (response, err)
               | Some _ => pollLoop E N cfg (S n) txHash response err
               end) w).
    unfold bind at 1. rewrite makeRPCRequest_run, Hfail. cbv beta iota zeta.
    rewrite IH, add_events_add_events. reflexivity.
Qed.

Lemma polling_transport_errors_fail (E : EthLib) (N : Network E) (cfg : Config)
    (txHash msg : string) (w : World) :
  (forall h endpoint method params, rpc_post N h endpoint method params = TransportError msg) ->
  GetSolanaTransaction E N cfg txHash w
  = (Err (wrap "failed to get Solana transaction after 10 retries" msg),
     add_events (repeat (EvRPC (SolanaRPC cfg) "getTransaction"
                           (getTransaction_params txHash)) 10) w).
Proof.
  intros Hfail. unfold GetSolanaTransaction, bind.
  rewrite (pollLoop_transport_errors E N cfg txHash msg Hfail 9). reflexivity.
Qed.

Lemma reference_never_visible : never_visible Reference.network_not_visible.
Proof.
  intros h endpoint method params. eexists. split; [reflexivity|].
  rewrite lookup_singleton_eq. reflexivity.
Qed.

(** On the reference network where the transaction never becomes visible:
    success, after ten requests and ten pauses. *)
Lemma polling_never_visible_returns_success_witness :
  exists response,
    GetSolanaTransaction Reference.ethlib Reference.network_not_visible Reference.config
      "5VERv8" Reference.world0
    = (Ok (Some response),
       add_events (concat (repeat (poll_round Reference.config "5VERv8") 10))
                  Reference.world0) /\
    json_is_nil (response !! "result") = true /\
    length (List.filter is_rpc (concat (repeat (poll_round Reference.config "5VERv8") 10)))
    = 10%nat.
Proof.
  apply (polling_never_visible_returns_success Reference.ethlib
           Reference.network_not_visible Reference.config "5VERv8" Reference.world0).
  exact reference_never_visible.
Defined.
(** ** Pool lookup *)

Lemma GetAllPools_run (E : EthLib) (N : Network E) (cfg : Config) (w : World) :
  GetAllPools E N cfg w
  = (decodePools (graphql_pools N (trace w) (solverURL cfg) pools_query),
     add_events [EvHTTP (solverURL cfg) pools_query] w).
Proof. reflexivity. Qed.

Lemma getPoolAddress_run (E : EthLib) (N : Network E) (cfg : Config) (token : string)
    (w : World) :
  getPoolAddress E N cfg token w
  = (obind (rewrap "failed to get pools"
              (decodePools (graphql_pools N (trace w) (solverURL cfg) pools_query)))
       (fun pools =>
          match findPool pools token with
          | Some address => Ok address
          | None => Err ("pool not found for token: " +:+ token)
          end),
     add_events [EvHTTP (solverURL cfg) pools_query] w).
Proof.
  unfold getPoolAddress, bind, ctx. rewrite GetAllPools_run.
  destruct (decodePools _) as [pools|e|e]; cbn; try reflexivity.
  destruct (findPool pools token); reflexivity.
Qed.

(** Accumulating the pools field by field gives the list back. *)
Lemma copy_pools (pools : list Pool) :
  map (fun pool => {| ChainName := ChainName pool; PoolAddress := PoolAddress pool |}) pools
  = pools.
Proof.
  induction pools as [|[name address] pools IH]; cbn; [reflexivity|].
  rewrite IH. reflexivity.
Qed.

(** The scan stops at the first entry of the requested chain. *)
Lemma findPool_first (pools : list Pool) (token : string) :
  (exists p, In p pools /\ ChainName p = token) ->
  exists before p after,
    pools = (before ++ p :: after)%list /\ ChainName p = token /\
    (forall q, In q before -> ChainName q <> token) /\
    findPool pools token = Some (PoolAddress p).
Proof.
  induction pools as [|pool pools IH]; intros (p & Hin & Hname).
  - destruct Hin.
  - cbn [findPool]. destruct (String.eqb_spec (ChainName pool) token) as [Heq|Hne].
    + exists [], pool, pools. cbn. repeat split; auto.
    + destruct Hin as [->|Hin]; [contradiction|].
      destruct (IH (ex_intro _ p (conj Hin Hname)))
        as (before & p' & after & -> & Hname' & Hbefore & Hfind).
      exists (pool :: before), p', after. cbn. repeat split; auto.
      intros q [<-|Hq]; auto.
Qed.

Lemma findPool_none (pools : list Pool) (token : string) :
  (forall p, In p pools -> ChainName p <> token) -> findPool pools token = None.
Proof.
  induction pools as [|pool pools IH]; intros Hno; [reflexivity|].
  cbn [findPool]. destruct (String.eqb_spec (ChainName pool) token) as [Heq|Hne].
  - exfalso. apply (Hno pool); [left; reflexivity|exact Heq].
  - apply IH. intros p Hp. apply Hno. right. exact Hp.
Qed.

(** C8: on the registry the backend returns, [GetPool] gives the pool
    address of the (first) entry whose chain name is the requested one, and
    fails with the pool-not-found error when no entry has that name. *)
Theorem GetPool_returns_matching_pool
    (E : EthLib) (N : Network E) (cfg : Config) (chain : string) (w : World)
    (pools : list Pool) :
  graphql_pools N (trace w) (solverURL cfg) pools_query
  = Decoded {| gql_data := pools; gql_errors := [] |} ->
  ((exists p, In p pools /\ ChainName p = chain) ->
   exists before p after,
     pools = (before ++ p :: after)%list /\ ChainName p = chain /\
     (forall q, In q before -> ChainName q <> chain) /\
     GetPool E N cfg chain w
     = (Ok (PoolAddress p), add_events [EvHTTP (solverURL cfg) pools_query] w)) /\
  ((forall p, In p pools -> ChainName p <> chain) ->
   GetPool E N cfg chain w
   = (Err ("pool not found for token: " +:+ chain),
      add_events [EvHTTP (solverURL cfg) pools_query] w)).
Proof.
  intros Hreply. unfold GetPool. rewrite getPoolAddress_run, Hreply.
  cbn [decodePools gql_errors gql_data rewrap obind]. rewrite copy_pools.
  split.
  - intros Hex.
    destruct (findPool_first pools chain Hex)
      as (before & p & after & Hsplit & Hname & Hbefore & Hfind).
    exists before, p, after. rewrite Hfind. auto.
  - intros Hno. rewrite (findPool_none pools chain Hno). reflexivity.
Qed.

(** The reference registry holds an ethereum and a solana pool: the
    ethereum pool is found, a bitcoin pool is not. *)
Lemma GetPool_returns_matching_pool_witness :
  GetPool Reference.ethlib Reference.network Reference.config "ethereum" Reference.world0
  = (Ok "0xPoolEthereum",
     add_events [EvHTTP (solverURL Reference.config) pools_query] Reference.world0) /\
  GetPool Reference.ethlib Reference.network Reference.config "bitcoin" Reference.world0
  = (Err "pool not found for token: bitcoin",
     add_events [EvHTTP (solverURL Reference.config) pools_query] Reference.world0).
Proof.
  split.
  - destruct (GetPool_returns_matching_pool Reference.ethlib Reference.network
                Reference.config "ethereum" Reference.world0
                [Reference.ethereum_pool; Reference.solana_pool] eq_refl) as [Hfound _].
    destruct Hfound as (before & p & after & Hsplit & Hname & Hbefore & Hrun).
    + exists Reference.ethereum_pool. split; [left; reflexivity|reflexivity].
    + destruct before as [|q before].
      * cbn in Hsplit. injection Hsplit as <- _. exact Hrun.
      * exfalso. cbn in Hsplit. injection Hsplit as <- _.
        apply (Hbefore Reference.ethereum_pool); [left; reflexivity|reflexivity].
  - apply (GetPool_returns_matching_pool Reference.ethlib Reference.network
             Reference.config "bitcoin" Reference.world0
             [Reference.ethereum_pool; Reference.solana_pool] eq_refl).
    intros p [<-|[<-|[]]]; discriminate.
Defined.
(** ** The pipeline: stage preconditions *)

(** C4: signing needs a prepared transaction and submitting needs signed raw
    bytes; otherwise the stage fails with its precondition error and the world
    is left as it was: the swap is untouched and no event (no signature, no
    submission) is produced. *)
Theorem stages_require_previous_stage
    (sc : Strconv) (E : EthLib) (SL : SolLib) (N : Network E) (cfg : Config)
    (FormatV : Json -> string) (w : World) :
  (TxToSign (swap w) = None ->
   SignTransaction sc E SL cfg w = (Err "no transaction prepared for signing", w)) /\
  (TxToSign (swap w) = None \/
   (exists p, TxToSign (swap w) = Some p /\ RawTx p = EmptyString) ->
   SubmitTransaction E N cfg FormatV w = (Err "no signed transaction available", w)).
Proof.
  split.
  - intros Hnil. unfold SignTransaction, bind, get_swap. rewrite Hnil. reflexivity.
  - intros [Hnil|(p & Hp & Hraw)]; unfold SubmitTransaction, bind, get_swap.
    + rewrite Hnil. reflexivity.
    + rewrite Hp, Hraw. reflexivity.
Qed.

(** Nothing prepared: both stages refuse.  Prepared on the reference
    network but not signed: submission refuses. *)
Lemma stages_require_previous_stage_witness :
  SignTransaction Reference.strconv Reference.ethlib Reference.sollib Reference.config
    Reference.world0
  = (Err "no transaction prepared for signing", Reference.world0) /\
  SubmitTransaction Reference.ethlib Reference.network Reference.config (fun _ => "error")
    Reference.world0
  = (Err "no signed transaction available", Reference.world0) /\
  let prepared :=
    snd (PrepareTransaction Reference.strconv Reference.ethlib Reference.network
           Reference.config pretty "ethereum" Reference.world0) in
  SubmitTransaction Reference.ethlib Reference.network Reference.config (fun _ => "error")
    prepared
  = (Err "no signed transaction available", prepared).
Proof.
  split; [|split].
  - apply (stages_require_previous_stage Reference.strconv Reference.ethlib
             Reference.sollib Reference.network Reference.config (fun _ => "error")
             Reference.world0).
    reflexivity.
  - apply (stages_require_previous_stage Reference.strconv Reference.ethlib
             Reference.sollib Reference.network Reference.config (fun _ => "error")
             Reference.world0).
    left. reflexivity.
  - intros prepared.
    apply (stages_require_previous_stage Reference.strconv Reference.ethlib
             Reference.sollib Reference.network Reference.config (fun _ => "error")
             prepared).
    right. eexists. split; reflexivity.
Defined.
(** ** Signing *)


Ltac run_sign :=
  unfold SignTransaction, signEthereumTransaction, signSolanaTransaction,
    bind, get_swap, put_swap, ctx, lift, fail, panic, emit, ret.






(** The hypothesis on the signers is what the claim rests on: against a
    signer that mixes another nonce into the signature, the second invocation
    on the same prepared transaction stores another raw transaction. *)
Lemma signer_with_fresh_nonce_gives_other_bytes :
  let prepared :=
    snd (PrepareTransaction Reference.strconv Reference.ethlib Reference.network
           Reference.config pretty "ethereum" Reference.world0) in
  signed_output (snd (SignTransaction Reference.strconv Reference.ethlib Reference.sollib
                        Reference.config prepared))
  = Some "0x0,13,1500000000000000000,21000,1000000000;1337;42" /\
  signed_output (snd (SignTransaction Reference.strconv
                        (with_SignTx Reference.ethlib (sign_with_nonce 1))
                        Reference.sollib Reference.config prepared))
  = Some "0x0,13,1500000000000000000,21000,1000000000;1337;43".
Proof. vm_compute. split; reflexivity. Qed.

(** C10: once the key is configured and the addresses and the blockhash
    decode, [signSolanaTransaction] succeeds as soon as the serialisation
    succeeds, and stores the base58 text of the serialised transaction: the
    error of [solana.NewTransaction] and both results of [tx.Sign] (the
    second components of [Sol_NewTransaction] and [Sol_Sign]) are never
    looked at, so this holds whether or not a signature was produced. *)
Theorem signSolanaTransaction_ignores_signing_errors
    (SL : SolLib) (cfg : Config) (w : World) (ks : ChainKeys) (solKey : SolKey)
    (p : TransactionPrep) (from_address to_address : PublicKey) (blockhash : bytes)
    (tx : SolTx SL) (rawTx : bytes) :
  chainKeys cfg = Some ks ->
  SolanaKey ks = Some solKey ->
  TxToSign (swap w) = Some p ->
  PublicKeyFromBase58 SL (FromAddress (Chain_Params p)) = Ok from_address ->
  PublicKeyFromBase58 SL (ToAddress (Chain_Params p)) = Ok to_address ->
  MustHashFromBase58 SL (RecentBlockhash (Chain_Params p)) = Ok blockhash ->
  fst (Sol_NewTransaction SL
         [solanaInstruction SL (Chain_Params p) from_address to_address] blockhash)
  = Some tx ->
  Sol_MarshalBinary SL (fst (Sol_Sign SL tx (solanaKeyGetter SL solKey))) = Ok rawTx ->
  signSolanaTransaction SL cfg w
  = (Ok tt,
     {| swap := set_TxToSign (Some (set_RawTx (base58_Encode SL rawTx) p)) (swap w);
        clients := clients w;
        trace := trace w ++ [EvSolSign (solanaInstruction SL (Chain_Params p)
                                          from_address to_address) blockhash] |}).
Proof.
  intros Hks Hkey Hp Hfrom Hto Hhash Hnew Hser.
  unfold signSolanaTransaction, bind, get_swap, put_swap, ctx, lift, emit, ret.
  rewrite Hks, Hkey, Hp. cbv beta iota zeta.
  rewrite Hfrom. cbn [rewrap]. rewrite Hto. cbn [rewrap]. rewrite Hhash, Hnew.
  cbn [trace swap clients]. rewrite Hser. reflexivity.
Qed.

(** The Solana transfer prepared on the reference network: the configured
    key is not the key of the source pool, [tx.Sign] reports that the signer
    key is missing and adds no signature, and the stage still succeeds and
    stores a raw transaction. *)
Lemma signSolanaTransaction_ignores_signing_errors_witness :
  let prepared :=
    snd (PrepareTransaction Reference.strconv Reference.ethlib Reference.network
           Reference.config pretty "solana" Reference.world_sol) in
  let source := list_byte_of_string "PoolSolana" in
  let destination := list_byte_of_string "Destination" in
  let ins := {| ti_lamports := 1; ti_from := source; ti_to := destination |} in
  let blockhash := list_byte_of_string "blockhash" in
  Sol_Sign Reference.sollib (ins, blockhash, [])
    (solanaKeyGetter Reference.sollib (list_byte_of_string "OtherKey"))
  = ((ins, blockhash, []), Some "signer key not found") /\
  fst (signSolanaTransaction Reference.sollib Reference.config prepared) = Ok tt /\
  signed_output (snd (signSolanaTransaction Reference.sollib Reference.config prepared))
  = Some "PoolSolanaDestination1blockhash".
Proof.
  intros prepared source destination ins blockhash.
  split; [vm_compute; reflexivity|].
  pose proof (signSolanaTransaction_ignores_signing_errors Reference.sollib
                Reference.config prepared Reference.keys
                (list_byte_of_string "OtherKey")
                {| Chain := "solana"; RawTx := EmptyString;
                   Chain_Params :=
                     {| FromAddress := "PoolSolana"; ToAddress := "Destination";
                        Amount := "1.500000"; GasPrice := EmptyString; GasLimit := 0;
                        Nonce := 0; RecentBlockhash := "blockhash";
                        Lamports := S754_finite false 6755399441055744 (-52) |} |}
                source destination blockhash (ins, blockhash, [])
                (list_byte_of_string "PoolSolanaDestination1blockhash")
                eq_refl eq_refl eq_refl eq_refl eq_refl eq_refl eq_refl eq_refl) as Hrun.
  rewrite Hrun. split; reflexivity.
Defined.

(** ** Amounts in the prepared and the signed transaction *)

Lemma ethTxOf_value (sc : Strconv) (E : EthLib) (cp : ChainParams) (value : Z) :
  toWei (fst (ParseFloat sc (Amount cp))) = Ok value ->
  exists tx, ethTxOf sc E cp = Ok tx /\ tx_value tx = value.
Proof.
  intros Hwei. unfold ethTxOf, ethValueOfAmount. rewrite Hwei. cbn.
  eexists. split; reflexivity.
Qed.

(** The transaction handed to the signer carries the converted amount. *)
Lemma signEthereumTransaction_signs_value
    (sc : Strconv) (E : EthLib) (cfg : Config) (w : World) (ks : ChainKeys)
    (key : EthKey) (p : TransactionPrep) (value : Z) :
  chainKeys cfg = Some ks -> EthereumKey ks = Some key -> TxToSign (swap w) = Some p ->
  toWei (fst (ParseFloat sc (Amount (Chain_Params p)))) = Ok value ->
  exists tx,
    trace (snd (signEthereumTransaction sc E cfg w)) = trace w ++ [EvEthSign tx] /\
    tx_value tx = value.
Proof.
  intros Hks Hkey Hp Hwei.
  destruct (ethTxOf_value sc E (Chain_Params p) value Hwei) as (tx & Htx & Hvalue).
  exists tx. split; [|exact Hvalue].
  unfold signEthereumTransaction, bind, get_swap, put_swap, ctx, lift, emit, ret.
  rewrite Hks, Hkey, Hp, Htx. cbv beta iota zeta.
  repeat case_match; simplify_eq; reflexivity.
Qed.

(** What [prepareSolanaTransaction] leaves: on success a Solana transaction
    whose lamports are the quoted output amount; otherwise the swap as it
    was. *)
Lemma prepareSolanaTransaction_lamports
    (sc : Strconv) (E : EthLib) (N : Network E) (cfg : Config) (w : World) :
  match prepareSolanaTransaction sc E N cfg w with
  | (Ok _, w') =>
      exists p, TxToSign (swap w') = Some p /\ Chain p = "solana" /\
                RawTx p = EmptyString /\
                Lamports (Chain_Params p) = ToAmount (Swap_Result (swap w))
  | (_, w') => swap w' = swap w
  end.
Proof.
  unfold prepareSolanaTransaction, bind, get_swap, put_swap, ctx, lift, emit, history, ret.
  rewrite getPoolAddress_run.
  destruct (obind _ _) as [address|e|e]; cbn; try reflexivity.
  destruct (sol_latest_blockhash N _ _) as [blockhash|e|e]; cbn; try reflexivity.
  eexists. repeat split.
Qed.

Lemma prepareSolanaTransaction_succeeds
    (sc : Strconv) (E : EthLib) (N : Network E) (cfg : Config) (w : World)
    (pools : list Pool) (address blockhash : string) :
  graphql_pools N (trace w) (solverURL cfg) pools_query
  = Decoded {| gql_data := pools; gql_errors := [] |} ->
  findPool pools (ToToken (Swap_Result (swap w))) = Some address ->
  sol_latest_blockhash N (trace w ++ [EvHTTP (solverURL cfg) pools_query]) (SolanaRPC cfg)
  = Ok blockhash ->
  fst (prepareSolanaTransaction sc E N cfg w) = Ok tt.
Proof.
  intros Hpools Hfind Hhash.
  unfold prepareSolanaTransaction, bind, get_swap, put_swap, ctx, lift, emit, history, ret.
  rewrite getPoolAddress_run, Hpools.
  cbn [decodePools gql_errors gql_data rewrap obind]. rewrite copy_pools, Hfind.
  cbn. rewrite Hhash. reflexivity.
Qed.






(** ** Notification hub: broadcast *)

Lemma WriteJSON_run (E : EthLib) (N : Network E) (conn : Conn) (msg : WSMessage)
    (w : World) :
  WriteJSON E N conn msg w
  = (Ok (ws_write N (trace w) conn msg), add_events [EvWriteJSON conn msg] w).
Proof. reflexivity. Qed.

Lemma prune_cons (closed : Conn -> bool) (client : Conn) (rest : list Conn)
    (m : gmap Conn bool) :
  prune closed (client :: rest) m
  = prune closed rest (if closed client then delete client m else m).
Proof. reflexivity. Qed.

Lemma rangeClients_run (E : EthLib) (N : Network E) (closed : Conn -> bool)
    (msg : WSMessage) :
  write_fails_exactly_on N closed ->
  forall order w,
    NoDup order ->
    (forall c, c ∈ order -> is_Some (clients w !! c)) ->
    rangeClients E N order msg w
    = (Ok tt,
       {| swap := swap w;
          clients := prune closed order (clients w);
          trace := trace w ++ broadcast_events closed msg order |}).
Proof.
  intros Hfail order. induction order as [|client rest IH]; intros w Hnodup Hin.
  - cbn. rewrite app_nil_r. destruct w; reflexivity.
  - apply NoDup_cons in Hnodup as [Hfresh Hnodup].
    cbn [rangeClients]. unfold bind at 1. unfold get_clients at 1.
    destruct (Hin client ltac:(left)) as [b Hb]. rewrite Hb.
    unfold bind at 1. rewrite WriteJSON_run.
    destruct (closed client) eqn:Hclosed.
    + destruct (ws_write N (trace w) client msg) as [e|] eqn:Hw.
      2:{ apply Hfail in Hw. congruence. }
      unfold bind at 1. rewrite emit_run.
      unfold bind at 1. unfold get_clients at 1.
      unfold bind at 1. unfold put_clients at 1. cbn [clients add_events swap trace].
      rewrite IH; cbn [clients swap trace].
      * rewrite prune_cons. cbn [broadcast_events flat_map]. rewrite Hclosed.
        rewrite <- !app_assoc. reflexivity.
      * exact Hnodup.
      * intros c Hc. rewrite lookup_delete_ne; [apply Hin; right; exact Hc|].
        intros ->. contradiction.
    + destruct (ws_write N (trace w) client msg) as [e|] eqn:Hw.
      1:{ assert (ws_write N (trace w) client msg = None) as Hnone by (apply Hfail; exact Hclosed).
          congruence. }
      rewrite IH; cbn [clients add_events swap trace].
      * rewrite prune_cons. cbn [broadcast_events flat_map]. rewrite Hclosed.
        rewrite <- !app_assoc. reflexivity.
      * exact Hnodup.
      * intros c Hc. apply Hin. right. exact Hc.
Qed.

Lemma prune_lookup (closed : Conn -> bool) (order : list Conn) (m : gmap Conn bool)
    (c : Conn) :
  prune closed order m !! c = if closed c && bool_decide (c ∈ order) then None else m !! c.
Proof.
  revert m. induction order as [|client rest IH]; intros m.
  - cbn. rewrite andb_false_r. reflexivity.
  - rewrite prune_cons, IH.
    destruct (closed c) eqn:Hc; cbn [andb].
    + destruct (decide (c = client)) as [->|Hne].
      * rewrite Hc, lookup_delete_eq.
        rewrite (bool_decide_eq_true_2 (client ∈ client :: rest)) by left.
        destruct (bool_decide (client ∈ rest)); reflexivity.
      * assert (bool_decide (c ∈ client :: rest) = bool_decide (c ∈ rest)) as ->.
        { apply bool_decide_ext. rewrite elem_of_cons. tauto. }
        destruct (bool_decide (c ∈ rest)); [reflexivity|].
        destruct (closed client); [apply lookup_delete_ne; congruence|reflexivity].
    + destruct (closed client) eqn:Hclient; [|reflexivity].
      apply lookup_delete_ne. congruence.
Qed.

Lemma enumerates_length (order : list Conn) (m : gmap Conn bool) :
  enumerates order m -> length order = size m.
Proof.
  intros [Hnodup Hin].
  rewrite <- length_map_to_list, <- (length_fmap fst).
  apply Permutation_length, NoDup_Permutation; [exact Hnodup|apply NoDup_fst_map_to_list|].
  intros c. rewrite Hin, list_elem_of_fmap. split.
  - intros [b Hb]. exists (c, b). split; [reflexivity|]. apply elem_of_map_to_list. exact Hb.
  - intros ([c' b] & -> & Hcb). exists b. apply elem_of_map_to_list. exact Hcb.
Qed.

Lemma broadcast_events_writes (closed : Conn -> bool) (msg : WSMessage) (order : list Conn) :
  length (List.filter is_write (broadcast_events closed msg order)) = length order /\
  (forall c, c ∈ order -> In (EvWriteJSON c msg) (broadcast_events closed msg order)) /\
  (forall c, c ∈ order -> closed c = true -> In (EvClose c) (broadcast_events closed msg order)).
Proof.
  induction order as [|client rest (IHlen & IHw & IHc)].
  - cbn. split; [reflexivity|]. split; intros c Hc; inversion Hc.
  - cbn [broadcast_events flat_map]. fold (broadcast_events closed msg rest).
    split; [|split].
    + destruct (closed client); cbn; rewrite IHlen; reflexivity.
    + intros c Hc. apply elem_of_cons in Hc as [->|Hc].
      * destruct (closed client); left; reflexivity.
      * apply in_or_app. right. apply IHw. exact Hc.
    + intros c Hc Hclosed. apply elem_of_cons in Hc as [->|Hc].
      * rewrite Hclosed. right. left. reflexivity.
      * apply in_or_app. right. apply IHc; assumption.
Qed.

(** C5: one broadcast writes the event once to every subscriber of the
    registry, whatever the walk order and whichever writes fail; a subscriber
    whose write fails is closed and removed, the others stay.  When exactly
    one subscriber's write fails, the other N-1 receive the event, and the
    registry afterwards is the registry without that subscriber. *)
Theorem broadcast_reaches_all_and_prunes_failed
    (E : EthLib) (N : Network E) (range_order : gmap Conn bool -> list Conn)
    (msg : WSMessage) (w : World) (closed : Conn -> bool) :
  write_fails_exactly_on N closed ->
  enumerates (range_order (clients w)) (clients w) ->
  exists evs clients',
    broadcastOne E N range_order msg w
    = (Ok tt, {| swap := swap w; clients := clients'; trace := trace w ++ evs |}) /\
    length (List.filter is_write evs) = size (clients w) /\
    (forall c, is_Some (clients w !! c) -> In (EvWriteJSON c msg) evs) /\
    (forall c, clients' !! c = if closed c then None else clients w !! c) /\
    (forall c0,
       is_Some (clients w !! c0) -> closed c0 = true ->
       (forall c, is_Some (clients w !! c) -> closed c = true -> c = c0) ->
       clients' = delete c0 (clients w) /\
       size clients' = pred (size (clients w)) /\
       In (EvClose c0) evs /\
       forall c, is_Some (clients w !! c) -> c <> c0 ->
                 In (EvWriteJSON c msg) evs /\
                 (forall h, ws_write N h c msg = None) /\
                 clients' !! c = clients w !! c).
Proof.
  intros Hfail Henum. pose proof Henum as [Hnodup Hin].
  set (order := range_order (clients w)) in *.
  pose proof (broadcast_events_writes closed msg order) as (Hlen & Hwrites & Hcloses).
  assert (Hlookup : forall c, prune closed order (clients w) !! c
                              = if closed c then None else clients w !! c).
  { intros c. rewrite prune_lookup. destruct (closed c); [|reflexivity]. cbn [andb].
    case_bool_decide as Hc; [reflexivity|].
    destruct (clients w !! c) as [b|] eqn:Hb; [|reflexivity].
    exfalso. apply Hc, Hin. eauto. }
  exists (broadcast_events closed msg order), (prune closed order (clients w)).
  split; [|split; [|split; [|split]]].
  - unfold broadcastOne, bind, get_clients. fold order.
    apply (rangeClients_run E N closed msg Hfail order w Hnodup).
    intros c Hc. apply Hin. exact Hc.
  - rewrite Hlen. apply enumerates_length. exact Henum.
  - intros c Hc. apply Hwrites, Hin. exact Hc.
  - exact Hlookup.
  - intros c0 Hc0 Hclosed0 Honly.
    assert (Heq : prune closed order (clients w) = delete c0 (clients w)).
    { apply map_eq. intros c. rewrite Hlookup.
      destruct (decide (c = c0)) as [->|Hne].
      - rewrite Hclosed0, lookup_delete_eq. reflexivity.
      - rewrite lookup_delete_ne by congruence.
        destruct (closed c) eqn:Hc; [|reflexivity].
        destruct (clients w !! c) as [b|] eqn:Hb; [|reflexivity].
        exfalso. apply Hne, Honly; eauto. }
    split; [exact Heq|]. split; [rewrite Heq; apply map_size_delete_Some; exact Hc0|].
    split; [apply Hcloses; [apply Hin; exact Hc0|exact Hclosed0]|].
    intros c Hc Hne.
    assert (Hopen : closed c = false).
    { destruct (closed c) eqn:Hcl; [|reflexivity]. exfalso. apply Hne, Honly; auto. }
    split; [apply Hwrites, Hin; exact Hc|].
    split; [intros h; apply Hfail; exact Hopen|].
    rewrite Hlookup, Hopen. reflexivity.
Qed.

(** Three subscribers on the reference network, where connection 2 is
    closed: all three are written to, 2 is removed, 1 and 3 remain. *)
Lemma broadcast_reaches_all_and_prunes_failed_witness :
  let registry : gmap Conn bool := {[ 1%nat := true; 2%nat := true; 3%nat := true ]} in
  let w := {| swap := Reference.empty_swap; clients := registry; trace := [] |} in
  let msg := status_message "nft_transfer_pending" "pending" "coordinating" in
  exists evs clients',
    broadcastOne Reference.ethlib Reference.network Reference.range_order msg w
    = (Ok tt, {| swap := swap w; clients := clients'; trace := evs |}) /\
    length (List.filter is_write evs) = 3%nat /\
    clients' = {[ 1%nat := true; 3%nat := true ]} /\
    In (EvWriteJSON 1%nat msg) evs /\ In (EvWriteJSON 2%nat msg) evs /\
    In (EvWriteJSON 3%nat msg) evs /\ In (EvClose 2%nat) evs.
Proof.
  intros registry w msg.
  destruct (broadcast_reaches_all_and_prunes_failed Reference.ethlib Reference.network
              Reference.range_order msg w (fun c => Nat.eqb c 2))
    as (evs & clients' & Hrun & Hlen & Hwrites & Hlookup & Hone).
  - intros h c m. cbn. destruct (Nat.eqb c 2); split; congruence.
  - split; [apply NoDup_fst_map_to_list|].
    intros c. unfold Reference.range_order. rewrite list_elem_of_fmap. split.
    + intros ([c' b] & -> & Hcb). exists b. apply elem_of_map_to_list. exact Hcb.
    + intros [b Hb]. exists (c, b). split; [reflexivity|].
      apply elem_of_map_to_list. exact Hb.
  - destruct (Hone 2%nat) as (Heq & Hsize & Hclose & Hothers).
    + exists true. reflexivity.
    + reflexivity.
    + intros c [b Hb] Hc. apply Nat.eqb_eq. exact Hc.
    + exists evs, clients'. split; [exact Hrun|]. split; [exact Hlen|].
      split; [rewrite Heq; apply map_eq; intros c; vm_compute; reflexivity |].
      split; [apply Hwrites; exists true; reflexivity|].
      split; [apply Hwrites; exists true; reflexivity|].
      split; [apply Hwrites; exists true; reflexivity|exact Hclose].
Defined.

(** ** Notification hub: inbound messages *)

Lemma handleInbound_run (E : EthLib) (N : Network E) (conn : Conn) (msg : WSMessage)
    (w : World) :
  handleInbound E N conn msg w
  = (Ok tt,
     add_events [EvWriteJSON conn (if String.eqb (MsgType msg) "ping"
                                   then pong_message else unknown_type_message)] w).
Proof.
  unfold handleInbound. destruct (String.eqb (MsgType msg) "ping"); reflexivity.
Qed.

Lemma readLoop_run (E : EthLib) (N : Network E) (conn : Conn)
    (inbound : list WSMessage) (w : World) :
  readLoop E N conn inbound w
  = (Ok tt,
     add_events
       (map (fun msg => EvWriteJSON conn
                          (if String.eqb (MsgType msg) "ping"
                           then pong_message else unknown_type_message))
            inbound) w).
Proof.
  revert w. induction inbound as [|msg rest IH]; intros w.
  - cbn. rewrite add_events_nil. reflexivity.
  - cbn [readLoop map]. unfold bind at 1. rewrite handleInbound_run, IH.
    rewrite add_events_add_events. reflexivity.
Qed.

(** C6: a [ping] is answered with exactly one [pong] and any other type
    with exactly one [error] event saying "Unknown message type", both written
    to the connection the message came from; the read loop produces nothing
    else: one such reply per inbound message, no write to another connection,
    nothing sent to the broadcast channel, the registry untouched. *)
Theorem inbound_messages_are_answered_not_relayed
    (E : EthLib) (N : Network E) (conn : Conn) :
  (forall msg w,
     MsgType msg = "ping" ->
     handleInbound E N conn msg w
     = (Ok tt, add_events [EvWriteJSON conn pong_message] w)) /\
  (forall msg w,
     MsgType msg <> "ping" ->
     handleInbound E N conn msg w
     = (Ok tt, add_events [EvWriteJSON conn unknown_type_message] w)) /\
  MsgType pong_message = "pong" /\
  MsgType unknown_type_message = "error" /\
  MsgError unknown_type_message = "Unknown message type" /\
  (forall inbound w,
     readLoop E N conn inbound w
     = (Ok tt,
        add_events
          (map (fun msg => EvWriteJSON conn
                             (if String.eqb (MsgType msg) "ping"
                              then pong_message else unknown_type_message))
               inbound) w)).
Proof.
  split; [|split; [|split; [|split; [|split]]]]; try reflexivity.
  - intros msg w Hping. rewrite handleInbound_run, Hping. reflexivity.
  - intros msg w Hother. rewrite handleInbound_run.
    destruct (String.eqb_spec (MsgType msg) "ping") as [Heq|_]; [contradiction|reflexivity].
  - intros inbound w. apply readLoop_run.
Qed.

(** A connection served from upgrade to disconnect: the greeting, one reply
    per message read, and the clean-up; the registry ends without the
    connection and otherwise as it was found. *)
Lemma HandleWebSocket_run (E : EthLib) (N : Network E) (conn : Conn)
    (inbound : list WSMessage) (w : World) :
  HandleWebSocket E N (Some conn) inbound w
  = (Ok tt,
     {| swap := swap w;
        clients := delete conn (clients w);
        trace := trace w
                 ++ EvWriteJSON conn connected_message
                 :: map (fun msg => EvWriteJSON conn
                                      (if String.eqb (MsgType msg) "ping"
                                       then pong_message else unknown_type_message))
                        inbound
                 ++ [EvClose conn] |}).
Proof.
  unfold HandleWebSocket, bind, get_clients, put_clients. rewrite WriteJSON_run.
  rewrite readLoop_run. cbn. rewrite delete_insert_eq.
  rewrite <- !app_assoc. unfold emit. cbn. rewrite <- !app_assoc. reflexivity.
Qed.

(** ** NFT transfer: amounts that do not parse *)

Lemma toWei_ok (x : float64) : x <> S754_nan -> exists value, toWei x = Ok value.
Proof.
  intros Hx.
  destruct x as [s|s| |s m e];
    [exists 0; apply toWei_zero | exists 0; apply toWei_infinity | contradiction | ].
  unfold toWei. rewrite f64_1e18_eq. cbn [BigFloat.SetFloat64 obind BigFloat.Mul].
  destruct (BigFloat.round53 _ _) as [m' e']. cbn. eexists. reflexivity.
Qed.

(** The sale payment is always defined: the amount is never a NaN. *)
Lemma saleValueWei_ok (calSwapAmount listedPrice : float64) :
  exists value, saleValueWei calSwapAmount listedPrice = Ok value.
Proof.
  unfold saleValueWei, saleAmount.
  destruct (f64_gt calSwapAmount listedPrice) eqn:Hgt.
  - apply toWei_ok. intros ->. unfold f64_gt, SFltb in Hgt.
    destruct calSwapAmount; discriminate.
  - exists 0. reflexivity.
Qed.

(** C3, amended: an amount that does not parse is not rejected.
    [parseFloat64] drops the parse error and returns the value that comes with
    it (0 for malformed text); the transfer towards ETH then goes on with the
    requested amount 0, and succeeds whenever the NFT lookup, the sale
    transaction and the transfer mutation succeed, all three lifecycle events
    included. *)
Theorem transfer_proceeds_on_unparsable_amount
    (sc : Strconv) (E : EthLib) (N : Network E) (cfg : Config) (Itoa : Z -> string)
    (params : TransferParams.t) (w : World)
    (nft : NftUsingBlobHash) (ks : ChainKeys) (sender tokenIdInt : Z)
    (saleHash resp : string) :
  snd (ParseFloat sc (TransferParams.Amount params)) <> None ->
  fst (ParseFloat sc (TransferParams.Amount params)) = f64_zero ->
  TransferParams.ToToken params = "ETH" ->
  (forall h url body, graphql_nft N h url body = Decoded nft) ->
  (forall h url, eth_dial N h url = None) ->
  chainKeys cfg = Some ks ->
  NewKeyedTransactorWithChainID E (EthereumKey ks) 1337 = Ok sender ->
  BigInt_SetString E (Itoa (nft_ID nft)) = Some tokenIdInt ->
  (forall h contract auth value method arg,
     contract_transact N h contract auth value method arg = Ok saleHash) ->
  (forall h hash, wait_mined N h hash = None) ->
  (forall h url body,
     graphql_transfer N h url body = Decoded {| gql_data := resp; gql_errors := [] |}) ->
  parseFloat64 sc (TransferParams.Amount params) = f64_zero /\
  exists value,
    saleValueWei f64_zero (parseFloat64 sc (nft_Price nft)) = Ok value /\
    ExecuteTransferMutation sc E N cfg Itoa params w
    = (Ok ({| gql_data := resp; gql_errors := [] |}, saleHash),
       add_events (transfer_events E cfg params tokenIdInt value saleHash) w).
Proof.
  intros Herr Hzero Heth Hnft Hdial Hks Hauth Htoken Hsale Hmined Htransfer.
  split; [exact Hzero|].
  destruct (saleValueWei_ok f64_zero (parseFloat64 sc (nft_Price nft))) as [value Hvalue].
  exists value. split; [exact Hvalue|].
  unfold ExecuteTransferMutation, GetNFTDetails, ExecuteNFTContractTransaction,
    dialEthereum, check, ctx, bind, history, emit, lift, ret, fail.
  rewrite Heth. cbn [String.eqb Ascii.eqb Bool.eqb].
  rewrite Hnft. cbn [rewrap trace fst snd].
  rewrite Hdial. cbn [rewrap trace fst snd].
  unfold parseFloat64 at 1. rewrite Hzero, Hvalue, Hks, Hauth. cbn [rewrap].
  rewrite Htoken. cbn [trace]. rewrite Hsale. cbn [rewrap trace].
  rewrite Hmined. cbn [rewrap trace]. rewrite Htransfer. cbn [gql_errors].
  unfold add_events, transfer_events. cbn [swap clients trace].
  rewrite <- !app_assoc. reflexivity.
Qed.

(** Towards any other token the amount is not parsed at all: it only
    travels, as text, inside the transfer mutation. *)
Lemma transfer_does_not_parse_unless_eth
    (sc sc' : Strconv) (E : EthLib) (N : Network E) (cfg : Config) (Itoa : Z -> string)
    (params : TransferParams.t) (w : World) :
  TransferParams.ToToken params <> "ETH" ->
  ExecuteTransferMutation sc E N cfg Itoa params w
  = ExecuteTransferMutation sc' E N cfg Itoa params w.
Proof.
  intros Hother. unfold ExecuteTransferMutation.
  destruct (String.eqb_spec (TransferParams.ToToken params) "ETH") as [Heq|_];
    [contradiction|reflexivity].
Qed.

(** The amount text [abc] on the reference network, towards ETH: the
    parser reports a syntax error, and the transfer succeeds, after a sale
    paid 0 wei. *)
Lemma transfer_succeeds_on_unparsable_amount :
  snd (ParseFloat Reference.strconv (TransferParams.Amount transfer_with_bad_amount))
  = Some "invalid syntax" /\
  is_err (fst (ExecuteTransferMutation Reference.strconv Reference.ethlib
                 Reference.network Reference.config pretty transfer_with_bad_amount
                 Reference.world0)) = false /\
  ExecuteTransferMutation Reference.strconv Reference.ethlib Reference.network
    Reference.config pretty transfer_with_bad_amount Reference.world0
  = (Ok ({| gql_data := "transferred"; gql_errors := [] |}, "0xsale"),
     add_events (transfer_events Reference.ethlib Reference.config
                   transfer_with_bad_amount 7 0 "0xsale") Reference.world0).
Proof. vm_compute. repeat split; reflexivity. Qed.

Lemma transfer_proceeds_on_unparsable_amount_witness :
  snd (ParseFloat Reference.strconv (TransferParams.Amount transfer_with_bad_amount))
  <> None /\
  parseFloat64 Reference.strconv (TransferParams.Amount transfer_with_bad_amount)
  = f64_zero /\
  exists value,
    saleValueWei f64_zero (parseFloat64 Reference.strconv "2") = Ok value /\
    ExecuteTransferMutation Reference.strconv Reference.ethlib Reference.network
      Reference.config pretty transfer_with_bad_amount Reference.world0
    = (Ok ({| gql_data := "transferred"; gql_errors := [] |}, "0xsale"),
       add_events (transfer_events Reference.ethlib Reference.config
                     transfer_with_bad_amount 7 value "0xsale") Reference.world0).
Proof.
  split; [discriminate|].
  apply (transfer_proceeds_on_unparsable_amount Reference.strconv Reference.ethlib
           Reference.network Reference.config pretty transfer_with_bad_amount
           Reference.world0
           {| nft_TokenId := "token"; nft_Price := "2"; nft_ID := 7 |}
           Reference.keys 42 7 "0xsale" "transferred");
    try reflexivity; discriminate.
Defined.

(** * Further properties *)

(** ** Polling: the first visible answer *)

Lemma rpc_count_app (h evs : list Event) :
  rpc_count (h ++ evs) = (rpc_count h + rpc_count evs)%nat.
Proof. unfold rpc_count. rewrite List.filter_app, length_app. reflexivity. Qed.

Lemma visible_after_next {E : EthLib} (N : Network E) (base k : nat)
    (result : gmap string Json) :
  visible_after N base (S k) result -> visible_after N (S base) k result.
Proof.
  intros (Hbefore & Hat & Hres). split; [|split; [|exact Hres]].
  - intros h endpoint method params Hlt. apply Hbefore. lia.
  - intros h endpoint method params Heq. apply Hat. lia.
Qed.

Lemma pollLoop_first_visible (E : EthLib) (N : Network E) (cfg : Config)
    (txHash : string) (result : gmap string Json) :
  forall k n w response err,
    visible_after N (rpc_count (trace w)) k result ->
    (k < n)%nat ->
    pollLoop E N cfg n txHash response err w
    = (Ok (Some result, None),
       add_events (concat (repeat (poll_round cfg txHash) k)
                   ++ [EvRPC (SolanaRPC cfg) "getTransaction"
                         (getTransaction_params txHash)]) w).
Proof.
  induction k as [|k IH]; intros n w response err Hvis Hlt;
    destruct n as [|n]; try lia.
  - destruct Hvis as (_ & Hat & Hres).
    cbn [pollLoop]. unfold bind at 1. rewrite makeRPCRequest_run.
    rewrite Hat by lia. rewrite Hres. reflexivity.
  - pose proof Hvis as (Hbefore & _ & _).
    cbn [pollLoop]. unfold bind at 1. rewrite makeRPCRequest_run.
    destruct (Hbefore (trace w) (SolanaRPC cfg) "getTransaction"
                (getTransaction_params txHash)) as (r & Hreply & Hnil); [lia|].
    rewrite Hreply, Hnil. unfold bind at 1. rewrite emit_run.
    rewrite add_events_add_events.
    rewrite IH.
    + rewrite add_events_add_events. cbn [repeat concat]. rewrite <- app_assoc.
      reflexivity.
    + apply visible_after_next in Hvis. cbn [add_events trace].
      rewrite rpc_count_app. cbn. replace (rpc_count (trace w) + 1)%nat
        with (S (rpc_count (trace w))) by lia. exact Hvis.
    + lia.
Qed.

(** X1: when the transaction becomes visible at one of the ten attempts, the
    lookup returns that answer at once: one request and one 5-second pause
    for every earlier attempt, then the successful request, and nothing
    after it. *)
Theorem polling_returns_first_visible_answer
    (E : EthLib) (N : Network E) (cfg : Config) (txHash : string) (w : World)
    (k : nat) (result : gmap string Json) :
  visible_after N (rpc_count (trace w)) k result ->
  (k < 10)%nat ->
  GetSolanaTransaction E N cfg txHash w
  = (Ok (Some result),
     add_events (concat (repeat (poll_round cfg txHash) k)
                 ++ [EvRPC (SolanaRPC cfg) "getTransaction"
                       (getTransaction_params txHash)]) w).
Proof.
  intros Hvis Hlt. unfold GetSolanaTransaction, bind.
  rewrite (pollLoop_first_visible E N cfg txHash result k 10 w None None Hvis Hlt).
  reflexivity.
Qed.

Lemma polling_returns_first_visible_answer_witness :
  GetSolanaTransaction Reference.ethlib network_visible_third Reference.config "5VERv8"
    Reference.world0
  = (Ok (Some {["result" := JObj [("slot", JNum 9)]]}),
     add_events (concat (repeat (poll_round Reference.config "5VERv8") 2)
                 ++ [EvRPC (SolanaRPC Reference.config) "getTransaction"
                       (getTransaction_params "5VERv8")]) Reference.world0).
Proof.
  apply (polling_returns_first_visible_answer Reference.ethlib network_visible_third
           Reference.config "5VERv8" Reference.world0 2).
  - split; [|split].
    + intros h endpoint method params Hlt. cbn in Hlt. cbn [network_visible_third rpc_post].
      destruct (Nat.ltb_spec (rpc_count h) 2) as [_|Hge]; [|lia].
      eexists. split; [reflexivity|]. rewrite lookup_singleton_eq. reflexivity.
    + intros h endpoint method params Heq. cbn in Heq. cbn [network_visible_third rpc_post].
      destruct (Nat.ltb_spec (rpc_count h) 2) as [Hlt|_]; [lia|reflexivity].
    + rewrite lookup_singleton_eq. reflexivity.
  - lia.
Defined.

Lemma pollLoop_shape (E : EthLib) (N : Network E) (cfg : Config) (txHash : string) :
  forall n w response err,
    exists evs r,
      pollLoop E N cfg n txHash response err w = (Ok r, add_events evs w) /\
      (rpc_count evs <= n)%nat /\
      Forall (fun ev => ev = EvRPC (SolanaRPC cfg) "getTransaction"
                               (getTransaction_params txHash)
                        \/ ev = EvSleep 5) evs /\
      (length evs <= 2 * rpc_count evs)%nat.
Proof.
  induction n as [|n IH]; intros w response err.
  - exists [], (response, err). cbn. rewrite add_events_nil.
    repeat split; [lia|constructor|lia].
  - cbn [pollLoop]. unfold bind at 1. rewrite makeRPCRequest_run.
    set (rpc := EvRPC (SolanaRPC cfg) "getTransaction" (getTransaction_params txHash)).
    set (w1 := add_events [rpc] w).
    destruct (rpc_post N (trace w) (SolanaRPC cfg) "getTransaction"
                (getTransaction_params txHash)) as [e|e|e|result].
    1-3: destruct (IH w1 None (Some e)) as (evs & r & Hrun & Hcount & Hshape & Hlen);
         exists (rpc :: evs), r; cbn; rewrite Hrun; unfold w1;
         rewrite add_events_add_events;
         (split; [reflexivity|]); unfold rpc_count in *; cbn;
         (split; [lia|]); (split; [constructor; [left; reflexivity|exact Hshape]|lia]).
    destruct (json_is_nil (result !! "result")).
    + unfold bind at 1. rewrite emit_run.
      destruct (IH (add_events [EvSleep 5] w1) (Some result) None)
        as (evs & r & Hrun & Hcount & Hshape & Hlen).
      exists (rpc :: EvSleep 5 :: evs), r.
      rewrite Hrun. unfold w1. rewrite !add_events_add_events.
      split; [reflexivity|]. unfold rpc_count in *. cbn.
      split; [lia|]. split; [|lia].
      constructor; [left; reflexivity|]. constructor; [right; reflexivity|exact Hshape].
    + exists [rpc], (Some result, None). cbn.
      split; [reflexivity|]. split; [unfold rpc_count; cbn; lia|].
      split; [constructor; [left; reflexivity|constructor]|unfold rpc_count; cbn; lia].
Qed.

(** X2: whatever the network answers, one lookup sends at most ten
    requests and pauses at most once per request; it adds nothing else to the
    trace, touches neither the swap nor the registry, and ends in a result or
    an error, never in a panic. *)
Theorem polling_is_bounded
    (E : EthLib) (N : Network E) (cfg : Config) (txHash : string) (w : World) :
  exists evs,
    snd (GetSolanaTransaction E N cfg txHash w) = add_events evs w /\
    (rpc_count evs <= 10)%nat /\
    (length evs <= 2 * rpc_count evs)%nat /\
    Forall (fun ev => ev = EvRPC (SolanaRPC cfg) "getTransaction"
                             (getTransaction_params txHash)
                      \/ ev = EvSleep 5) evs /\
    (is_ok (fst (GetSolanaTransaction E N cfg txHash w))
     || is_err (fst (GetSolanaTransaction E N cfg txHash w))) = true.
Proof.
  destruct (pollLoop_shape E N cfg txHash 10 w None None)
    as (evs & [response err] & Hrun & Hcount & Hshape & Hlen).
  exists evs. unfold GetSolanaTransaction, bind. rewrite Hrun.
  destruct err; cbn; auto.
Qed.

(** X3: when the request itself fails at each of the ten attempts, the
    lookup fails with the last transport error behind its own message, after
    ten requests and no pause at all. *)
Theorem polling_fails_after_ten_transport_errors
    (E : EthLib) (N : Network E) (cfg : Config) (txHash msg : string) (w : World) :
  (forall h endpoint method params, rpc_post N h endpoint method params = TransportError msg) ->
  GetSolanaTransaction E N cfg txHash w
  = (Err ("failed to get Solana transaction after 10 retries: " +:+ msg),
     add_events (repeat (EvRPC (SolanaRPC cfg) "getTransaction"
                           (getTransaction_params txHash)) 10) w).
Proof. intros Hfail. apply polling_transport_errors_fail. exact Hfail. Qed.

Lemma polling_fails_after_ten_transport_errors_witness :
  GetSolanaTransaction Reference.ethlib network_unreachable Reference.config "5VERv8"
    Reference.world0
  = (Err "failed to get Solana transaction after 10 retries: connection refused",
     add_events (repeat (EvRPC (SolanaRPC Reference.config) "getTransaction"
                           (getTransaction_params "5VERv8")) 10) Reference.world0).
Proof.
  apply (polling_fails_after_ten_transport_errors Reference.ethlib network_unreachable
           Reference.config "5VERv8" "connection refused" Reference.world0).
  intros h endpoint method params. reflexivity.
Defined.

(** ** The delivery loop over several events *)

Lemma broadcastOne_run (E : EthLib) (N : Network E)
    (range_order : gmap Conn bool -> list Conn) (closed : Conn -> bool)
    (msg : WSMessage) (w : World) :
  write_fails_exactly_on N closed ->
  enumerates (range_order (clients w)) (clients w) ->
  broadcastOne E N range_order msg w
  = (Ok tt,
     {| swap := swap w;
        clients := prune closed (range_order (clients w)) (clients w);
        trace := trace w ++ broadcast_events closed msg (range_order (clients w)) |}).
Proof.
  intros Hfail [Hnodup Hin]. unfold broadcastOne, bind, get_clients.
  apply (rangeClients_run E N closed msg Hfail _ w Hnodup).
  intros c Hc. apply Hin. exact Hc.
Qed.

Lemma prune_enumerated_lookup (closed : Conn -> bool) (order : list Conn)
    (m : gmap Conn bool) (c : Conn) :
  enumerates order m ->
  prune closed order m !! c = if closed c then None else m !! c.
Proof.
  intros [_ Hin]. rewrite prune_lookup. destruct (closed c); [|reflexivity]. cbn [andb].
  case_bool_decide as Hc; [reflexivity|].
  destruct (m !! c) as [b|] eqn:Hb; [|reflexivity].
  exfalso. apply Hc, Hin. eauto.
Qed.

Lemma writes_to_app (c : Conn) (a b : list Event) :
  writes_to c (a ++ b) = (writes_to c a + writes_to c b)%nat.
Proof. unfold writes_to. rewrite List.filter_app, length_app. reflexivity. Qed.

(** One broadcast writes once to each connection of the walk. *)
Lemma writes_to_broadcast (closed : Conn -> bool) (msg : WSMessage) (order : list Conn)
    (c : Conn) :
  NoDup order ->
  writes_to c (broadcast_events closed msg order) = if bool_decide (c ∈ order) then 1%nat else 0%nat.
Proof.
  induction order as [|client rest IH]; intros Hnodup.
  - reflexivity.
  - apply NoDup_cons in Hnodup as [Hfresh Hnodup].
    cbn [broadcast_events flat_map]. fold (broadcast_events closed msg rest).
    rewrite writes_to_app, (IH Hnodup).
    assert (Hhead : writes_to c (if closed client
                                 then [EvWriteJSON client msg; EvClose client]
                                 else [EvWriteJSON client msg])
                    = if Nat.eqb c client then 1%nat else 0%nat).
    { unfold writes_to. destruct (closed client); cbn; destruct (Nat.eqb c client); reflexivity. }
    rewrite Hhead.
    destruct (Nat.eqb_spec c client) as [->|Hne].
    + rewrite (bool_decide_eq_true_2 (client ∈ client :: rest)) by left.
      rewrite (bool_decide_eq_false_2 (client ∈ rest)) by exact Hfresh. reflexivity.
    + assert (bool_decide (c ∈ client :: rest) = bool_decide (c ∈ rest)) as ->.
      { apply bool_decide_ext. rewrite elem_of_cons. tauto. }
      reflexivity.
Qed.

(** The delivery loop over a sequence of events. *)
Lemma handleBroadcasts_run
    (E : EthLib) (N : Network E) (range_order : gmap Conn bool -> list Conn)
    (closed : Conn -> bool) (msgs : list WSMessage) (w : World) :
  write_fails_exactly_on N closed ->
  (forall m, enumerates (range_order m) m) ->
  exists evs clients',
    handleBroadcasts E N range_order msgs w
    = (Ok tt, {| swap := swap w; clients := clients'; trace := trace w ++ evs |}) /\
    (forall c, is_Some (clients w !! c) ->
               writes_to c evs = if closed c then Nat.min 1 (length msgs) else length msgs) /\
    (forall c, clients w !! c = None -> writes_to c evs = 0%nat) /\
    (msgs <> [] ->
     forall c, clients' !! c = if closed c then None else clients w !! c).
Proof.
  intros Hfail Henum. revert w.
  induction msgs as [|msg rest IH]; intros w.
  - exists [], (clients w). cbn. rewrite app_nil_r.
    split; [destruct w; reflexivity|]. split; [|split]; try reflexivity.
    + intros c _. destruct (closed c); reflexivity.
    + intros Hne. contradiction.
  - cbn [handleBroadcasts]. unfold bind at 1.
    rewrite (broadcastOne_run E N range_order closed msg w Hfail (Henum (clients w))).
    set (order := range_order (clients w)).
    set (m1 := prune closed order (clients w)).
    set (w1 := {| swap := swap w; clients := m1;
                  trace := trace w ++ broadcast_events closed msg order |}).
    destruct (IH w1) as (evs & clients' & Hrun & Hin & Hout & Hfinal).
    pose proof (Henum (clients w)) as Henum0. fold order in Henum0.
    pose proof Henum0 as [Hnodup Hmem].
    assert (Hm1 : forall c, m1 !! c = if closed c then None else clients w !! c).
    { intros c. apply prune_enumerated_lookup. exact Henum0. }
    exists (broadcast_events closed msg order ++ evs), clients'.
    split; [rewrite Hrun; cbn [swap clients trace w1]; rewrite app_assoc; reflexivity|].
    split; [|split].
    + intros c Hc. rewrite writes_to_app, (writes_to_broadcast closed msg order c Hnodup).
      rewrite (bool_decide_eq_true_2 (c ∈ order)) by (apply Hmem; exact Hc).
      destruct (closed c) eqn:Hcl.
      * rewrite (Hout c); [cbn; lia|]. cbn [clients w1]. rewrite Hm1, Hcl. reflexivity.
      * rewrite (Hin c); [rewrite Hcl; cbn; lia|].
        cbn [clients w1]. rewrite Hm1, Hcl. exact Hc.
    + intros c Hc. rewrite writes_to_app, (writes_to_broadcast closed msg order c Hnodup).
      rewrite (bool_decide_eq_false_2 (c ∈ order)).
      * rewrite (Hout c); [reflexivity|]. cbn [clients w1]. rewrite Hm1, Hc.
        destruct (closed c); reflexivity.
      * intros Hc'. apply Hmem in Hc' as [b Hb]. congruence.
    + intros _ c. destruct rest as [|msg' rest'].
      * cbn in Hrun. injection Hrun as Hcl _. rewrite <- Hcl. cbn [clients w1]. apply Hm1.
      * rewrite (Hfinal ltac:(discriminate) c). cbn [clients w1]. rewrite Hm1.
        destruct (closed c); reflexivity.
Qed.

(** X4: over any sequence of events, a subscriber whose writes fail is
    written to once, at the first event, and never again: it has left the
    registry; every other subscriber receives every event; connections outside
    the registry receive nothing. *)
Theorem delivery_loop_writes_to_failed_subscriber_once
    (E : EthLib) (N : Network E) (range_order : gmap Conn bool -> list Conn)
    (closed : Conn -> bool) (msgs : list WSMessage) (w : World) :
  write_fails_exactly_on N closed ->
  (forall m, enumerates (range_order m) m) ->
  exists evs clients',
    handleBroadcasts E N range_order msgs w
    = (Ok tt, {| swap := swap w; clients := clients'; trace := trace w ++ evs |}) /\
    (forall c, is_Some (clients w !! c) ->
               writes_to c evs = if closed c then Nat.min 1 (length msgs) else length msgs) /\
    (forall c, clients w !! c = None -> writes_to c evs = 0%nat) /\
    (msgs <> [] ->
     forall c, clients' !! c = if closed c then None else clients w !! c).
Proof. exact (handleBroadcasts_run E N range_order closed msgs w). Qed.

(** Three events to three subscribers of the reference network, where
    connection 2 is closed: 2 is written to once, 1 and 3 three times. *)
Lemma delivery_loop_writes_to_failed_subscriber_once_witness :
  let registry : gmap Conn bool := {[ 1%nat := true; 2%nat := true; 3%nat := true ]} in
  let w := {| swap := Reference.empty_swap; clients := registry; trace := [] |} in
  let msgs := [connected_message; pong_message; unknown_type_message] in
  exists evs clients',
    handleBroadcasts Reference.ethlib Reference.network Reference.range_order msgs w
    = (Ok tt, {| swap := swap w; clients := clients'; trace := evs |}) /\
    writes_to 1%nat evs = 3%nat /\ writes_to 2%nat evs = 1%nat /\
    writes_to 3%nat evs = 3%nat /\ writes_to 4%nat evs = 0%nat /\
    clients' !! 2%nat = None /\ clients' !! 1%nat = Some true.
Proof.
  intros registry w msgs.
  destruct (delivery_loop_writes_to_failed_subscriber_once Reference.ethlib
              Reference.network Reference.range_order (fun c => Nat.eqb c 2) msgs w)
    as (evs & clients' & Hrun & Hin & Hout & Hfinal).
  - intros h c m. cbn. destruct (Nat.eqb c 2); split; congruence.
  - intros m. split; [apply NoDup_fst_map_to_list|].
    intros c. unfold Reference.range_order. rewrite list_elem_of_fmap. split.
    + intros ([c' b] & -> & Hcb). exists b. apply elem_of_map_to_list. exact Hcb.
    + intros [b Hb]. exists (c, b). split; [reflexivity|].
      apply elem_of_map_to_list. exact Hb.
  - exists evs, clients'. split; [exact Hrun|].
    split; [apply (Hin 1%nat); exists true; reflexivity|].
    split; [apply (Hin 2%nat); exists true; reflexivity|].
    split; [apply (Hin 3%nat); exists true; reflexivity|].
    split; [apply (Hout 4%nat); reflexivity|].
    split; [exact (Hfinal ltac:(discriminate) 2%nat)|].
    exact (Hfinal ltac:(discriminate) 1%nat).
Defined.

(** ** A WebSocket session from upgrade to disconnect *)

(** X5: a session whose upgrade fails changes nothing; any other session
    ends with its connection closed and out of the registry, however many
    messages were read and whether or not the writes succeeded, after the
    greeting and one reply per message; the other connections stay
    registered as they were. *)
Theorem websocket_session_cleans_up
    (E : EthLib) (N : Network E) (inbound : list WSMessage) (w : World) :
  HandleWebSocket E N None inbound w = (Ok tt, w) /\
  forall conn,
  exists replies,
    HandleWebSocket E N (Some conn) inbound w
    = (Ok tt,
       {| swap := swap w;
          clients := delete conn (clients w);
          trace := trace w ++ EvWriteJSON conn connected_message
                              :: map (EvWriteJSON conn) replies ++ [EvClose conn] |}) /\
    length replies = length inbound /\
    delete conn (clients w) !! conn = None /\
    forall c, c <> conn -> delete conn (clients w) !! c = clients w !! c.
Proof.
  split; [reflexivity|]. intros conn.
  exists (map (fun msg => if String.eqb (MsgType msg) "ping"
                          then pong_message else unknown_type_message) inbound).
  split; [|split; [|split]].
  - rewrite HandleWebSocket_run, map_map. reflexivity.
  - apply length_map.
  - apply lookup_delete_eq.
  - intros c Hc. apply lookup_delete_ne. congruence.
Qed.

(** ** Preparation and submission *)

Lemma getPoolAddress_frame (E : EthLib) (N : Network E) (cfg : Config) (token : string)
    (w : World) :
  snd (getPoolAddress E N cfg token w)
  = add_events [EvHTTP (solverURL cfg) pools_query] w.
Proof. rewrite getPoolAddress_run. reflexivity. Qed.

(** What [prepareEthereumTransaction] leaves. *)
Lemma prepareEthereumTransaction_outcome
    (sc : Strconv) (E : EthLib) (N : Network E) (cfg : Config)
    (BigInt_String : Z -> string) (w : World) :
  match prepareEthereumTransaction sc E N cfg BigInt_String w with
  | (Ok _, w') =>
      exists p, swap w' = set_TxToSign (Some p) (swap w) /\
                Chain p = "ethereum" /\ RawTx p = EmptyString /\
                ToAddress (Chain_Params p) = DestinationAddress (swap w) /\
                Amount (Chain_Params p) = FormatF sc (ToAmount (Swap_Result (swap w))) /\
                GasLimit (Chain_Params p) = 21000
  | (_, w') => swap w' = swap w
  end /\
  clients (snd (prepareEthereumTransaction sc E N cfg BigInt_String w)) = clients w.
Proof.
  unfold prepareEthereumTransaction, dialEthereum, check, bind, get_swap, put_swap, ctx,
    lift, emit, history, ret, fail.
  rewrite getPoolAddress_run.
  destruct (obind _ _) as [address|e|e]; cbn; try (split; reflexivity).
  destruct (eth_dial N _ _) as [e|]; cbn; try (split; reflexivity).
  destruct (eth_suggest_gas_price N _) as [gasPrice|e|e]; cbn; try (split; reflexivity).
  destruct (eth_pending_nonce N _ _) as [nonce|e|e]; cbn; try (split; reflexivity).
  split; [|reflexivity]. eexists. repeat split.
Qed.

Lemma prepareSolanaTransaction_outcome
    (sc : Strconv) (E : EthLib) (N : Network E) (cfg : Config) (w : World) :
  match prepareSolanaTransaction sc E N cfg w with
  | (Ok _, w') =>
      exists p, swap w' = set_TxToSign (Some p) (swap w) /\
                Chain p = "solana" /\ RawTx p = EmptyString /\
                ToAddress (Chain_Params p) = DestinationAddress (swap w) /\
                Amount (Chain_Params p) = FormatF sc (ToAmount (Swap_Result (swap w)))
  | (_, w') => swap w' = swap w
  end /\
  clients (snd (prepareSolanaTransaction sc E N cfg w)) = clients w.
Proof.
  unfold prepareSolanaTransaction, bind, get_swap, put_swap, ctx, lift, emit, history, ret.
  rewrite getPoolAddress_run.
  destruct (obind _ _) as [address|e|e]; cbn; try (split; reflexivity).
  destruct (sol_latest_blockhash N _ _) as [blockhash|e|e]; cbn; try (split; reflexivity).
  split; [|reflexivity]. eexists. repeat split.
Qed.

(** What [PrepareTransaction] leaves, chain by chain. *)
Lemma PrepareTransaction_outcome
    (sc : Strconv) (E : EthLib) (N : Network E) (cfg : Config)
    (BigInt_String : Z -> string) (chain : string) (w : World) :
  match PrepareTransaction sc E N cfg BigInt_String chain w with
  | (Ok _, w') =>
      exists p, swap w' = set_TxToSign (Some p) (swap w) /\
                Chain p = chain /\ RawTx p = EmptyString /\
                ToAddress (Chain_Params p) = DestinationAddress (swap w) /\
                Amount (Chain_Params p) = FormatF sc (ToAmount (Swap_Result (swap w))) /\
                (chain = "ethereum" -> GasLimit (Chain_Params p) = 21000)
  | (_, w') => swap w' = swap w
  end /\
  (chain <> "ethereum" -> chain <> "solana" ->
   PrepareTransaction sc E N cfg BigInt_String chain w
   = (Err ("unsupported chain: " +:+ chain), w)).
Proof.
  unfold PrepareTransaction.
  destruct (String.eqb_spec chain "ethereum") as [->|Hne1].
  - split; [|intros Hne; contradiction].
    pose proof (prepareEthereumTransaction_outcome sc E N cfg BigInt_String w) as [Hout _].
    destruct (prepareEthereumTransaction sc E N cfg BigInt_String w) as [[[]|e|e] w'];
      try exact Hout.
    destruct Hout as (p & Hswap & Hchain & Hraw & Hto & Hamount & Hgas).
    exists p. repeat split; auto.
  - destruct (String.eqb_spec chain "solana") as [->|Hne2].
    + split; [|intros _ Hne; contradiction].
      pose proof (prepareSolanaTransaction_outcome sc E N cfg w) as [Hout _].
      destruct (prepareSolanaTransaction sc E N cfg w) as [[[]|e|e] w']; try exact Hout.
      destruct Hout as (p & Hswap & Hchain & Hraw & Hto & Hamount).
      exists p. repeat split; auto. intros Habs. discriminate.
    + split; [reflexivity|]. intros _ _. reflexivity.
Qed.

(** X6: preparation either fails and leaves the swap as it was, or replaces
    the transaction to sign by a fresh unsigned one for the requested chain
    (raw transaction empty, destination and amount taken from the swap, gas
    limit 21000 on Ethereum) and changes nothing else of the swap; a chain
    other than ethereum and solana is refused before anything is asked of the
    backend or of a node. *)
Theorem PrepareTransaction_gives_fresh_unsigned_transaction
    (sc : Strconv) (E : EthLib) (N : Network E) (cfg : Config)
    (BigInt_String : Z -> string) (chain : string) (w : World) :
  match PrepareTransaction sc E N cfg BigInt_String chain w with
  | (Ok _, w') =>
      exists p, swap w' = set_TxToSign (Some p) (swap w) /\
                Chain p = chain /\ RawTx p = EmptyString /\
                ToAddress (Chain_Params p) = DestinationAddress (swap w) /\
                Amount (Chain_Params p) = FormatF sc (ToAmount (Swap_Result (swap w))) /\
                (chain = "ethereum" -> GasLimit (Chain_Params p) = 21000)
  | (_, w') => swap w' = swap w
  end /\
  (chain <> "ethereum" -> chain <> "solana" ->
   PrepareTransaction sc E N cfg BigInt_String chain w
   = (Err ("unsupported chain: " +:+ chain), w)).
Proof. exact (PrepareTransaction_outcome sc E N cfg BigInt_String chain w). Qed.

(** X7: submission straight after preparation is always refused: the
    precondition error is returned and nothing is added to what preparation
    did, so no unsigned transaction ever reaches a node. *)
Theorem submit_after_prepare_is_refused
    (sc : Strconv) (E : EthLib) (N : Network E) (cfg : Config)
    (BigInt_String : Z -> string) (FormatV : Json -> string) (chain : string) (w : World) :
  (PrepareTransaction sc E N cfg BigInt_String chain ;; SubmitTransaction E N cfg FormatV) w
  = match PrepareTransaction sc E N cfg BigInt_String chain w with
    | (Ok _, w') => (Err "no signed transaction available", w')
    | (Err e, w') => (Err e, w')
    | (Panic e, w') => (Panic e, w')
    end.
Proof.
  pose proof (PrepareTransaction_outcome sc E N cfg BigInt_String chain w) as [Hout _].
  unfold bind at 1.
  destruct (PrepareTransaction sc E N cfg BigInt_String chain w) as [[[]|e|e] w'];
    try reflexivity.
  destruct Hout as (p & Hswap & _ & Hraw & _).
  unfold SubmitTransaction, bind, get_swap. rewrite Hswap. cbn [set_TxToSign TxToSign].
  rewrite Hraw. reflexivity.
Qed.

(** What [SubmitTransaction] leaves, chain by chain. *)
Lemma SubmitTransaction_outcome
    (E : EthLib) (N : Network E) (cfg : Config) (FormatV : Json -> string) (w : World) :
  match SubmitTransaction E N cfg FormatV w with
  | (Ok _, w') =>
      exists hash p, TxToSign (swap w) = Some p /\ RawTx p <> EmptyString /\
                     swap w' = set_submitted hash (swap w) /\
                     Status (swap w') = "submitted" /\ clients w' = clients w
  | (_, w') => swap w' = swap w /\ clients w' = clients w
  end.
Proof.
  unfold SubmitTransaction, bind, get_swap, fail.
  destruct (TxToSign (swap w)) as [p|] eqn:Hp; [|split; reflexivity].
  destruct (String.eqb_spec (RawTx p) EmptyString) as [Hraw|Hraw]; [split; reflexivity|].
  destruct (String.eqb (Chain p) "ethereum").
  - unfold submitEthereumTransaction, dialEthereum, check, bind, get_swap, put_swap, ctx,
      lift, emit, history, ret, fail.
    destruct (eth_dial N _ _) as [e|]; cbn; [split; reflexivity|].
    rewrite Hp.
    destruct (hexutil_Decode E _) as [bs|e|e]; cbn; try (split; reflexivity).
    destruct (UnmarshalBinary E bs) as [tx|e|e]; cbn; try (split; reflexivity).
    destruct (eth_send N _ tx) as [e|]; cbn; [split; reflexivity|].
    exists (TxHashHex E tx), p. repeat split; auto.
  - destruct (String.eqb (Chain p) "solana"); [|split; reflexivity].
    unfold submitSolanaTransaction, bind, get_swap. rewrite Hp, makeRPCRequest_run.
    unfold check, bind, put_swap, ret, fail.
    destruct (rpc_post N _ _ _ _) as [e|e|e|result]; cbn; try (split; reflexivity).
    destruct (result !! "error") as [errMsg|]; cbn; [split; reflexivity|].
    destruct (result !! "result") as [[| | |signature| |]|]; cbn; try (split; reflexivity).
    exists signature, p. repeat split; auto.
Qed.


(** ** The NFT transfer: notifications and partial failure *)

(** A run that stopped with an error: its events are read off the trace. *)
Ltac stopped :=
  eexists;
  split; [unfold add_events; cbn; rewrite <- ?app_assoc; reflexivity
         |split; [reflexivity|discriminate]].

(** The events of the sale contain no notification; on success they are
    the dial, the sale transaction and the wait for it. *)
Lemma ExecuteNFTContractTransaction_events
    (E : EthLib) (N : Network E) (cfg : Config) (Itoa : Z -> string)
    (tokenId : Z) (cal listed : float64) (w : World) :
  exists evs,
    snd (ExecuteNFTContractTransaction E N cfg Itoa tokenId cal listed w) = add_events evs w /\
    (forall type, count_status type evs = 0%nat) /\
    (is_ok (fst (ExecuteNFTContractTransaction E N cfg Itoa tokenId cal listed w)) = true ->
     exists tokenIdInt value tx,
       evs = [EvEthDial (EthereumRPC cfg);
              EvTransact (HexToAddress E (NFTAddress cfg)) "executeSale" tokenIdInt value;
              EvWaitMined tx]).
Proof.
  unfold ExecuteNFTContractTransaction, dialEthereum, check, ctx, bind, history, emit, lift,
    ret, fail, panic.
  cbn [trace].
  destruct (eth_dial N _ _) as [e|]; cbn; [stopped|].
  destruct (saleValueWei cal listed) as [value|e|e]; cbn; try stopped.
  destruct (chainKeys cfg) as [ks|]; cbn; try stopped.
  destruct (NewKeyedTransactorWithChainID E _ _) as [auth|e|e]; cbn; try stopped.
  destruct (BigInt_SetString E _) as [tokenIdInt|]; cbn; try stopped.
  destruct (contract_transact N _ _ _ _ _ _) as [tx|e|e]; cbn; try stopped.
  exists [EvEthDial (EthereumRPC cfg);
          EvTransact (HexToAddress E (NFTAddress cfg)) "executeSale" tokenIdInt value;
          EvWaitMined tx].
  split; [|split; [reflexivity|intros _; eauto]].
  destruct (wait_mined N _ tx); unfold add_events; cbn; rewrite <- !app_assoc; reflexivity.
Qed.

Lemma count_status_app (type : string) (evs evs' : list Event) :
  count_status type (evs ++ evs') = (count_status type evs + count_status type evs')%nat.
Proof. unfold count_status. rewrite List.filter_app, length_app. reflexivity. Qed.

(** The sale step of the transfer, towards ETH or not. *)
Lemma transfer_sale_step
    (sc : Strconv) (E : EthLib) (N : Network E) (cfg : Config) (Itoa : Z -> string)
    (params : TransferParams.t) (nft : NftUsingBlobHash) (w : World) :
  let step :=
    (if String.eqb (TransferParams.ToToken params) "ETH" then
       ctx "failed to execute NFT contract transaction after transfer"
           (ExecuteNFTContractTransaction E N cfg Itoa (nft_ID nft)
              (parseFloat64 sc (TransferParams.Amount params))
              (parseFloat64 sc (nft_Price nft)))
     else ret EmptyString) in
  exists evs,
    snd (step w) = add_events evs w /\ (forall type, count_status type evs = 0%nat).
Proof.
  cbv zeta. destruct (String.eqb _ "ETH").
  - destruct (ExecuteNFTContractTransaction_events E N cfg Itoa (nft_ID nft)
                (parseFloat64 sc (TransferParams.Amount params))
                (parseFloat64 sc (nft_Price nft)) w) as (evs & Hrun & Hnone & _).
    exists evs. split; [|exact Hnone]. unfold ctx.
    destruct (ExecuteNFTContractTransaction _ _ _ _ _ _ _ w) as [[tx|e|e] w']; exact Hrun.
  - exists []. split; [|reflexivity]. unfold ret, add_events. cbn.
    rewrite app_nil_r. destruct w; reflexivity.
Qed.

(** The events of [ExecuteTransferMutation], whatever the network answers. *)
Lemma ExecuteTransferMutation_events
    (sc : Strconv) (E : EthLib) (N : Network E) (cfg : Config) (Itoa : Z -> string)
    (params : TransferParams.t) (w : World) :
  let run := ExecuteTransferMutation sc E N cfg Itoa params w in
  exists evs,
    snd run
    = add_events (EvChanSend (status_message "nft_transfer_initiated" "initiated"
                                "fetching nft detail from nft solver") :: evs) w /\
    count_status "nft_transfer_initiated" evs = 0%nat /\
    count_status "nft_transfer_completed" evs = (if is_ok (fst run) then 1 else 0)%nat /\
    (count_status "nft_transfer_pending" evs <= 1)%nat /\
    (is_ok (fst run) = true ->
     count_status "nft_transfer_pending" evs = 1%nat /\
     exists rest, evs = rest ++ [EvChanSend (status_message "nft_transfer_completed"
                    "completed"
                    "Successfully coordination complete between solvers and executed transfer")]) /\
    (is_ok (fst run) = false -> count_status "nft_transfer_pending" evs = 1%nat ->
     exists rest, evs = rest ++ [EvHTTP (nonFungibleURL cfg) (transfer_mutation params)]).
Proof.
  cbv zeta. unfold ExecuteTransferMutation, GetNFTDetails.
  unfold bind, emit, ctx, history, ret, fail, lift. cbn [trace swap clients].
  destruct (graphql_nft N _ _ _) as [e|e|e|nft]; cbn [rewrap fst snd];
    try (exists [EvHTTP (nonFungibleURL cfg) (nft_query (TransferParams.NftId params))];
         unfold add_events; cbn; rewrite <- !app_assoc;
         repeat split; try reflexivity; try lia; discriminate).
  match goal with
  | |- context [(if _ then _ else _) ?w1] =>
      set (w1' := w1);
      pose proof (transfer_sale_step sc E N cfg Itoa params nft w1') as (evs1 & Hrun & Hnone)
  end.
  cbv zeta in Hrun. unfold ctx, ret in Hrun.
  match type of Hrun with
  | snd ?t = _ => destruct t as [[hash|e|e] w2]
  end; cbn [fst snd rewrap] in Hrun |- *; subst w2.
  2,3: exists (EvHTTP (nonFungibleURL cfg) (nft_query (TransferParams.NftId params)) :: evs1);
       unfold add_events, w1'; cbn [swap clients trace]; rewrite <- !app_assoc;
       change (count_status ?t (?a :: evs1)) with (count_status t ([a] ++ evs1));
       rewrite !count_status_app, !Hnone;
       repeat split; try reflexivity; try (cbn; lia); discriminate.
  set (query := EvHTTP (nonFungibleURL cfg) (nft_query (TransferParams.NftId params))).
  set (pending := EvChanSend (status_message "nft_transfer_pending" "pending"
                    "Dex solver and Nft solver will be coordinated for transfer")).
  set (request := EvHTTP (nonFungibleURL cfg) (transfer_mutation params)).
  set (completed := EvChanSend (status_message "nft_transfer_completed" "completed"
         "Successfully coordination complete between solvers and executed transfer")).
  assert (Hcount : forall type tail,
             count_status type (query :: evs1 ++ tail) = count_status type tail).
  { intros type tail. change (query :: evs1 ++ tail) with ([query] ++ evs1 ++ tail).
    rewrite !count_status_app, Hnone. reflexivity. }
  destruct (graphql_transfer N _ _ _) as [e|e|e|transferResp]; cbn [fst snd is_ok].
  1-3: exists (query :: evs1 ++ [pending; request]); rewrite !Hcount;
       unfold add_events, w1'; cbn [swap clients trace]; rewrite <- !app_assoc;
       repeat split; try reflexivity; try (cbn; lia); try discriminate;
       intros _ _; exists (query :: evs1 ++ [pending]);
       cbn; rewrite <- app_assoc; reflexivity.
  destruct (gql_errors transferResp) as [|e errs]; cbn [fst snd is_ok].
  - exists (query :: evs1 ++ [pending; request; completed]). rewrite !Hcount.
    unfold add_events, w1'; cbn [swap clients trace]; rewrite <- !app_assoc.
    repeat split; try reflexivity; try (cbn; lia); try discriminate.
    exists (query :: evs1 ++ [pending; request]).
    cbn; rewrite <- app_assoc; reflexivity.
  - exists (query :: evs1 ++ [pending; request]); rewrite !Hcount;
      unfold add_events, w1'; cbn [swap clients trace]; rewrite <- !app_assoc;
      repeat split; try reflexivity; try (cbn; lia); try discriminate.
    intros _ _; exists (query :: evs1 ++ [pending]).
    cbn; rewrite <- app_assoc; reflexivity.
Qed.

(** X9: the transfer workflow announces its progress truthfully.  The
    initiated notice is always sent, first and once; the completed notice is
    sent exactly when the call succeeds, and is then the last event; the
    pending notice is sent at most once, and always on success.  When the call
    fails after the pending notice, the transfer request is the last thing it
    did: nothing is sent to undo a sale that was executed.  Swap and registry
    are untouched. *)
Theorem transfer_notifications_follow_progress
    (sc : Strconv) (E : EthLib) (N : Network E) (cfg : Config) (Itoa : Z -> string)
    (params : TransferParams.t) (w : World) :
  let run := ExecuteTransferMutation sc E N cfg Itoa params w in
  exists evs,
    snd run
    = add_events (EvChanSend (status_message "nft_transfer_initiated" "initiated"
                                "fetching nft detail from nft solver") :: evs) w /\
    count_status "nft_transfer_initiated" evs = 0%nat /\
    count_status "nft_transfer_completed" evs = (if is_ok (fst run) then 1 else 0)%nat /\
    (count_status "nft_transfer_pending" evs <= 1)%nat /\
    (is_ok (fst run) = true ->
     count_status "nft_transfer_pending" evs = 1%nat /\
     exists rest, evs = rest ++ [EvChanSend (status_message "nft_transfer_completed"
                    "completed"
                    "Successfully coordination complete between solvers and executed transfer")]) /\
    (is_ok (fst run) = false -> count_status "nft_transfer_pending" evs = 1%nat ->
     exists rest, evs = rest ++ [EvHTTP (nonFungibleURL cfg) (transfer_mutation params)]).
Proof. exact (ExecuteTransferMutation_events sc E N cfg Itoa params w). Qed.

(** X10: when the NFT service refuses the transfer after the sale was paid
    and mined, the workflow fails with the service's first error; it did
    everything a successful transfer does except the completed notice, and
    nothing after the refusal: the sale stays executed. *)
Theorem sale_is_not_undone_when_transfer_is_refused
    (sc : Strconv) (E : EthLib) (N : Network E) (cfg : Config) (Itoa : Z -> string)
    (params : TransferParams.t) (w : World)
    (nft : NftUsingBlobHash) (ks : ChainKeys) (sender tokenIdInt : Z)
    (saleHash resp e : string) (errs : list string) :
  TransferParams.ToToken params = "ETH" ->
  (forall h url body, graphql_nft N h url body = Decoded nft) ->
  (forall h url, eth_dial N h url = None) ->
  chainKeys cfg = Some ks ->
  NewKeyedTransactorWithChainID E (EthereumKey ks) 1337 = Ok sender ->
  BigInt_SetString E (Itoa (nft_ID nft)) = Some tokenIdInt ->
  (forall h contract auth value method arg,
     contract_transact N h contract auth value method arg = Ok saleHash) ->
  (forall h hash, wait_mined N h hash = None) ->
  (forall h url body,
     graphql_transfer N h url body = Decoded {| gql_data := resp; gql_errors := e :: errs |}) ->
  exists value,
    saleValueWei (parseFloat64 sc (TransferParams.Amount params))
                 (parseFloat64 sc (nft_Price nft)) = Ok value /\
    ExecuteTransferMutation sc E N cfg Itoa params w
    = (Err ("transfer error: " +:+ e),
       add_events (removelast (transfer_events E cfg params tokenIdInt value saleHash)) w).
Proof.
  intros Heth Hnft Hdial Hks Hauth Htoken Hsale Hmined Htransfer.
  destruct (saleValueWei_ok (parseFloat64 sc (TransferParams.Amount params))
              (parseFloat64 sc (nft_Price nft))) as [value Hvalue].
  exists value. split; [exact Hvalue|].
  unfold ExecuteTransferMutation, GetNFTDetails, ExecuteNFTContractTransaction,
    dialEthereum, check, ctx, bind, history, emit, lift, ret, fail.
  rewrite Heth. cbn [String.eqb Ascii.eqb Bool.eqb].
  rewrite Hnft. cbn [rewrap trace fst snd].
  rewrite Hdial. cbn [rewrap trace fst snd].
  rewrite Hvalue, Hks, Hauth. cbn [rewrap].
  rewrite Htoken. cbn [trace]. rewrite Hsale. cbn [rewrap trace].
  rewrite Hmined. cbn [rewrap trace]. rewrite Htransfer. cbn [gql_errors].
  unfold add_events, transfer_events. cbn [swap clients trace removelast].
  rewrite <- !app_assoc. reflexivity.
Qed.

(** On the reference network that refuses the transfer: 3 units offered
    for an NFT listed at 2, so 2 ETH are paid, and the transfer fails. *)
Lemma sale_is_not_undone_when_transfer_is_refused_witness :
  ExecuteTransferMutation Reference.strconv Reference.ethlib network_transfer_refused
    Reference.config pretty transfer_of_3 Reference.world0
  = (Err "transfer error: not the owner",
     add_events (removelast (transfer_events Reference.ethlib Reference.config
                               transfer_of_3 7 2000000000000000000 "0xsale"))
       Reference.world0).
Proof.
  destruct (sale_is_not_undone_when_transfer_is_refused Reference.strconv Reference.ethlib
              network_transfer_refused Reference.config pretty transfer_of_3 Reference.world0
              {| nft_TokenId := "token"; nft_Price := "2"; nft_ID := 7 |}
              Reference.keys 42 7 "0xsale" EmptyString "not the owner" [])
    as (value & Hvalue & Hrun); [reflexivity..|].
  assert (value = 2000000000000000000) as ->.
  { vm_compute in Hvalue. congruence. }
  exact Hrun.
Defined.

(** ** Signing amounts that are no finite number *)

(** X11: an Ethereum amount that reads as an infinity (a text out of the
    float64 range included: the range error is dropped) is signed as a
    transfer of 0 wei. *)
Theorem signing_infinite_amount_signs_zero_wei
    (sc : Strconv) (E : EthLib) (SL : SolLib) (cfg : Config) (w : World) (ks : ChainKeys)
    (key : EthKey) (p : TransactionPrep) (s : bool) :
  chainKeys cfg = Some ks -> EthereumKey ks = Some key ->
  TxToSign (swap w) = Some p -> Chain p = "ethereum" ->
  fst (ParseFloat sc (Amount (Chain_Params p))) = S754_infinity s ->
  exists tx,
    trace (snd (SignTransaction sc E SL cfg w)) = trace w ++ [EvEthSign tx] /\
    tx_value tx = 0.
Proof.
  intros Hks Hkey Hp Hchain Hinf.
  destruct (signEthereumTransaction_signs_value sc E cfg w ks key p 0 Hks Hkey Hp)
    as (tx & Htrace & Hvalue).
  { rewrite Hinf. apply toWei_infinity. }
  exists tx. split; [|exact Hvalue].
  unfold SignTransaction, bind, get_swap. rewrite Hp, Hchain. exact Htrace.
Qed.

Lemma signing_infinite_amount_signs_zero_wei_witness :
  ParseFloat Reference.strconv "1e999" = (S754_infinity false, Some "value out of range") /\
  exists tx,
    trace (snd (SignTransaction Reference.strconv Reference.ethlib Reference.sollib
                  Reference.config (world_prepared "1e999"))) = [EvEthSign tx] /\
    tx_value tx = 0.
Proof.
  split; [vm_compute; reflexivity|].
  apply (signing_infinite_amount_signs_zero_wei Reference.strconv Reference.ethlib
           Reference.sollib Reference.config (world_prepared "1e999") Reference.keys 42
           (prepared_tx "1e999") false); reflexivity.
Defined.

(** X12: an Ethereum amount that reads as NaN makes signing panic: the
    conversion to [big.Float] raises [ErrNaN] with the text
    Float.SetFloat64(NaN), before anything is signed or stored. *)
Theorem signing_nan_amount_panics
    (sc : Strconv) (E : EthLib) (SL : SolLib) (cfg : Config) (w : World) (ks : ChainKeys)
    (key : EthKey) (p : TransactionPrep) :
  chainKeys cfg = Some ks -> EthereumKey ks = Some key ->
  TxToSign (swap w) = Some p -> Chain p = "ethereum" ->
  fst (ParseFloat sc (Amount (Chain_Params p))) = S754_nan ->
  SignTransaction sc E SL cfg w = (Panic "Float.SetFloat64(NaN)", w).
Proof.
  intros Hks Hkey Hp Hchain Hnan.
  unfold SignTransaction, bind, get_swap. rewrite Hp, Hchain. cbn [String.eqb Ascii.eqb Bool.eqb].
  unfold signEthereumTransaction, bind, get_swap, lift. rewrite Hks, Hkey, Hp.
  unfold ethTxOf, ethValueOfAmount. rewrite Hnan. reflexivity.
Qed.

Lemma signing_nan_amount_panics_witness :
  SignTransaction strconv_with_nan Reference.ethlib Reference.sollib Reference.config
    (world_prepared "NaN")
  = (Panic "Float.SetFloat64(NaN)", world_prepared "NaN").
Proof.
  apply (signing_nan_amount_panics strconv_with_nan Reference.ethlib Reference.sollib
           Reference.config (world_prepared "NaN") Reference.keys 42 (prepared_tx "NaN"));
    reflexivity.
Defined.

(** ** Chains and tokens *)

(** X13: the chain names of the front end and the token names of the solver
    agree: a chain has a token exactly when it is the chain on which that
    token is paid out and is not the chain unknown. *)
Theorem chain_and_token_names_agree (chain token : string) :
  getTokenForChain chain = Ok token <->
  determineChain token = chain /\ chain <> "unknown".
Proof.
  unfold getTokenForChain, chainToToken, determineChain. split.
  - destruct (_ !! chain) as [t|] eqn:Hlook; [|discriminate].
    intros [= ->].
    apply lookup_insert_Some in Hlook as [[<- <-]|[_ Hlook]]; [split; [reflexivity|discriminate]|].
    apply lookup_singleton_Some in Hlook as [<- <-]. split; [reflexivity|discriminate].
  - intros [Hchain Hknown].
    destruct (String.eqb_spec token "ETH") as [Heth|_]; [subst; reflexivity|].
    destruct (String.eqb_spec token "SOL") as [Hsol|_]; [subst; reflexivity|].
    congruence.
Qed.

(** ** The whole swap *)

(** What [SignTransaction] leaves: on success the raw transaction of the
    prepared transaction, and nothing else of the swap, has changed. *)
Lemma SignTransaction_outcome
    (sc : Strconv) (E : EthLib) (SL : SolLib) (cfg : Config) (w : World) :
  match SignTransaction sc E SL cfg w with
  | (Ok _, w') =>
      exists p raw, TxToSign (swap w) = Some p /\
                    swap w' = set_TxToSign (Some (set_RawTx raw p)) (swap w) /\
                    clients w' = clients w
  | (_, w') => swap w' = swap w /\ clients w' = clients w
  end.
Proof.
  run_sign.
  destruct (TxToSign (swap w)) as [p|] eqn:Hp; [|split; reflexivity].
  repeat (case_match; cbv beta iota zeta; rewrite ?Hp);
    unfold lift in *; simplify_eq; cbn; try (split; reflexivity); eauto.
Qed.

Lemma PrepareTransaction_clients
    (sc : Strconv) (E : EthLib) (N : Network E) (cfg : Config)
    (BigInt_String : Z -> string) (chain : string) (w : World) :
  clients (snd (PrepareTransaction sc E N cfg BigInt_String chain w)) = clients w.
Proof.
  unfold PrepareTransaction.
  destruct (String.eqb chain "ethereum");
    [apply prepareEthereumTransaction_outcome|].
  destruct (String.eqb chain "solana"); [apply prepareSolanaTransaction_outcome|].
  reflexivity.
Qed.

Lemma CalculateSwap_run (sc : Strconv) (cfg : Config)
    (graphql_quote : list Event -> string -> string -> HttpReply (GraphQL SwapResult))
    (fromToken toToken : string) (amount : float64) (w : World) :
  CalculateSwap sc cfg graphql_quote fromToken toToken amount w
  = (decodeQuote (graphql_quote (trace w) (solverURL cfg)
                    (calculateSwap_query sc fromToken toToken amount)),
     add_events [EvHTTP (solverURL cfg) (calculateSwap_query sc fromToken toToken amount)] w).
Proof. reflexivity. Qed.

(** What a successful [SignTransaction] stored, and from what. *)
Lemma SignTransaction_signs
    (sc : Strconv) (E : EthLib) (SL : SolLib) (cfg : Config) (w : World) :
  match SignTransaction sc E SL cfg w with
  | (Ok _, w') =>
      exists p raw,
        TxToSign (swap w) = Some p /\
        swap w' = set_TxToSign (Some (set_RawTx raw p)) (swap w) /\
        ((Chain p = "ethereum" /\
          exists ks key tx signedTx bs,
            chainKeys cfg = Some ks /\ EthereumKey ks = Some key /\
            ethTxOf sc E (Chain_Params p) = Ok tx /\
            SignTx E tx 1337 key = Ok signedTx /\ MarshalBinary E signedTx = Ok bs /\
            raw = hexutil_Encode E bs)
         \/
         (Chain p = "solana" /\
          exists ks solKey from_address to_address blockhash tx bs,
            chainKeys cfg = Some ks /\ SolanaKey ks = Some solKey /\
            PublicKeyFromBase58 SL (FromAddress (Chain_Params p)) = Ok from_address /\
            PublicKeyFromBase58 SL (ToAddress (Chain_Params p)) = Ok to_address /\
            fst (Sol_NewTransaction SL
                   [solanaInstruction SL (Chain_Params p) from_address to_address]
                   blockhash) = Some tx /\
            Sol_MarshalBinary SL (fst (Sol_Sign SL tx (solanaKeyGetter SL solKey))) = Ok bs /\
            raw = base58_Encode SL bs))
  | _ => True
  end.
Proof.
  unfold SignTransaction, bind, get_swap, fail.
  destruct (TxToSign (swap w)) as [p|] eqn:Hp; [|exact I].
  destruct (String.eqb_spec (Chain p) "ethereum") as [Heth|_].
  - unfold signEthereumTransaction, bind, get_swap, put_swap, ctx, lift, emit, ret, fail.
    destruct (chainKeys cfg) as [ks|] eqn:Hks; [|exact I].
    destruct (EthereumKey ks) as [key|] eqn:Hkey; [|exact I].
    rewrite Hp.
    destruct (ethTxOf sc E (Chain_Params p)) as [tx|e|e] eqn:Htx; try exact I.
    destruct (SignTx E tx 1337 key) as [signedTx|e|e] eqn:Hsign; try exact I.
    cbn [rewrap].
    destruct (MarshalBinary E signedTx) as [bs|e|e] eqn:Hbs; try exact I.
    cbn [rewrap swap].
    exists p, (hexutil_Encode E bs). split; [reflexivity|]. split; [reflexivity|].
    left. split; [exact Heth|]. exists ks, key, tx, signedTx, bs. auto 10.
  - destruct (String.eqb_spec (Chain p) "solana") as [Hsol|_]; [|exact I].
    unfold signSolanaTransaction, bind, get_swap, put_swap, ctx, lift, emit, ret, fail, panic.
    destruct (chainKeys cfg) as [ks|] eqn:Hks; [|exact I].
    destruct (SolanaKey ks) as [solKey|] eqn:Hkey; [|exact I].
    rewrite Hp.
    destruct (PublicKeyFromBase58 SL (FromAddress (Chain_Params p)))
      as [from_address|e|e] eqn:Hfrom; try exact I.
    cbn [rewrap].
    destruct (PublicKeyFromBase58 SL (ToAddress (Chain_Params p)))
      as [to_address|e|e] eqn:Hto; try exact I.
    cbn [rewrap].
    destruct (MustHashFromBase58 SL (RecentBlockhash (Chain_Params p)))
      as [blockhash|e|e] eqn:Hhash; try exact I.
    cbv beta iota zeta.
    destruct (Sol_NewTransaction SL
                [solanaInstruction SL (Chain_Params p) from_address to_address] blockhash)
      as [[tx|] err] eqn:Hnew; [|exact I].
    cbn [fst].
    destruct (Sol_MarshalBinary SL (fst (Sol_Sign SL tx (solanaKeyGetter SL solKey))))
      as [bs|e|e] eqn:Hbs; try exact I.
    cbn [rewrap swap].
    exists p, (base58_Encode SL bs). split; [reflexivity|]. split; [reflexivity|].
    right. split; [exact Hsol|].
    exists ks, solKey, from_address, to_address, blockhash, tx, bs.
    rewrite Hnew. auto 10.
Qed.

Lemma ethTxOf_inv (sc : Strconv) (E : EthLib) (cp : ChainParams) (tx : EthTx) :
  ethTxOf sc E cp = Ok tx ->
  tx_to tx = HexToAddress E (ToAddress cp) /\ tx_gas tx = GasLimit cp /\
  toWei (parseFloat64 sc (Amount cp)) = Ok (tx_value tx).
Proof.
  unfold ethTxOf, ethValueOfAmount, parseFloat64.
  destruct (toWei (fst (ParseFloat sc (Amount cp)))) as [value|e|e]; cbn; try discriminate.
  intros [= <-]. auto.
Qed.

(** The lamports of a prepared Solana transaction are the quoted output
    amount. *)
Lemma PrepareTransaction_lamports
    (sc : Strconv) (E : EthLib) (N : Network E) (cfg : Config)
    (BigInt_String : Z -> string) (chain : string) (w : World) :
  match PrepareTransaction sc E N cfg BigInt_String chain w with
  | (Ok _, w') =>
      forall p, TxToSign (swap w') = Some p -> Chain p = "solana" ->
                Lamports (Chain_Params p) = ToAmount (Swap_Result (swap w))
  | _ => True
  end.
Proof.
  unfold PrepareTransaction.
  destruct (String.eqb chain "ethereum").
  - pose proof (prepareEthereumTransaction_outcome sc E N cfg BigInt_String w) as [Hout _].
    destruct (prepareEthereumTransaction sc E N cfg BigInt_String w) as [[[]|e|e] w'];
      try exact I.
    destruct Hout as (p0 & Hswap & Hchain & _).
    intros p Hp Hsol. rewrite Hswap in Hp. cbn in Hp. congruence.
  - destruct (String.eqb chain "solana"); [|exact I].
    pose proof (prepareSolanaTransaction_lamports sc E N cfg w) as Hout.
    destruct (prepareSolanaTransaction sc E N cfg w) as [[[]|e|e] w']; try exact I.
    destruct Hout as (p0 & Hp0 & _ & _ & Hlam).
    intros p Hp _. congruence.
Qed.

Section Swap.

Context (sc : Strconv) (E : EthLib) (SL : SolLib) (N : Network E) (cfg : Config).
Context (BigInt_String : Z -> string) (FormatV : Json -> string) (FormatG : float64 -> string).
Context (graphql_quote : list Event -> string -> string -> HttpReply (GraphQL SwapResult)).
Context (graphql_swap : list Event -> string -> string -> HttpReply (string + GraphQL string)).

(** X14: a swap that succeeds returns the response it worked on, submitted,
    for the requested destination and the quote of the backend; its
    transaction is for the chain of the destination token, names the
    destination and the [%f] text of the quoted output amount, and its raw form
    is not empty and is what the signing library returned, encoded
    ([ethereum_signed] towards ETH: a transfer of the converted amount;
    [solana_signed] towards SOL: a transfer of the quoted amount taken as
    lamports, whether or not it carries a signature).  This is only possible
    towards ETH or SOL.  Whatever the outcome, the registry is untouched. *)
Theorem ExecuteSwap_success_is_a_signed_submitted_swap
    (fromToken toToken : string) (amount : float64) (destinationAddress : string)
    (w : World) :
  let run := ExecuteSwap sc E SL N cfg BigInt_String FormatV FormatG graphql_quote
               graphql_swap fromToken toToken amount destinationAddress w in
  clients (snd run) = clients w /\
  forall r, fst run = Ok r ->
    swap (snd run) = r /\ Status r = "submitted" /\
    DestinationAddress r = destinationAddress /\
    decodeQuote (graphql_quote (trace w) (solverURL cfg)
                   (calculateSwap_query sc fromToken toToken amount))
    = Ok (Swap_Result r) /\
    (toToken = "ETH" \/ toToken = "SOL") /\
    exists p, TxToSign r = Some p /\ Chain p = determineChain toToken /\
              RawTx p <> EmptyString /\
              ToAddress (Chain_Params p) = destinationAddress /\
              Amount (Chain_Params p) = FormatF sc (ToAmount (Swap_Result r)) /\
              (toToken = "ETH" ->
               ethereum_signed sc E cfg destinationAddress (ToAmount (Swap_Result r))
                 (RawTx p)) /\
              (toToken = "SOL" ->
               solana_signed SL cfg destinationAddress (ToAmount (Swap_Result r))
                 (RawTx p)).
Proof.
  cbv zeta.
  destruct (ExecuteSwap _ _ _ _ _ _ _ _ _ _ _ _ _ _ w) as [o wf] eqn:Hrun. cbn [fst snd].
  unfold ExecuteSwap in Hrun.
  unfold bind at 1 in Hrun. unfold ctx at 1 in Hrun. rewrite CalculateSwap_run in Hrun.
  destruct (decodeQuote _) as [swapResult|e|e] eqn:Hquote; cbn [rewrap fst snd] in Hrun;
    try (injection Hrun as <- <-; split; [reflexivity|discriminate]).
  unfold bind at 1, history at 1 in Hrun. unfold bind at 1, emit at 1 in Hrun.
  unfold bind at 1, lift at 1 in Hrun.
  cbn [trace add_events swap clients] in Hrun.
  destruct (decodeSwap _) as [data|e|e]; cbn [fst snd] in Hrun;
    try (injection Hrun as <- <-; split; [reflexivity|discriminate]).
  unfold bind at 1, put_swap at 1 in Hrun. unfold bind at 1, ctx at 1 in Hrun.
  match type of Hrun with
  | context [PrepareTransaction sc E N cfg BigInt_String ?chain ?w3] =>
      pose proof (PrepareTransaction_outcome sc E N cfg BigInt_String chain w3) as [Hprep Hbad];
      pose proof (PrepareTransaction_lamports sc E N cfg BigInt_String chain w3) as Hlam;
      pose proof (PrepareTransaction_clients sc E N cfg BigInt_String chain w3) as Hc4;
      destruct (PrepareTransaction sc E N cfg BigInt_String chain w3) as [[[]|e|e] w4]
  end; cbn [rewrap fst snd swap clients trace] in *;
    try (injection Hrun as <- <-; split; [exact Hc4|discriminate]).
  destruct Hprep as (p & Hswap4 & Hchain & Hraw & Hto & Hamount & Hgas).
  unfold bind at 1, ctx at 1 in Hrun.
  pose proof (SignTransaction_outcome sc E SL cfg w4) as Hsign.
  pose proof (SignTransaction_signs sc E SL cfg w4) as Hsigns.
  destruct (SignTransaction sc E SL cfg w4) as [[[]|e|e] w5]; cbn [rewrap fst snd] in Hrun;
    try (destruct Hsign as [_ Hc5]; injection Hrun as <- <-;
         split; [congruence|discriminate]).
  destruct Hsign as (_ & _ & _ & _ & Hc5).
  destruct Hsigns as (p' & raw & Hp' & Hswap5 & Hhow).
  unfold bind at 1, ctx at 1 in Hrun.
  pose proof (SubmitTransaction_outcome E N cfg FormatV w5) as Hsubmit.
  destruct (SubmitTransaction E N cfg FormatV w5) as [[[]|e|e] w6]; cbn [rewrap fst snd] in Hrun;
    try (destruct Hsubmit as [_ Hc6]; injection Hrun as <- <-;
         split; [congruence|discriminate]).
  destruct Hsubmit as (hash & p'' & Hp'' & Hsigned & Hswap6 & Hstatus & Hc6).
  unfold get_swap in Hrun. injection Hrun as <- <-.
  split; [congruence|]. intros r Hr. injection Hr as <-.
  assert (Hlamports : Chain p = "solana" -> Lamports (Chain_Params p) = ToAmount swapResult).
  { apply Hlam. rewrite Hswap4. reflexivity. }
  rewrite Hswap4 in Hp'. cbn in Hp'. injection Hp' as <-.
  rewrite Hswap5 in Hp''. cbn in Hp''. injection Hp'' as <-.
  rewrite Hswap6, Hswap5, Hswap4. cbn.
  split; [reflexivity|]. split; [reflexivity|]. split; [reflexivity|].
  split; [reflexivity|].
  assert (Htoken : toToken = "ETH" \/ toToken = "SOL").
  { unfold determineChain in Hbad.
    destruct (String.eqb_spec toToken "ETH") as [?|_]; [left; assumption|].
    destruct (String.eqb_spec toToken "SOL") as [?|_]; [right; assumption|].
    specialize (Hbad ltac:(discriminate) ltac:(discriminate)). discriminate. }
  split; [exact Htoken|].
  exists (set_RawTx raw p). cbn.
  split; [reflexivity|]. split; [exact Hchain|]. split; [exact Hsigned|].
  split; [exact Hto|]. split; [exact Hamount|].
  split.
  - intros ->. cbn in Hchain.
    destruct Hhow as [[_ (ks & key & tx & signedTx & bs & Hks & Hkey & Htx & Hs & Hm & ->)]
                     |[Hsol _]]; [|congruence].
    apply ethTxOf_inv in Htx as (Htxto & Htxgas & Hvalue).
    exists ks, key, tx, signedTx, bs.
    cbn in Hto, Hamount. rewrite Htxto, Htxgas, Hto, (Hgas eq_refl).
    rewrite Hamount in Hvalue. auto 10.
  - intros ->. cbn in Hchain.
    destruct Hhow as [[Heth _]
                     |[_ (ks & solKey & from_address & to_address & blockhash & tx & bs
                          & Hks & Hkey & Hfrom & Hto' & Hnew & Hbs & ->)]]; [congruence|].
    exists ks, solKey, from_address, to_address, blockhash, tx, bs.
    cbn in Hto. rewrite Hto in Hto'. unfold solanaInstruction in Hnew.
    rewrite (Hlamports Hchain) in Hnew. auto 10.
Qed.

(** X15: the destination token is only looked at after the swap mutation
    was sent: towards a token other than ETH and SOL, a swap that the backend
    quoted and accepted fails with the unsupported chain unknown, after both
    requests, and nothing takes the accepted swap back. *)
Theorem ExecuteSwap_checks_token_after_swap_mutation
    (fromToken toToken : string) (amount : float64) (destinationAddress : string)
    (w : World) (quoted : SwapResult) (data : string) :
  let query := calculateSwap_query sc fromToken toToken amount in
  let mutation := swap_mutation FormatG fromToken toToken amount destinationAddress in
  toToken <> "ETH" -> toToken <> "SOL" ->
  decodeQuote (graphql_quote (trace w) (solverURL cfg) query) = Ok quoted ->
  decodeSwap (graphql_swap (trace w ++ [EvHTTP (solverURL cfg) query]) (solverURL cfg)
                mutation) = Ok data ->
  ExecuteSwap sc E SL N cfg BigInt_String FormatV FormatG graphql_quote graphql_swap
    fromToken toToken amount destinationAddress w
  = (Err "failed to prepare transaction: unsupported chain: unknown",
     {| swap := {| TxHash := data; Swap_Result := quoted; Status := "pending";
                   TxToSign := None; DestinationAddress := destinationAddress |};
        clients := clients w;
        trace := trace w ++ [EvHTTP (solverURL cfg) query; EvHTTP (solverURL cfg) mutation] |}).
Proof.
  intros query mutation Heth Hsol Hquote Hswap.
  unfold ExecuteSwap.
  unfold bind at 1. unfold ctx at 1. rewrite CalculateSwap_run.
  fold query. rewrite Hquote. cbn [rewrap].
  unfold bind at 1, history at 1. unfold bind at 1, emit at 1. unfold bind at 1, lift at 1.
  cbn [trace add_events swap clients]. fold mutation. rewrite Hswap.
  unfold bind at 1, put_swap at 1. unfold bind at 1, ctx at 1.
  unfold determineChain.
  destruct (String.eqb_spec toToken "ETH") as [?|_]; [contradiction|].
  destruct (String.eqb_spec toToken "SOL") as [?|_]; [contradiction|].
  cbn. rewrite <- app_assoc. reflexivity.
Qed.

End Swap.

(** On the reference backend, towards SOL: the swap is submitted on
    Solana, for a transfer of [uint64(1.5)] lamports. *)
Lemma ExecuteSwap_success_is_a_signed_submitted_swap_witness :
  let run := ExecuteSwap Reference.strconv Reference.ethlib Reference.sollib
               Reference.network Reference.config pretty (fun _ => "error") format_whole
               backend_quote backend_swap "ETH" "SOL" (float64_of_Z 3) "Destination"
               Reference.world0 in
  is_ok (fst run) = true /\
  exists r p, fst run = Ok r /\ Status r = "submitted" /\ TxToSign r = Some p /\
              Chain p = "solana" /\ RawTx p <> EmptyString /\
              Amount (Chain_Params p) = "1.500000" /\
              solana_signed Reference.sollib Reference.config "Destination" float_1_5
                (RawTx p).
Proof.
  intros run. split; [vm_compute; reflexivity|].
  destruct (fst run) as [r| |] eqn:Hr; try (vm_compute in Hr; discriminate).
  destruct (ExecuteSwap_success_is_a_signed_submitted_swap Reference.strconv
              Reference.ethlib Reference.sollib Reference.network Reference.config pretty
              (fun _ => "error") format_whole backend_quote backend_swap
              "ETH" "SOL" (float64_of_Z 3) "Destination" Reference.world0) as [_ Hok].
  destruct (Hok r Hr)
    as (_ & Hstatus & _ & Hquote & _ & p & Hp & Hchain & Hraw & _ & Hamount & _ & Hsigned).
  injection Hquote as Hquote. rewrite <- Hquote in Hamount, Hsigned.
  exists r, p. repeat split; auto.
Defined.

Lemma ExecuteSwap_checks_token_after_swap_mutation_witness :
  fst (ExecuteSwap Reference.strconv Reference.ethlib Reference.sollib
         Reference.network Reference.config pretty (fun _ => "error") format_whole
         backend_quote backend_swap "ETH" "BTC" (float64_of_Z 3) "Destination"
         Reference.world0)
  = Err "failed to prepare transaction: unsupported chain: unknown" /\
  TxHash (swap (snd (ExecuteSwap Reference.strconv Reference.ethlib Reference.sollib
         Reference.network Reference.config pretty (fun _ => "error") format_whole
         backend_quote backend_swap "ETH" "BTC" (float64_of_Z 3) "Destination"
         Reference.world0))) = "swap-1".
Proof.
  rewrite (ExecuteSwap_checks_token_after_swap_mutation Reference.strconv Reference.ethlib
             Reference.sollib Reference.network Reference.config pretty (fun _ => "error")
             format_whole backend_quote backend_swap "ETH" "BTC" (float64_of_Z 3)
             "Destination" Reference.world0 Reference.quote_sol "swap-1");
    [split; reflexivity|discriminate|discriminate|reflexivity|reflexivity].
Defined.

(** ** The HTTP front *)

Lemma int_of_byte_of_int (b : Z) : int_of_byte (byte_of_int b) = b mod 256.
Proof.
  unfold int_of_byte, byte_of_int.
  assert (Hrange : 0 <= b mod 256 < 256) by (apply Z.mod_pos_bound; lia).
  destruct (Byte.of_N (Z.to_N (b mod 256))) as [y|] eqn:Hy.
  - cbn. apply Byte.to_of_N in Hy. rewrite Hy. lia.
  - apply Byte.of_N_None_iff in Hy. lia.
Qed.

(** X16: the blob handler publishes the low eight bits of every integer of
    the request: the mutation sent carries each value modulo 256, so a request
    whose values are all between 0 and 255 is published as given, and no
    value is ever refused.  A method other than POST is refused with 405
    before anything is sent. *)
Theorem handleBlobHash_publishes_bytes_modulo_256
    (lineraURL : string)
    (graphql_blob : list Event -> string -> string -> HttpReply (GraphQL string))
    (ints : list Z) (chainId : string) (w : World) :
  snd (handleBlobHash lineraURL graphql_blob "POST" (inr (ints, chainId)) w)
  = add_events [EvHTTP lineraURL
                  (publish_mutation chainId (map (fun b => b mod 256) ints))] w /\
  (Forall (fun b => 0 <= b < 256) ints ->
   map (fun b => b mod 256) ints = ints) /\
  (forall method body,
     method <> "POST" ->
     handleBlobHash lineraURL graphql_blob method body w
     = (Ok (Refused 405 "Method not allowed"), w)).
Proof.
  split; [|split].
  - unfold handleBlobHash, attempt, PublishDataBlob, bind, history, emit, ret, fail.
    cbn [String.eqb Ascii.eqb Bool.eqb negb].
    rewrite map_map. rewrite (map_ext _ _ int_of_byte_of_int).
    destruct (graphql_blob _ _ _) as [e|e|e|blobResp]; try reflexivity.
    destruct (gql_errors blobResp); reflexivity.
  - intros Hall. induction Hall as [|b rest Hb _ IH]; [reflexivity|].
    cbn. rewrite IH, Z.mod_small by lia. reflexivity.
  - intros method body Hmethod. unfold handleBlobHash.
    destruct (String.eqb_spec method "POST") as [?|_]; [contradiction|reflexivity].
Qed.

(** The Ethereum case of [extractAmountFromTx], on a value that parses. *)
Lemma extractAmountFromTx_ethereum_run
    (sc : Strconv) (E : EthLib) (SL : SolLib) (BigInt_String : Z -> string)
    (tx : gmap string Json) (value : string) (wei : Z) :
  tx !! "value" = Some (JStr value) ->
  BigInt_SetString E value = Some wei ->
  extractAmountFromTx sc E SL BigInt_String (Some tx)
  = (if (0 <=? wei) && (wei <? 2 ^ 64 * 10 ^ 18)
     then Ok (float64_of_Z (wei / 10 ^ 18))
     else Err ("converted ETH value exceeds uint64 range: "
               +:+ BigInt_String (wei / 10 ^ 18))).
Proof.
  intros Hvalue Hwei.
  unfold extractAmountFromTx. rewrite Hvalue. unfold extractEthereumAmount.
  rewrite Hwei. cbv zeta.
  assert (Hlow : (0 <=? wei / 10 ^ 18) = (0 <=? wei)).
  { destruct (Z.leb_spec 0 wei) as [Hpos|Hneg].
    - apply Z.leb_le. apply Z.div_pos; lia.
    - apply Z.leb_gt. apply Z.div_lt_upper_bound; lia. }
  assert (Hhigh : (wei / 10 ^ 18 <? 2 ^ 64) = (wei <? 2 ^ 64 * 10 ^ 18)).
  { destruct (Z.ltb_spec wei (2 ^ 64 * 10 ^ 18)) as [Hlt|Hge].
    - apply Z.ltb_lt. apply Z.div_lt_upper_bound; lia.
    - apply Z.ltb_ge. apply Z.div_le_lower_bound; lia. }
  rewrite Hlow, Hhigh. reflexivity.
Qed.

(** X17: the amount taken from an Ethereum transaction is its value in
    whole ETH: the wei value divided by 10^18 with the remainder dropped, so a
    payment of less than 1 ETH counts as 0.  A negative value, or one of
    2^64 ETH or more, is refused. *)
Theorem extractAmountFromTx_ethereum_is_whole_eth
    (sc : Strconv) (E : EthLib) (SL : SolLib) (BigInt_String : Z -> string)
    (tx : gmap string Json) (value : string) (wei : Z) :
  tx !! "value" = Some (JStr value) ->
  BigInt_SetString E value = Some wei ->
  extractAmountFromTx sc E SL BigInt_String (Some tx)
  = (if (0 <=? wei) && (wei <? 2 ^ 64 * 10 ^ 18)
     then Ok (float64_of_Z (wei / 10 ^ 18))
     else Err ("converted ETH value exceeds uint64 range: "
               +:+ BigInt_String (wei / 10 ^ 18))) /\
  (0 <= wei < 10 ^ 18 ->
   extractAmountFromTx sc E SL BigInt_String (Some tx) = Ok f64_zero).
Proof.
  intros Hvalue Hwei.
  pose proof (extractAmountFromTx_ethereum_run sc E SL BigInt_String tx value wei
                Hvalue Hwei) as Hrun.
  split; [exact Hrun|].
  intros [Hpos Hsmall]. rewrite Hrun.
  replace (0 <=? wei) with true by (symmetry; apply Z.leb_le; lia).
  replace (wei <? 2 ^ 64 * 10 ^ 18) with true by (symmetry; apply Z.ltb_lt; lia).
  rewrite Z.div_small by lia. reflexivity.
Qed.

(** Half an ETH, on the reference library. *)
Lemma extractAmountFromTx_ethereum_is_whole_eth_witness :
  extractAmountFromTx Reference.strconv Reference.ethlib Reference.sollib pretty
    (Some {[ "value" := JStr "500000000000000000" ]})
  = Ok f64_zero.
Proof.
  apply (extractAmountFromTx_ethereum_is_whole_eth Reference.strconv Reference.ethlib
           Reference.sollib pretty {[ "value" := JStr "500000000000000000" ]}
           "500000000000000000" 500000000000000000);
    [reflexivity|reflexivity|lia].
Defined.


(** The transfer half of the handler starts with the quote for the
    extracted amount. *)
Lemma postTxHashTransfer_quotes
    (sc : Strconv) (E : EthLib) (SL : SolLib) (N : Network E) (cfg : Config)
    (BigInt_String Itoa : Z -> string)
    (graphql_quote : list Event -> string -> string -> HttpReply (GraphQL SwapResult))
    (r : Request) (chain : string) (tx : option (gmap string Json)) (w : World)
    (fromToken : string) (amount : float64) :
  getTokenForChain chain = Ok fromToken ->
  extractAmountFromTx sc E SL BigInt_String tx = Ok amount ->
  exists rest,
    trace (snd (postTxHashTransfer sc E SL N cfg BigInt_String Itoa graphql_quote
                  r chain tx w))
    = trace w ++ EvHTTP (solverURL cfg)
                   (calculateSwap_query sc fromToken (query_get r "toToken") amount)
                 :: rest.
Proof.
  intros Htoken Hamount. unfold postTxHashTransfer. rewrite Htoken, Hamount.
  unfold bind at 1, attempt at 1. rewrite CalculateSwap_run.
  destruct (decodeQuote _) as [swapResult|e|e]; cbn [fst snd];
    try (exists []; reflexivity).
  unfold bind at 1, attempt at 1.
  match goal with
  | |- context [ExecuteTransferMutation sc E N cfg Itoa ?params ?w1] =>
      destruct (ExecuteTransferMutation_events sc E N cfg Itoa params w1)
        as (evs & Hrun & _);
      destruct (ExecuteTransferMutation sc E N cfg Itoa params w1) as [[[resp h]|e|e] w2]
  end; cbn [fst snd] in Hrun |- *; subst w2; eexists; cbn;
    rewrite <- app_assoc; reflexivity.
Qed.

(** X18: for a transaction found on Ethereum, the handler asks the backend
    to quote its value in whole ETH: after the dial and the lookup, the next
    request is the quote from ETH to the requested token for the wei value
    divided by 10^18, remainder dropped. *)
Theorem handlePostTxHash_quotes_whole_eth
    (sc : Strconv) (E : EthLib) (SL : SolLib) (N : Network E) (cfg : Config)
    (BigInt_String Itoa : Z -> string)
    (graphql_quote : list Event -> string -> string -> HttpReply (GraphQL SwapResult))
    (eth_transaction_by_hash : list Event -> string -> outcome (EthTx * string * bool))
    (r : Request) (w : World) (tx : EthTx) (hash : string) (isPending : bool) :
  Method r = "POST" ->
  query_get r "txHash" <> EmptyString ->
  query_get r "chain" = "ethereum" ->
  query_get r "toToken" <> EmptyString ->
  query_get r "destinationAddress" <> EmptyString ->
  (forall h url, eth_dial N h url = None) ->
  (forall h, eth_transaction_by_hash h (query_get r "txHash") = Ok (tx, hash, isPending)) ->
  BigInt_SetString E (BigInt_String (tx_value tx)) = Some (tx_value tx) ->
  0 <= tx_value tx < 2 ^ 64 * 10 ^ 18 ->
  exists rest,
    trace (snd (handlePostTxHash sc E SL N cfg BigInt_String Itoa graphql_quote
                  eth_transaction_by_hash r w))
    = trace w ++ [EvEthDial (EthereumRPC cfg); EvEthQuery "TransactionByHash";
                  EvHTTP (solverURL cfg)
                    (calculateSwap_query sc "ETH" (query_get r "toToken")
                       (float64_of_Z (tx_value tx / 10 ^ 18)))] ++ rest.
Proof.
  intros Hpost Htx Hchain Htoken Hdest Hdial Hfound Hround Hrange.
  unfold handlePostTxHash. rewrite Hpost, Hchain. cbn [String.eqb Ascii.eqb Bool.eqb negb].
  destruct (String.eqb_spec (query_get r "txHash") EmptyString) as [?|_]; [contradiction|].
  destruct (String.eqb_spec (query_get r "toToken") EmptyString) as [?|_]; [contradiction|].
  destruct (String.eqb_spec (query_get r "destinationAddress") EmptyString) as [?|_];
    [contradiction|].
  cbn [negb andb].
  unfold bind at 1, attempt at 1.
  unfold GetEthereumTransaction, dialEthereum, check, ctx, bind, history, emit, lift, ret.
  cbn [trace]. rewrite Hdial, Hfound. cbn [rewrap].
  cbn [swap clients trace].
  match goal with
  | |- context [postTxHashTransfer _ _ _ _ _ _ _ _ _ _ ?found ?w1] =>
      destruct (postTxHashTransfer_quotes sc E SL N cfg BigInt_String Itoa graphql_quote
                  r "ethereum" found w1 "ETH" (float64_of_Z (tx_value tx / 10 ^ 18)))
        as [rest Hrest]
  end.
  - reflexivity.
  - rewrite (extractAmountFromTx_ethereum_run sc E SL BigInt_String _
               (BigInt_String (tx_value tx)) (tx_value tx)).
    + replace (0 <=? tx_value tx) with true by (symmetry; apply Z.leb_le; lia).
      replace (tx_value tx <? 2 ^ 64 * 10 ^ 18) with true
        by (symmetry; apply Z.ltb_lt; lia).
      reflexivity.
    + rewrite lookup_insert_ne by discriminate. apply lookup_insert_eq.
    + exact Hround.
  - exists rest. rewrite Hrest. cbn [trace]. rewrite <- !app_assoc. reflexivity.
Qed.

(** A payment of 1.5 ETH is quoted as 1 ETH. *)
Lemma handlePostTxHash_quotes_whole_eth_witness :
  exists rest,
    trace (snd (handlePostTxHash Reference.strconv Reference.ethlib Reference.sollib
                  Reference.network Reference.config pretty pretty backend_quote
                  node_lookup request_paid_in_eth Reference.world0))
    = [EvEthDial "http://localhost:8545"; EvEthQuery "TransactionByHash";
       EvHTTP "http://localhost:8080/solver"
         (calculateSwap_query Reference.strconv "ETH" "SOL" (float64_of_Z 1))] ++ rest.
Proof.
  apply (handlePostTxHash_quotes_whole_eth Reference.strconv Reference.ethlib
           Reference.sollib Reference.network Reference.config pretty pretty backend_quote
           node_lookup request_paid_in_eth Reference.world0
           (NewTransaction 0 20 1500000000000000000 21000 (Some 1000000000) [])
           "0xabc" false);
    try reflexivity; try (vm_compute; discriminate).
  cbn. lia.
Defined.

(** ** Listing a token for sale *)

Section Listing.

Context (sc : Strconv) (E : EthLib) (N : Network E) (cfg : Config).
Context (contract_getListPrice : list Event -> Z -> outcome (list Z)).
Context (contract_listToken : list Event -> Z -> Z -> option Z -> Z -> Z -> outcome string).
Context (graphql_list_sale : list Event -> string -> string -> HttpReply (GraphQL Json)).

(** The events of [ListToken] contain no notification; a token id that is
    no decimal number is refused before anything else. *)
Lemma ListToken_events (tokenId price : string) (w : World) :
  let run := ListToken sc E N cfg contract_getListPrice contract_listToken tokenId price w in
  (exists evs, snd run = add_events evs w /\ forall type, count_status type evs = 0%nat) /\
  (BigInt_SetString E tokenId = None ->
   run = (Err ("failed to parse token ID: " +:+ tokenId), w)).
Proof.
  cbv zeta. unfold ListToken.
  destruct (BigInt_SetString E tokenId) as [tokenIdInt|]; [|split; [|reflexivity]].
  2:{ exists []. unfold fail, add_events. cbn. rewrite app_nil_r. destruct w; auto. }
  split; [|discriminate].
  unfold dialEthereum, check, ctx, bind, history, emit, lift, ret, fail, panic.
  cbn [trace].
  destruct (toWei _) as [amountWei|e|e]; cbn.
  2,3: exists []; unfold add_events; cbn; rewrite app_nil_r; destruct w; auto.
  destruct (eth_dial N _ _) as [e|]; cbn;
    [eexists; split; [unfold add_events; cbn; reflexivity|reflexivity]|].
  destruct (contract_getListPrice _ _) as [result|e|e]; cbn;
    try (eexists; split;
         [unfold add_events; cbn; rewrite <- ?app_assoc; reflexivity|reflexivity]).
  destruct (chainKeys cfg) as [ks|]; cbn;
    try (eexists; split;
         [unfold add_events; cbn; rewrite <- ?app_assoc; reflexivity|reflexivity]).
  destruct (NewKeyedTransactorWithChainID E _ _) as [auth|e|e]; cbn;
    try (eexists; split;
         [unfold add_events; cbn; rewrite <- ?app_assoc; reflexivity|reflexivity]).
  destruct (contract_listToken _ _ _ _ _ _) as [tx|e|e]; cbn;
    try (eexists; split;
         [unfold add_events; cbn; rewrite <- ?app_assoc; reflexivity|reflexivity]).
  destruct (wait_mined N _ tx); cbn;
    (eexists; split;
     [unfold add_events; cbn; rewrite <- ?app_assoc; reflexivity|reflexivity]).
Qed.

(** X19: a listing is announced exactly when it succeeded: the notice
    nft_listed is put on the broadcast channel once, as the last event, when
    the call returns a result, and never when it fails, also when it fails
    after the token was listed on Ethereum.  The Ethereum listing is made for
    [nftId]: when that is no decimal number the call fails before anything is
    sent.  Swap and registry are untouched. *)
Theorem ListNftForSale_announces_only_success
    (owner chainId tokenId price nftId chainOwner : string) (w : World) :
  let run := ListNftForSale sc E N cfg contract_getListPrice contract_listToken
               graphql_list_sale owner chainId tokenId price nftId chainOwner w in
  (exists evs,
     snd run = add_events evs w /\
     count_status "nft_listed" evs = (if is_ok (fst run) then 1 else 0)%nat /\
     (is_ok (fst run) = true ->
      exists rest, evs = rest ++ [EvHTTP (nonFungibleURL cfg)
                                    (list_sale_mutation tokenId chainOwner);
                                  EvChanSend (nft_listed_message tokenId price owner)])) /\
  (BigInt_SetString E nftId = None ->
   run = (Err ("error listing token on Ethereum: failed to parse token ID: " +:+ nftId), w)).
Proof.
  cbv zeta.
  destruct (ListNftForSale _ _ _ _ _ _ _ _ _ _ _ _ _ w) as [o wf] eqn:Hfinal.
  cbn [fst snd]. unfold ListNftForSale in Hfinal.
  unfold bind at 1, ctx at 1 in Hfinal.
  destruct (ListToken_events nftId price w) as [(evs1 & Hrun & Hnone) Hbad].
  cbv zeta in Hrun, Hbad.
  destruct (ListToken sc E N cfg contract_getListPrice contract_listToken nftId price w)
    as [[txHash|e|e] w1]; cbn [fst snd rewrap] in *.
  2:{ injection Hfinal as <- <-. split.
      - exists evs1. rewrite Hnone. repeat split; first [exact Hrun|discriminate].
      - intros Hnft. specialize (Hbad Hnft). injection Hbad as -> ->. reflexivity. }
  2:{ injection Hfinal as <- <-. split.
      - exists evs1. rewrite Hnone. repeat split; first [exact Hrun|discriminate].
      - intros Hnft. specialize (Hbad Hnft). discriminate. }
  split; [|intros Hnft; specialize (Hbad Hnft); discriminate].
  subst w1. unfold panic, bind, history, emit, ret, fail in Hfinal.
  destruct (chainKeys cfg) as [ks|];
    [|injection Hfinal as <- <-; exists evs1; rewrite Hnone;
      repeat split; first [reflexivity|discriminate]].
  destruct (EthereumKey ks) as [key|];
    [|injection Hfinal as <- <-; exists evs1; rewrite Hnone;
      repeat split; first [reflexivity|discriminate]].
  set (request := EvHTTP (nonFungibleURL cfg) (list_sale_mutation tokenId chainOwner)) in *.
  set (notice := EvChanSend (nft_listed_message tokenId price owner)) in *.
  cbn [trace add_events swap clients] in Hfinal.
  destruct (graphql_list_sale _ _ _) as [e|e|e|result].
  1-3: injection Hfinal as <- <-;
       exists (evs1 ++ [request]); rewrite count_status_app, Hnone;
       unfold add_events; cbn [swap clients trace]; rewrite <- ?app_assoc;
       repeat split; first [reflexivity|discriminate].
  destruct (gql_errors result) as [|e errs]; injection Hfinal as <- <-.
  - exists (evs1 ++ [request; notice]). rewrite count_status_app, Hnone.
    unfold add_events; cbn [swap clients trace]; rewrite <- ?app_assoc.
    repeat split; try reflexivity. intros _. exists evs1. reflexivity.
  - exists (evs1 ++ [request]); rewrite count_status_app, Hnone;
      unfold add_events; cbn [swap clients trace]; rewrite <- ?app_assoc;
      repeat split; first [reflexivity|discriminate].
Qed.

End Listing.

(** ** IPFS gateway URLs *)

Lemma includes_false_prefix (s pat : string) :
  includes s pat = false -> String.prefix pat s = false.
Proof.
  destruct s as [|c s]; cbn [includes].
  - destruct (String.prefix pat EmptyString); congruence.
  - destruct (String.prefix pat (String c s)); congruence.
Qed.

Lemma prefix_append (pat rest : string) : String.prefix pat (pat +:+ rest) = true.
Proof.
  induction pat as [|c pat IH]; [destruct rest; reflexivity|].
  change (String c pat +:+ rest) with (String c (pat +:+ rest)).
  cbn [String.prefix]. destruct (ascii_dec c c); [exact IH|congruence].
Qed.

Lemma replace_first_absent (pat rep s : string) :
  includes s pat = false -> replace_first pat rep s = s.
Proof.
  induction s as [|c s IH]; intros Habsent.
  - pose proof (includes_false_prefix _ _ Habsent) as Hp.
    cbn [replace_first]. rewrite Hp. reflexivity.
  - pose proof (includes_false_prefix _ _ Habsent) as Hp.
    cbn [replace_first]. rewrite Hp. f_equal. apply IH.
    cbn [includes] in Habsent. rewrite Hp in Habsent. exact Habsent.
Qed.

Lemma includes_at (pat s : string) (n : nat) :
  String.prefix pat (drop_chars n s) = true -> includes s pat = true.
Proof.
  revert s. induction n as [|n IH]; intros s Hn.
  - cbn [drop_chars] in Hn. destruct s; cbn [includes]; rewrite Hn; reflexivity.
  - destruct s as [|c s].
    + cbn [drop_chars] in Hn. cbn [includes]. rewrite Hn. reflexivity.
    + cbn [drop_chars] in Hn. cbn [includes].
      destruct (String.prefix pat (String c s)); [reflexivity|]. apply IH, Hn.
Qed.

Lemma replace_first_at (pat rep s : string) (n : nat) :
  first_occurrence_at pat s n ->
  replace_first pat rep s
  = take_chars n s +:+ rep +:+ drop_chars (n + String.length pat) s.
Proof.
  revert s. induction n as [|n IH]; intros s [Hn Hfirst].
  - cbn [drop_chars] in Hn. cbn [take_chars Nat.add].
    destruct s; cbn [replace_first]; rewrite Hn; reflexivity.
  - assert (H0 : String.prefix pat s = false) by (apply (Hfirst 0%nat); lia).
    destruct s as [|c s].
    + cbn [drop_chars] in Hn. congruence.
    + cbn [replace_first]. rewrite H0. cbn [take_chars Nat.add drop_chars].
      change (String c (take_chars n s) +:+ ?y) with (String c (take_chars n s +:+ y)).
      f_equal. apply IH. split; [exact Hn|].
      intros m Hm. apply (Hfirst (S m)). lia.
Qed.

(** X20: the gateway rewrite replaces the first occurrence of the scheme
    ipfs:// by the gateway address and leaves every other character where it
    was, a later occurrence included; a text without the scheme, the empty
    text included, is returned as it is. *)
Theorem GetIpfsUrlFromPinata_rewrites_first_scheme (pinataUrl : string) :
  (includes pinataUrl "ipfs://" = false -> GetIpfsUrlFromPinata pinataUrl = pinataUrl) /\
  (forall n, first_occurrence_at "ipfs://" pinataUrl n ->
     GetIpfsUrlFromPinata pinataUrl
     = take_chars n pinataUrl +:+ "https://ipfs.io/ipfs/" +:+ drop_chars (n + 7) pinataUrl) /\
  (forall rest, GetIpfsUrlFromPinata ("ipfs://" +:+ rest) = "https://ipfs.io/ipfs/" +:+ rest).
Proof.
  unfold GetIpfsUrlFromPinata. split; [|split].
  - intros ->. rewrite orb_true_r. reflexivity.
  - intros n Hn. pose proof Hn as [Hocc _].
    rewrite (includes_at _ _ _ Hocc).
    destruct pinataUrl as [|c s]; [destruct n; cbn in Hocc; discriminate|].
    cbn [String.eqb negb orb].
    apply (replace_first_at "ipfs://" "https://ipfs.io/ipfs/" (String c s) n Hn).
  - intros rest.
    pose proof (prefix_append "ipfs://" rest) as Hprefix.
    rewrite (includes_at "ipfs://" _ 0%nat Hprefix).
    change ("ipfs://" +:+ rest) with (String "i" ("pfs://" +:+ rest)) in *.
    cbn [String.eqb negb orb replace_first]. rewrite Hprefix. reflexivity.
Qed.

(** Two occurrences: the first one is rewritten, the second one stays. *)
Lemma GetIpfsUrlFromPinata_rewrites_first_scheme_witness :
  GetIpfsUrlFromPinata "a ipfs://Qm1 ipfs://Qm2" = "a https://ipfs.io/ipfs/Qm1 ipfs://Qm2".
Proof.
  rewrite (proj1 (proj2 (GetIpfsUrlFromPinata_rewrites_first_scheme
                           "a ipfs://Qm1 ipfs://Qm2")) 2%nat).
  - reflexivity.
  - split; [reflexivity|]. intros [|[|m]] Hm; [reflexivity|reflexivity|lia].
Defined.

(** ** Sessions and deliveries together *)

(** The walk order of the reference registry lists every key once. *)
Lemma reference_range_order_enumerates (m : gmap Conn bool) :
  enumerates (Reference.range_order m) m.
Proof.
  split; [apply NoDup_fst_map_to_list|].
  intros c. unfold Reference.range_order. rewrite list_elem_of_fmap. split.
  - intros ([c' b] & -> & Hcb). exists b. apply elem_of_map_to_list. exact Hcb.
  - intros [b Hb]. exists (c, b). split; [reflexivity|].
    apply elem_of_map_to_list. exact Hb.
Qed.

(** X21: events broadcast after a session has ended are not written to its
    connection: the session ends by closing the connection and taking it out
    of the registry, and the delivery loop that runs afterwards writes nothing
    to it and does not register it again. *)
Theorem no_delivery_after_disconnect
    (E : EthLib) (N : Network E) (range_order : gmap Conn bool -> list Conn)
    (closed : Conn -> bool) (conn : Conn) (inbound msgs : list WSMessage) (w : World) :
  write_fails_exactly_on N closed ->
  (forall m, enumerates (range_order m) m) ->
  exists session deliveries clients',
    (HandleWebSocket E N (Some conn) inbound ;; handleBroadcasts E N range_order msgs) w
    = (Ok tt, {| swap := swap w; clients := clients';
                 trace := trace w ++ session ++ deliveries |}) /\
    last session = Some (EvClose conn) /\
    writes_to conn session = S (length inbound) /\
    writes_to conn deliveries = 0%nat /\
    clients' !! conn = None.
Proof.
  intros Hfail Henum. unfold bind at 1. rewrite HandleWebSocket_run.
  set (replies := map _ inbound).
  set (w1 := {| swap := swap w; clients := delete conn (clients w); trace := _ |}).
  destruct (handleBroadcasts_run E N range_order closed msgs w1 Hfail Henum)
    as (evs & clients' & Hrun & _ & Hout & Hfinal).
  assert (Hgone : clients w1 !! conn = None) by apply lookup_delete_eq.
  exists (EvWriteJSON conn connected_message :: replies ++ [EvClose conn]), evs, clients'.
  split; [|split; [|split; [|split]]].
  - rewrite Hrun. cbn [swap clients trace w1]. rewrite <- app_assoc. reflexivity.
  - change (EvWriteJSON conn connected_message :: replies ++ [EvClose conn])
      with ((EvWriteJSON conn connected_message :: replies) ++ [EvClose conn]).
    apply last_snoc.
  - change (EvWriteJSON conn connected_message :: replies ++ [EvClose conn])
      with ([EvWriteJSON conn connected_message] ++ replies ++ [EvClose conn]).
    rewrite !writes_to_app. unfold writes_to at 1 3. cbn. rewrite Nat.eqb_refl. cbn.
    rewrite Nat.add_0_r. f_equal. unfold replies, writes_to.
    clear. induction inbound as [|msg rest IH]; [reflexivity|].
    cbn. rewrite Nat.eqb_refl. cbn. f_equal. exact IH.
  - apply Hout. exact Hgone.
  - destruct msgs as [|msg rest].
    + cbn in Hrun. injection Hrun as <-. exact Hgone.
    + rewrite (Hfinal ltac:(discriminate) conn). destruct (closed conn); [reflexivity|].
      exact Hgone.
Qed.

(** On the reference network: a session on connection 5 that read one
    ping, then one event delivered to the subscribers 1 and 3. *)
Lemma no_delivery_after_disconnect_witness :
  let registry : gmap Conn bool := {[ 1%nat := true; 3%nat := true ]} in
  let w := {| swap := Reference.empty_swap; clients := registry; trace := [] |} in
  exists session deliveries clients',
    (HandleWebSocket Reference.ethlib Reference.network (Some 5%nat)
       [{| MsgType := "ping"; MsgData := JNull; MsgError := EmptyString |}] ;;
     handleBroadcasts Reference.ethlib Reference.network Reference.range_order
       [pong_message]) w
    = (Ok tt, {| swap := swap w; clients := clients'; trace := session ++ deliveries |}) /\
    last session = Some (EvClose 5%nat) /\
    writes_to 5%nat session = 2%nat /\
    writes_to 5%nat deliveries = 0%nat /\
    clients' !! 5%nat = None.
Proof.
  intros registry w.
  apply (no_delivery_after_disconnect Reference.ethlib Reference.network
           Reference.range_order (fun c => Nat.eqb c 2) 5%nat
           [{| MsgType := "ping"; MsgData := JNull; MsgError := EmptyString |}]
           [pong_message] w).
  - intros h c m. cbn. destruct (Nat.eqb c 2); split; congruence.
  - apply reference_range_order_enumerates.
Defined.

(** ** The token counter *)

(** X22: the next NFT id reported is the successor of the contract's
    counter, and wraps: for a counter within uint64 the answer is the counter
    and the counter plus one, except at 2^64 - 1, where the next id reported
    is 0.  A contract call that fails is an error 500 that carries the error
    of the call, and a method other than GET is refused with 405 before
    anything is asked. *)
Theorem handleNextNFTID_reports_successor
    (E : EthLib) (N : Network E) (cfg : Config)
    (contract_getCurrentToken : list Event -> Z -> outcome Z)
    (w : World) (tokenID : Z) :
  (forall h url, eth_dial N h url = None) ->
  (forall h contract, contract_getCurrentToken h contract = Ok tokenID) ->
  0 <= tokenID < 2 ^ 64 ->
  handleNextNFTID E N cfg contract_getCurrentToken "GET" w
  = (Ok (Answered {| currentId := tokenID;
                     nextId := if tokenID =? 2 ^ 64 - 1 then 0 else tokenID + 1 |}),
     add_events [EvEthDial (EthereumRPC cfg); EvEthQuery "getCurrentToken"] w) /\
  (forall method, method <> "GET" ->
     handleNextNFTID E N cfg contract_getCurrentToken method w
     = (Ok (Refused 405 "Method not allowed"), w)) /\
  (forall (failing : list Event -> Z -> outcome Z) (e : string),
     (forall h contract, failing h contract = Err e) ->
     handleNextNFTID E N cfg failing "GET" w
     = (Ok (Refused 500
              ("Error getting next NFT ID: failed to get current token ID: " +:+ e)),
        add_events [EvEthDial (EthereumRPC cfg); EvEthQuery "getCurrentToken"] w)).
Proof.
  intros Hdial Hcall Hrange. split; [|split].
  - unfold handleNextNFTID, attempt, GetCurrentTokenID, dialEthereum, check, ctx, bind,
      history, emit, lift, ret.
    cbn [String.eqb Ascii.eqb Bool.eqb negb trace].
    rewrite Hdial, Hcall. cbn [rewrap].
    unfold BigInt_Uint64. rewrite Z.abs_eq, Z.mod_small by lia.
    unfold add_events. cbn [swap clients trace]. rewrite <- app_assoc.
    destruct (Z.eqb_spec tokenID (2 ^ 64 - 1)) as [->|Hne].
    + reflexivity.
    + rewrite Z.mod_small by lia. reflexivity.
  - intros method Hmethod. unfold handleNextNFTID.
    destruct (String.eqb_spec method "GET") as [?|_]; [contradiction|reflexivity].
  - intros failing e Hfailing.
    unfold handleNextNFTID, attempt, GetCurrentTokenID, dialEthereum, check, ctx, bind,
      history, emit, lift, ret.
    cbn [String.eqb Ascii.eqb Bool.eqb negb trace].
    rewrite Hdial, Hfailing. cbn [rewrap].
    unfold add_events, wrap. cbn [swap clients trace]. rewrite <- app_assoc. reflexivity.
Qed.

(** At the last uint64 the next id is 0; a failing call is reported with
    its error. *)
Lemma handleNextNFTID_reports_successor_witness :
  fst (handleNextNFTID Reference.ethlib Reference.network Reference.config
         counter_at_last "GET" Reference.world0)
  = Ok (Answered {| currentId := 18446744073709551615; nextId := 0 |}) /\
  fst (handleNextNFTID Reference.ethlib Reference.network Reference.config
         counter_failing "GET" Reference.world0)
  = Ok (Refused 500
          "Error getting next NFT ID: failed to get current token ID: execution reverted").
Proof.
  destruct (handleNextNFTID_reports_successor Reference.ethlib Reference.network
              Reference.config counter_at_last Reference.world0 (2 ^ 64 - 1))
    as (Hrun & _ & Hfail); [reflexivity|reflexivity|lia|].
  rewrite Hrun.
  rewrite (Hfail counter_failing _ ltac:(reflexivity)).
  split; reflexivity.
Defined.
